(** * CV Studio (app.py): bullet generator and document renderers

    A shallow embedding of the generation and rendering code of [app.py]:
    [smart_expand], [pil_to_datauri], the DOCX build handler, the HTML
    download handler and [render_preview_html], followed by the properties
    the specification states about them. *)

From Stdlib Require Import Strings.String Strings.Ascii.
From Stdlib Require Import List Bool Arith NArith ZArith Lia Permutation.
From Stdlib Require Import Numbers.DecimalString.
Import ListNotations.

Set Implicit Arguments.

(* ================================================================== *)
(** ** Python strings *)
(* ================================================================== *)

(** A Python [str] is a sequence of Unicode code points.  Code points are
    kept as [N]; the literals of the program are ASCII apart from three
    punctuation marks, which are named below. *)
Module PyStr.

Definition char := N.
Definition pystr := list char.

(** An ASCII literal of the program text. *)
Definition lit (s : string) : pystr := map N_of_ascii (list_ascii_of_string s).
Arguments lit s%_string.

Definition em_dash : char := 8212%N.      (* U+2014 *)
Definition middle_dot : char := 183%N.    (* U+00B7 *)
Definition bullet_glyph : char := 8226%N. (* U+2022 *)
Definition dquote : char := 34%N.
Definition newline : char := 10%N.

(** [bool(s)] for a string or a list: false exactly when empty. *)
Definition truthy {A : Type} (s : list A) : bool :=
  match s with [] => false | _ :: _ => true end.

Fixpoint str_eqb (a b : pystr) : bool :=
  match a, b with
  | [], [] => true
  | x :: a', y :: b' => N.eqb x y && str_eqb a' b'
  | _, _ => false
  end.

(** The code points [str.strip()] and [str.split()] treat as whitespace. *)
Definition is_space (c : char) : bool :=
  ((9 <=? c) && (c <=? 13) || (28 <=? c) && (c <=? 32)
   || (c =? 133) || (c =? 160) || (c =? 5760)
   || (8192 <=? c) && (c <=? 8202)
   || (c =? 8232) || (c =? 8233) || (c =? 8239) || (c =? 8287)
   || (c =? 12288))%N.

Fixpoint lstrip (s : pystr) : pystr :=
  match s with
  | c :: s' => if is_space c then lstrip s' else s
  | [] => []
  end.

Definition rstrip (s : pystr) : pystr := rev (lstrip (rev s)).

(** [s.strip()] *)
Definition strip (s : pystr) : pystr := rstrip (lstrip s).

(** [s.split()]: the maximal runs of non-whitespace, in order.  [cur] is the
    run being read, reversed. *)
Fixpoint split_from (cur : pystr) (s : pystr) : list pystr :=
  match s with
  | [] => match cur with [] => [] | _ => [rev cur] end
  | c :: s' =>
      if is_space c
      then match cur with
           | [] => split_from [] s'
           | _ => rev cur :: split_from [] s'
           end
      else split_from (c :: cur) s'
  end.

Definition split (s : pystr) : list pystr := split_from [] s.

(** [sep.join(parts)] *)
Fixpoint join (sep : pystr) (parts : list pystr) : pystr :=
  match parts with
  | [] => []
  | [p] => p
  | p :: rest => p ++ sep ++ join sep rest
  end.

(** [s.startswith(p)] *)
Fixpoint startswith (s p : pystr) {struct p} : bool :=
  match p, s with
  | [], _ => true
  | x :: p', y :: s' => N.eqb x y && startswith s' p'
  | _ :: _, [] => false
  end.

(** [s.endswith(p)] *)
Definition endswith (s p : pystr) : bool := startswith (rev s) (rev p).

(** [needle in hay] *)
Fixpoint contains (hay needle : pystr) : bool :=
  startswith hay needle
  || match hay with
     | [] => false
     | _ :: hay' => contains hay' needle
     end.

(** [s.find(needle)], with [None] for -1. *)
Fixpoint find (hay needle : pystr) : option nat :=
  if startswith hay needle then Some 0
  else match hay with
       | [] => None
       | _ :: hay' => option_map S (find hay' needle)
       end.

(** [s.replace(old, new)] for a one-character [old]. *)
Definition replace_char (old : char) (new : pystr) (s : pystr) : pystr :=
  flat_map (fun c => if N.eqb c old then new else [c]) s.

(** [html.escape(s)] with its default [quote=True]. *)
Definition escape_char (c : char) : pystr :=
  if N.eqb c 38 then lit "&amp;"
  else if N.eqb c 60 then lit "&lt;"
  else if N.eqb c 62 then lit "&gt;"
  else if N.eqb c 34 then lit "&quot;"
  else if N.eqb c 39 then lit "&#x27;"
  else [c].

Definition escape (s : pystr) : pystr := flat_map escape_char s.

(** [str(n)] for a non-negative integer. *)
Definition str_of_N (n : N) : pystr :=
  lit (NilZero.string_of_uint (N.to_uint n)).

(** [str.lower] on the ASCII letters; every other code point is kept. *)
Definition ascii_lower_char (c : char) : char :=
  if ((65 <=? c) && (c <=? 90))%N then (c + 32)%N else c.

Definition ascii_lower (s : pystr) : pystr := map ascii_lower_char s.

Definition is_ascii (s : pystr) : Prop := Forall (fun c => (c < 128)%N) s.

(** [s.encode("utf-8")]: [None] where Python raises [UnicodeEncodeError]
    (a lone surrogate). *)
Definition utf8_char (c : char) : option (list N) :=
  if (c <? 128)%N then Some [c]
  else if (c <? 2048)%N then Some [192 + c / 64; 128 + c mod 64]%N
  else if ((55296 <=? c) && (c <=? 57343))%N then None
  else if (c <? 65536)%N
       then Some [224 + c / 4096; 128 + (c / 64) mod 64; 128 + c mod 64]%N
  else Some [240 + c / 262144; 128 + (c / 4096) mod 64;
             128 + (c / 64) mod 64; 128 + c mod 64]%N.

Fixpoint encode_utf8 (s : pystr) : option (list N) :=
  match s with
  | [] => Some []
  | c :: s' =>
      match utf8_char c, encode_utf8 s' with
      | Some b, Some bs => Some (b ++ bs)
      | _, _ => None
      end
  end.

End PyStr.
Import PyStr.

(* ================================================================== *)
(** ** The random source *)
(* ================================================================== *)

(** The module-level generator of [random] is a piece of state every call
    reads and advances.  [G] is that state.  [choice] and [shuffle] are the
    two calls the program makes; what is known of them is that [choice]
    returns a member of a non-empty sequence and [shuffle] reorders.  The
    first argument of [choice] stands for the [IndexError] of an empty
    sequence, which the program never reaches: it only chooses from its own
    non-empty constants. *)
Class RandomSource (G : Type) := {
  choice : forall A : Type, A -> list A -> G -> A * G;
  shuffle : forall A : Type, list A -> G -> list A * G;
  choice_In : forall (A : Type) (d : A) (l : list A) (g : G),
      l <> [] -> In (fst (choice d l g)) l;
  shuffle_Permutation : forall (A : Type) (l : list A) (g : G),
      Permutation l (fst (shuffle l g))
}.

(** Computations that use the random source. *)
Definition Rand (G A : Type) : Type := G -> A * G.

Definition ret {G A : Type} (a : A) : Rand G A := fun g => (a, g).

Definition bind {G A B : Type} (m : Rand G A) (k : A -> Rand G B) : Rand G B :=
  fun g => let (a, g') := m g in k a g'.

Declare Scope rand_scope.
Delimit Scope rand_scope with rand.
Notation "x <- m ;; k" := (bind m (fun x => k))
  (at level 61, m at next level, right associativity) : rand_scope.
Open Scope rand_scope.

(* ================================================================== *)
(** ** The bullet generator *)
(* ================================================================== *)

Definition ACTION_VERBS : list pystr :=
  [lit "Led"; lit "Designed"; lit "Implemented"; lit "Spearheaded"; lit "Managed";
   lit "Optimized"; lit "Increased"; lit "Reduced"; lit "Improved"; lit "Delivered";
   lit "Built"; lit "Coordinated"; lit "Developed"; lit "Negotiated"; lit "Streamlined";
   lit "Drove"; lit "Facilitated"; lit "Executed"; lit "Mentored"; lit "Launched"].

Definition METRICS : list pystr :=
  [lit "revenue"; lit "efficiency"; lit "customer satisfaction"; lit "cost";
   lit "uptime"; lit "retention"; lit "conversion rate"].

Definition VALUES : list N := [8; 10; 12; 15; 20; 25; 30]%N.

Definition SALES_SENTENCE : pystr :=
  lit "Built strong client relationships and expanded accounts through consultative selling.".
Definition ENGINEER_SENTENCE : pystr :=
  lit "Improved system reliability and deployment velocity through automation and testing.".
Definition PRODUCT_SENTENCE : pystr :=
  lit "Prioritised features and worked cross-functionally to launch product improvements.".

(** [any(x in role_l for x in keywords)] *)
Definition any_in (role_l : pystr) (keywords : list pystr) : bool :=
  existsb (contains role_l) keywords.

(** [bullets[:n]] *)
Definition slice_to (A : Type) (n : Z) (l : list A) : list A :=
  if (0 <=? n)%Z then firstn (Z.to_nat n) l
  else firstn (length l - Z.to_nat (- n)) l.

(** The body of the [for c in candidates] loop, from the current [bullets]. *)
Fixpoint take_candidates (n : Z) (candidates bullets : list pystr) : list pystr :=
  match candidates with
  | [] => bullets
  | c :: rest =>
      if (Z.of_nat (length bullets) >=? n)%Z then bullets
      else
        let s := strip c in
        let s := if negb (endswith s (lit ".")) then s ++ lit "." else s in
        take_candidates n rest (bullets ++ [s])
  end.

Section Generator.

Context {G : Type} `{RandomSource G}.

(** [str.lower].  Its Unicode case tables are the interpreter's, not the
    repository's; the generator is read for any of them. *)
Variable lower : pystr -> pystr.

(** The role-specific sentences appended to the candidates, from the
    lower-cased role. *)
Definition role_flavor (role : pystr) : list pystr :=
  let role_l := lower role in
  (if any_in role_l [lit "sales"; lit "account"; lit "business"]
   then [SALES_SENTENCE] else [])
  ++ (if any_in role_l [lit "engineer"; lit "developer"; lit "dev"; lit "software"]
      then [ENGINEER_SENTENCE] else [])
  ++ (if any_in role_l [lit "product"; lit "pm"; lit "product manager"]
      then [PRODUCT_SENTENCE] else []).

(** The candidate list as it stands just before [random.shuffle]. *)
Definition candidate_pool (desc role company : pystr) : Rand G (list pystr) :=
  metric <- choice [] METRICS ;;
  value <- choice 0%N VALUES ;;
  v1 <- choice [] ACTION_VERBS ;;
  let b1 := if truthy company
            then v1 ++ lit " " ++ desc ++ lit " at " ++ company ++ lit "."
            else v1 ++ lit " " ++ desc ++ lit "." in
  v2 <- choice [] ACTION_VERBS ;;
  let b2 := v2 ++ lit " " ++ desc ++ lit ", achieving ~" ++ str_of_N value
               ++ lit "% improvement in " ++ metric ++ lit "." in
  v3 <- choice [] ACTION_VERBS ;;
  let b3 := v3 ++ lit " " ++ desc
               ++ lit " by focusing on stakeholder needs and measurable KPIs." in
  ret ([b2; b1; b3] ++ role_flavor role).

(** The [while len(bullets) < n] loop.  [fuel] bounds the iterations. *)
Fixpoint pad_bullets (fuel : nat) (desc : pystr) (n : Z) (bullets : list pystr)
  : Rand G (list pystr) :=
  match fuel with
  | O => ret bullets
  | S fuel' =>
      if (Z.of_nat (length bullets) <? n)%Z
      then v <- choice [] ACTION_VERBS ;;
           pad_bullets fuel' desc n (bullets ++ [v ++ lit " " ++ desc ++ lit "."])
      else ret bullets
  end.

Definition smart_expand (description role company : pystr) (n : Z)
  : Rand G (list pystr) :=
  if negb (truthy description && truthy (strip description)) then ret []
  else
    let desc := join (lit " ") (split (strip description)) in
    candidates <- candidate_pool desc role company ;;
    candidates <- shuffle candidates ;;
    let bullets := take_candidates n candidates [] in
    bullets <- (if (Z.of_nat (length bullets) <? n)%Z
                then pad_bullets (Z.to_nat n) desc n bullets
                else ret bullets) ;;
    ret (slice_to n bullets).

End Generator.

(* ================================================================== *)
(** ** The résumé record *)
(* ================================================================== *)

(** [st.session_state.profile] *)
Record Profile := {
  name : pystr;
  title : pystr;
  email : pystr;
  phone : pystr;
  location : pystr;
  linkedin : pystr;
  portfolio : pystr;
  summary : pystr
}.

(** An element of [st.session_state.experience_list] *)
Record ExperienceEntry := {
  role : pystr;
  company : pystr;
  period : pystr;
  description : pystr;
  bullets : list pystr
}.

(** An element of [st.session_state.education_list] *)
Record EducationEntry := {
  degree : pystr;
  school : pystr;
  year : pystr
}.

(** [st.session_state.design] *)
Record Design := {
  style : pystr;
  accent : pystr;
  include_photo : bool
}.

(** The content of an uploaded file. *)
Definition bytes := list N.

(** [st.session_state], as far as generation and rendering read it. *)
Record SessionState := {
  profile : Profile;
  experience_list : list ExperienceEntry;
  education_list : list EducationEntry;
  skills : list pystr;
  photo_file : option bytes;
  design : Design
}.

(** The running script: the session state and the state of [random]. *)
Record World (G : Type) := {
  session : SessionState;
  random_state : G
}.

(* ================================================================== *)
(** ** HTML download handler *)
(* ================================================================== *)

(** The body of [if download_col2.button("Build & Download HTML preview")],
    up to the string [html].  [html] is threaded through the [+=] of the
    two loops. *)
Definition build_html (st : SessionState) : pystr :=
  let name := escape (name (profile st)) in
  let title := escape (title (profile st)) in
  let summary := replace_char newline (lit "<br>") (escape (summary (profile st))) in
  let html :=
    lit "<!doctype html><html><head><meta charset=" ++ [dquote] ++ lit "utf-8"
      ++ [dquote] ++ lit "><title>" ++ name ++ lit " " ++ [em_dash]
      ++ lit " CV</title></head><body>" ++ [newline]
      ++ lit "            <h1>" ++ name ++ lit "</h1><h3>" ++ title
      ++ lit "</h3><p>" ++ summary ++ lit "</p>" in
  let html :=
    if truthy (experience_list st)
    then
      let html := html ++ lit "<h2>Experience</h2>" in
      fold_left
        (fun html ex =>
           let html := html ++ lit "<h3>" ++ escape (role ex) ++ lit " " ++ [em_dash]
                            ++ lit " " ++ escape (company ex) ++ lit "</h3>" in
           let html := html ++ lit "<ul>" in
           let html := fold_left
                         (fun html b => html ++ lit "<li>" ++ escape b ++ lit "</li>")
                         (bullets ex) html in
           html ++ lit "</ul>")
        (experience_list st) html
    else html in
  let html :=
    if truthy (education_list st)
    then
      let html := html ++ lit "<h2>Education</h2>" in
      fold_left
        (fun html ed =>
           html ++ lit "<div><b>" ++ escape (degree ed) ++ lit "</b> " ++ [em_dash]
                ++ lit " " ++ escape (school ed) ++ lit " (" ++ escape (year ed)
                ++ lit ")</div>")
        (education_list st) html
    else html in
  let html :=
    if truthy (skills st)
    then html ++ lit "<h2>Skills</h2><div>" ++ escape (join (lit ", ") (skills st))
              ++ lit "</div>"
    else html in
  html ++ lit "</body></html>".

(** The handler in the running script: it reads the session state, leaves it
    and the random state as they are, and hands [html.encode("utf-8")] to the
    download button.  [None] is the [UnicodeEncodeError] of [encode]. *)
Definition html_download_handler (G : Type) (w : World G) : option bytes * World G :=
  (encode_utf8 (build_html (session w)), w).

(* ================================================================== *)
(** ** Live preview *)
(* ================================================================== *)

(** The dictionary [preview_ctx], one field per key. *)
Module Ctx.
Record t := {
  name : pystr;
  title : pystr;
  summary : pystr;
  email : pystr;
  phone : pystr;
  experience : list ExperienceEntry;
  education : list EducationEntry;
  skills : list pystr;
  photo : option pystr
}.
End Ctx.

Section Preview.

(** The imaging calls of [pil_to_datauri]: [Image.open(f).convert("RGB")],
    saved as PNG and base64-encoded, as text; [None] when one of them
    raises. *)
Variable png_base64 : bytes -> option pystr.

Definition pil_to_datauri (uploaded_file : option bytes) : option pystr :=
  match uploaded_file with
  | None => None
  | Some f =>
      match png_base64 f with
      | Some b64 => Some (lit "data:image/png;base64," ++ b64)
      | None => None
      end
  end.

Definition MODERN_COLOR : pystr := lit "Modern Color".

(** The Modern template from its first line to the opening of the header. *)
Definition modern_css (accent : pystr) : pystr :=
  [newline] ++
  lit "            <html><head><meta charset='utf-8'>" ++ [newline] ++
  lit "            <style>" ++ [newline] ++
  lit "            body{font-family: -apple-system, BlinkMacSystemFont, 'Segoe UI', Roboto, 'Helvetica Neue', Arial; color:#1b2b3a; background:transparent;}" ++ [newline] ++
  lit "            .card{background:white;padding:18px;border-radius:10px;box-shadow:0 8px 24px rgba(12,30,60,0.08);width: 380px;}" ++ [newline] ++
  lit "            .header{display:flex;gap:12px;align-items:center;border-bottom:3px solid #f3f6fb;padding-bottom:10px;margin-bottom:10px}" ++ [newline] ++
  lit "            .name{font-weight:700;font-size:20px;color:" ++ accent ++ lit "}" ++ [newline] ++
  lit "            .title{font-size:13px;color:#334155;margin-top:3px}" ++ [newline] ++
  lit "            .meta{font-size:12px;color:#64748b;margin-top:8px}" ++ [newline] ++
  lit "            .section-title{font-weight:700;margin-top:12px;color:#0f172a;font-size:12px;border-bottom:1px solid #eef2ff;padding-bottom:4px}" ++ [newline] ++
  lit "            .skill{display:inline-block;padding:6px 8px;border-radius:10px;background:#f0faff;margin:4px 4px 0 0;font-size:12px;color:" ++ accent ++ lit "}" ++ [newline] ++
  lit "            ul{margin:6px 0 0 18px;padding:0}" ++ [newline] ++
  lit "            li{margin-bottom:6px;font-size:13px;}" ++ [newline] ++
  lit "            .photo{width:64px;height:64px;border-radius:8px;object-fit:cover}" ++ [newline] ++
  lit "            </style></head><body>" ++ [newline] ++
  lit "            <div class='card'>" ++ [newline] ++
  lit "              <div class='header'>" ++ [newline].

(** The opening f-string of the Modern template. *)
Definition modern_head (accent : pystr) (ctx : Ctx.t) : pystr :=
  modern_css accent ++
  lit "                " ++
    match Ctx.photo ctx with
    | Some photo => lit "<img src='" ++ photo ++ lit "' class='photo'/>"
    | None => []
    end ++ [newline] ++
  lit "                <div>" ++ [newline] ++
  lit "                  <div class='name'>" ++ Ctx.name ctx ++ lit "</div>" ++ [newline] ++
  lit "                  <div class='title'>" ++ Ctx.title ctx ++ lit "</div>" ++ [newline] ++
  lit "                  <div class='meta'>" ++ Ctx.email ctx ++ lit " " ++ [middle_dot]
    ++ lit " " ++ Ctx.phone ctx ++ lit "</div>" ++ [newline] ++
  lit "                </div>" ++ [newline] ++
  lit "              </div>" ++ [newline] ++
  lit "              <div class='summary'>" ++ Ctx.summary ctx ++ lit "</div>" ++ [newline] ++
  lit "              <div class='section-title'>Experience</div>" ++ [newline] ++
  lit "            ".

(** The Classic / Minimal template from its first line to the opening of the page. *)
Definition paper_css : pystr :=
  [newline] ++
  lit "            <html><head><meta charset='utf-8'>" ++ [newline] ++
  lit "            <style>" ++ [newline] ++
  lit "            body{font-family: 'Times New Roman', Times, serif; color:#000;}" ++ [newline] ++
  lit "            .paper{width:380px;padding:16px;background:white;border:1px solid #eee}" ++ [newline] ++
  lit "            h1{margin:0;font-size:20px}" ++ [newline] ++
  lit "            h2{margin:4px 0 8px 0;font-size:13px;color:#333}" ++ [newline] ++
  lit "            .muted{color:#555;font-size:12px}" ++ [newline] ++
  lit "            ul{margin:6px 0 0 18px;padding:0}" ++ [newline] ++
  lit "            li{margin-bottom:6px;font-size:13px}" ++ [newline] ++
  lit "            </style></head><body><div class='paper'>" ++ [newline].

(** The opening f-string of the Classic / Minimal template. *)
Definition paper_head (ctx : Ctx.t) : pystr :=
  paper_css ++
  lit "            <h1>" ++ escape (Ctx.name ctx) ++ lit "</h1><div class='muted'>"
    ++ escape (Ctx.title ctx) ++ lit "</div>" ++ [newline] ++
  lit "            <div style='margin-top:8px'>" ++ escape (Ctx.summary ctx)
    ++ lit "</div>" ++ [newline] ++
  lit "            <h2>Experience</h2>" ++ [newline] ++
  lit "            ".

(** [render_preview_html(ctx)]; [d] is [st.session_state.design], which the
    function reads for the style and the accent. *)
Definition render_preview_html (d : Design) (ctx : Ctx.t) : pystr :=
  let style := style d in
  let accent := accent d in
  if str_eqb style MODERN_COLOR
  then
    let html := modern_head accent ctx in
    let html :=
      fold_left
        (fun html ex =>
           let html := html ++ lit "<div style='margin-top:8px'><strong>"
                            ++ escape (role ex) ++ lit "</strong> " ++ [em_dash]
                            ++ lit " " ++ escape (company ex)
                            ++ lit " <div style='color:#64748b;font-size:12px'>"
                            ++ escape (period ex) ++ lit "</div>" in
           let html := html ++ lit "<ul>" in
           let html := fold_left
                         (fun html b => html ++ lit "<li>" ++ escape b ++ lit "</li>")
                         (bullets ex) html in
           html ++ lit "</ul></div>")
        (Ctx.experience ctx) html in
    let html := html ++ lit "<div class='section-title'>Education</div>" in
    let html :=
      fold_left
        (fun html ed =>
           html ++ lit "<div style='margin-top:8px'><strong>" ++ escape (degree ed)
                ++ lit "</strong> " ++ [em_dash] ++ lit " " ++ escape (school ed)
                ++ lit " <div style='font-size:12px;color:#64748b'>"
                ++ escape (year ed) ++ lit "</div></div>")
        (Ctx.education ctx) html in
    let html := html ++ lit "<div class='section-title'>Skills</div><div>" in
    let html :=
      fold_left
        (fun html s => html ++ lit "<span class='skill'>" ++ escape s ++ lit "</span>")
        (Ctx.skills ctx) html in
    html ++ lit "</div></div></body></html>"
  else
    let html := paper_head ctx in
    let html :=
      fold_left
        (fun html ex =>
           let html := html ++ lit "<div><strong>" ++ escape (role ex)
                            ++ lit "</strong> " ++ [em_dash] ++ lit " "
                            ++ escape (company ex) ++ lit " <div class='muted'>"
                            ++ escape (period ex) ++ lit "</div>" in
           let html := html ++ lit "<ul>" in
           let html := fold_left
                         (fun html b => html ++ lit "<li>" ++ escape b ++ lit "</li>")
                         (bullets ex) html in
           html ++ lit "</ul></div>")
        (Ctx.experience ctx) html in
    let html := html ++ lit "<h2>Education</h2>" in
    let html :=
      fold_left
        (fun html ed =>
           html ++ lit "<div><strong>" ++ escape (degree ed) ++ lit "</strong> "
                ++ [em_dash] ++ lit " " ++ escape (school ed) ++ lit " ("
                ++ escape (year ed) ++ lit ")</div>")
        (Ctx.education ctx) html in
    let html := html ++ lit "<h2>Skills</h2><div>"
                     ++ escape (join (lit ", ") (Ctx.skills ctx)) ++ lit "</div>" in
    html ++ lit "</div></body></html>".

(** The dictionary the script builds from the session state. *)
Definition preview_ctx (st : SessionState) : Ctx.t :=
  {| Ctx.name := name (profile st);
     Ctx.title := title (profile st);
     Ctx.summary := summary (profile st);
     Ctx.email := email (profile st);
     Ctx.phone := phone (profile st);
     Ctx.experience := experience_list st;
     Ctx.education := education_list st;
     Ctx.skills := skills st;
     Ctx.photo := match photo_file st with
                  | Some f => if include_photo (design st)
                              then pil_to_datauri (photo_file st) else None
                  | None => None
                  end |}.

(** [preview_html = render_preview_html(preview_ctx)] *)
Definition preview_html (st : SessionState) : pystr :=
  render_preview_html (design st) (preview_ctx st).

End Preview.

(* ================================================================== *)
(** ** DOCX build handler *)
(* ================================================================== *)

(** The document the handler builds with python-docx, as the sequence of
    block items appended to its body.  A run is its text and whether it was
    set bold. *)
Definition run := (pystr * bool)%type.

Inductive block :=
| Heading (level : nat) (text : pystr)               (* doc.add_heading *)
| Paragraph (style : option pystr) (runs : list run) (* doc.add_paragraph *)
| Picture (data : bytes) (tenths_of_inch : N).       (* doc.add_picture *)

Definition document := list block.

(** python-docx as the handler meets it.  The library writes every text into
    the document's XML and raises [ValueError] for a text XML cannot hold:
    [text_error t] says that it does so for [t].  Two calls are guarded with
    [try]; for each, [None] says the call returns and [Some partial] says it
    raises, having appended the unstyled paragraphs [partial] to the body
    before it did. *)
Record DocxLibrary := {
  text_error : pystr -> bool;
  styled_paragraph_error : pystr -> pystr -> option (list (list run));
  add_picture_error : bytes -> option (list (list run))
}.

Definition unstyled (partial : list (list run)) : document :=
  map (Paragraph None) partial.

(** The runs of the paragraph [doc.add_paragraph(text)] appends: the library
    adds a run [if text], so the empty string leaves the paragraph without
    one. *)
Definition text_runs (text : pystr) : list run :=
  if truthy text then [(text, false)] else [].

(** What [doc.add_heading] and [doc.add_paragraph] append when they return;
    [heading_call] and [paragraph_call] below are the calls with their
    exception. *)
Definition add_heading (text : pystr) (level : nat) (doc : document) : document :=
  doc ++ [Heading level text].

Definition add_paragraph (text : pystr) (doc : document) : document :=
  doc ++ [Paragraph None (text_runs text)].

Definition LIST_BULLET : pystr := lit "List Bullet".

Section Docx.

Variable lib : DocxLibrary.

(** [try: doc.add_paragraph(b, style="List Bullet")
     except Exception: doc.add_paragraph(f"• {b}")]
    when the call in [except], if reached, returns; [bullet_call] below is
    the statement with the exception of that call. *)
Definition add_bullet (b : pystr) (doc : document) : document :=
  match styled_paragraph_error lib LIST_BULLET b with
  | None => doc ++ [Paragraph (Some LIST_BULLET) (text_runs b)]
  | Some partial =>
      add_paragraph ([bullet_glyph] ++ lit " " ++ b) (doc ++ unstyled partial)
  end.

(** [try: ... doc.add_picture(img_bytes, width=Inches(1.2))
     except Exception: pass] *)
Definition add_photo (data : bytes) (doc : document) : document :=
  match add_picture_error lib data with
  | None => doc ++ [Picture data 12]
  | Some partial => doc ++ unstyled partial
  end.

(** The body of [if download_col1.button("Build & Show DOCX ...")], up to
    [doc.save], as it runs when no call outside [try] raises: the document
    that is then saved.  [docx_handler] below is the same body with those
    exceptions. *)
Definition build_docx (st : SessionState) : document :=
  let doc : document := [] in
  (* Header (name + title) *)
  let name := name (profile st) in
  let title := title (profile st) in
  let doc := add_heading (if truthy name then name else lit "Unnamed") 0 doc in
  let doc := if truthy title then add_paragraph title doc else doc in
  (* Contact meta (single line) *)
  let contact_parts : list pystr := [] in
  let contact_parts :=
    if truthy (email (profile st)) then contact_parts ++ [email (profile st)]
    else contact_parts in
  let contact_parts :=
    if truthy (phone (profile st)) then contact_parts ++ [phone (profile st)]
    else contact_parts in
  let contact_parts :=
    if truthy (location (profile st)) then contact_parts ++ [location (profile st)]
    else contact_parts in
  let contact_parts :=
    if truthy (linkedin (profile st)) then contact_parts ++ [linkedin (profile st)]
    else contact_parts in
  let contact_parts :=
    if truthy (portfolio (profile st)) then contact_parts ++ [portfolio (profile st)]
    else contact_parts in
  let doc :=
    if truthy contact_parts then add_paragraph (join (lit " | ") contact_parts) doc
    else doc in
  (* Summary *)
  let doc :=
    if truthy (summary (profile st)) then add_paragraph (summary (profile st)) doc
    else doc in
  (* Add photo if included *)
  let doc :=
    match photo_file st with
    | Some data => if include_photo (design st) then add_photo data doc else doc
    | None => doc
    end in
  (* Education *)
  let doc :=
    if truthy (education_list st)
    then
      let doc := add_heading (lit "Education") 1 doc in
      fold_left
        (fun doc ed =>
           doc ++ [Paragraph None
                     ([(degree ed ++ lit " " ++ [em_dash] ++ lit " ", true);
                       (school ed, false)]
                      ++ (if truthy (year ed)
                          then [(lit " (" ++ year ed ++ lit ")", false)] else []))])
        (education_list st) doc
    else doc in
  (* Experience *)
  let doc :=
    if truthy (experience_list st)
    then
      let doc := add_heading (lit "Experience") 1 doc in
      fold_left
        (fun doc ex =>
           let doc :=
             doc ++ [Paragraph None
                       ([(role ex ++ lit " " ++ [em_dash] ++ lit " " ++ company ex, true)]
                        ++ (if truthy (period ex)
                            then [(lit "  (" ++ period ex ++ lit ")", false)] else []))] in
           fold_left (fun doc b => add_bullet b doc) (bullets ex) doc)
        (experience_list st) doc
    else doc in
  (* Skills *)
  let doc :=
    if truthy (skills st)
    then add_paragraph (join (lit ", ") (skills st)) (add_heading (lit "Skills") 1 doc)
    else doc in
  doc.

(** A stretch of the handler: the body it leaves, or [None] when a call
    outside [try] raises, which ends the handler before [doc.save]. *)
Definition building := document -> option document.

Definition and_then (f g : building) : building :=
  fun doc => match f doc with
             | Some doc' => g doc'
             | None => None
             end.

Definition when (c : bool) (f : building) : building :=
  if c then f else Some.

Fixpoint for_each (A : Type) (f : A -> building) (l : list A) : building :=
  match l with
  | [] => Some
  | x :: l' => and_then (f x) (for_each f l')
  end.

(** [doc.add_heading(text, level=level)] *)
Definition heading_call (text : pystr) (level : nat) : building :=
  fun doc => if text_error lib text then None else Some (add_heading text level doc).

(** [doc.add_paragraph(text)] *)
Definition paragraph_call (text : pystr) : building :=
  fun doc => if text_error lib text then None else Some (add_paragraph text doc).

(** [p = doc.add_paragraph()] followed by [p.add_run(...)] for each run. *)
Definition runs_call (runs : list run) : building :=
  fun doc =>
    if existsb (fun r => text_error lib (fst r)) runs then None
    else Some (doc ++ [Paragraph None runs]).

(** The bullet's [try]: the call in [except] is itself outside any [try]. *)
Definition bullet_call (b : pystr) : building :=
  fun doc =>
    match styled_paragraph_error lib LIST_BULLET b with
    | None => Some (doc ++ [Paragraph (Some LIST_BULLET) (text_runs b)])
    | Some partial =>
        paragraph_call ([bullet_glyph] ++ lit " " ++ b) (doc ++ unstyled partial)
    end.

(** The photo's [try], whose [except] passes. *)
Definition photo_call (data : bytes) : building :=
  fun doc => Some (add_photo data doc).

(** The body of [if download_col1.button("Build & Show DOCX ...")], up to
    [doc.save], with the exceptions of the library: [Some doc] when the
    handler reaches [doc.save] with the body [doc], [None] when it raises
    before, leaving [_last_docx] as it was. *)
Definition docx_handler (st : SessionState) : option document :=
  let name := name (profile st) in
  let title := title (profile st) in
  let contact_parts : list pystr := [] in
  let contact_parts :=
    if truthy (email (profile st)) then contact_parts ++ [email (profile st)]
    else contact_parts in
  let contact_parts :=
    if truthy (phone (profile st)) then contact_parts ++ [phone (profile st)]
    else contact_parts in
  let contact_parts :=
    if truthy (location (profile st)) then contact_parts ++ [location (profile st)]
    else contact_parts in
  let contact_parts :=
    if truthy (linkedin (profile st)) then contact_parts ++ [linkedin (profile st)]
    else contact_parts in
  let contact_parts :=
    if truthy (portfolio (profile st)) then contact_parts ++ [portfolio (profile st)]
    else contact_parts in
  and_then (heading_call (if truthy name then name else lit "Unnamed") 0)
 (and_then (when (truthy title) (paragraph_call title))
 (and_then (when (truthy contact_parts)
              (paragraph_call (join (lit " | ") contact_parts)))
 (and_then (when (truthy (summary (profile st)))
              (paragraph_call (summary (profile st))))
 (and_then (match photo_file st with
            | Some data => when (include_photo (design st)) (photo_call data)
            | None => Some
            end)
 (and_then (when (truthy (education_list st))
              (and_then (heading_call (lit "Education") 1)
                 (for_each
                    (fun ed =>
                       runs_call
                         ([(degree ed ++ lit " " ++ [em_dash] ++ lit " ", true);
                           (school ed, false)]
                          ++ (if truthy (year ed)
                              then [(lit " (" ++ year ed ++ lit ")", false)] else [])))
                    (education_list st))))
 (and_then (when (truthy (experience_list st))
              (and_then (heading_call (lit "Experience") 1)
                 (for_each
                    (fun ex =>
                       and_then
                         (runs_call
                            ([(role ex ++ lit " " ++ [em_dash] ++ lit " " ++ company ex,
                               true)]
                             ++ (if truthy (period ex)
                                 then [(lit "  (" ++ period ex ++ lit ")", false)]
                                 else [])))
                         (for_each bullet_call (bullets ex)))
                    (experience_list st))))
           (when (truthy (skills st))
              (and_then (heading_call (lit "Skills") 1)
                 (paragraph_call (join (lit ", ") (skills st)))))))))))
    [].

End Docx.

(* ================================================================== *)
(** ** The sections of a rendered résumé *)
(* ================================================================== *)

(** The specification speaks of a rendered résumé as a sequence of sections.
    The definitions below give, for each renderer, what each section is as a
    function of the record, so that the output of the code above can be
    compared with the sections laid out in a given order. *)
Inductive section := Identity | Summary | Photo | Experience | Education | Skills.

(** The order the specification gives for every format. *)
Definition SPEC_ORDER : list section :=
  [Identity; Summary; Experience; Education; Skills].

(** The order of the DOCX build handler. *)
Definition DOCX_ORDER : list section :=
  [Identity; Summary; Photo; Education; Experience; Skills].

Definition layout (A : Type) (part : section -> list A) (order : list section) : list A :=
  flat_map part order.

Definition bullet_item (b : pystr) : pystr := lit "<li>" ++ escape b ++ lit "</li>".

(** *** HTML download *)

Definition export_experience_entry (ex : ExperienceEntry) : pystr :=
  lit "<h3>" ++ escape (role ex) ++ lit " " ++ [em_dash] ++ lit " "
    ++ escape (company ex) ++ lit "</h3>"
    ++ lit "<ul>" ++ flat_map bullet_item (bullets ex) ++ lit "</ul>".

Definition export_education_entry (ed : EducationEntry) : pystr :=
  lit "<div><b>" ++ escape (degree ed) ++ lit "</b> " ++ [em_dash] ++ lit " "
    ++ escape (school ed) ++ lit " (" ++ escape (year ed) ++ lit ")</div>".

Definition export_section (st : SessionState) (k : section) : pystr :=
  match k with
  | Identity =>
      lit "<!doctype html><html><head><meta charset=" ++ [dquote] ++ lit "utf-8"
        ++ [dquote] ++ lit "><title>" ++ escape (name (profile st)) ++ lit " "
        ++ [em_dash] ++ lit " CV</title></head><body>" ++ [newline]
        ++ lit "            <h1>" ++ escape (name (profile st)) ++ lit "</h1><h3>"
        ++ escape (title (profile st)) ++ lit "</h3>"
  | Summary =>
      lit "<p>" ++ replace_char newline (lit "<br>") (escape (summary (profile st)))
        ++ lit "</p>"
  | Photo => []
  | Experience =>
      if truthy (experience_list st)
      then lit "<h2>Experience</h2>"
             ++ flat_map export_experience_entry (experience_list st)
      else []
  | Education =>
      if truthy (education_list st)
      then lit "<h2>Education</h2>"
             ++ flat_map export_education_entry (education_list st)
      else []
  | Skills =>
      if truthy (skills st)
      then lit "<h2>Skills</h2><div>" ++ escape (join (lit ", ") (skills st))
             ++ lit "</div>"
      else []
  end.

(** *** Preview, Modern template *)

Definition modern_experience_entry (ex : ExperienceEntry) : pystr :=
  lit "<div style='margin-top:8px'><strong>" ++ escape (role ex) ++ lit "</strong> "
    ++ [em_dash] ++ lit " " ++ escape (company ex)
    ++ lit " <div style='color:#64748b;font-size:12px'>" ++ escape (period ex)
    ++ lit "</div>"
    ++ lit "<ul>" ++ flat_map bullet_item (bullets ex) ++ lit "</ul></div>".

Definition modern_education_entry (ed : EducationEntry) : pystr :=
  lit "<div style='margin-top:8px'><strong>" ++ escape (degree ed) ++ lit "</strong> "
    ++ [em_dash] ++ lit " " ++ escape (school ed)
    ++ lit " <div style='font-size:12px;color:#64748b'>" ++ escape (year ed)
    ++ lit "</div></div>".

Definition modern_skill (s : pystr) : pystr :=
  lit "<span class='skill'>" ++ escape s ++ lit "</span>".

Definition modern_section (accent : pystr) (ctx : Ctx.t) (k : section) : pystr :=
  match k with
  | Identity =>
      modern_css accent ++
      lit "                " ++
        match Ctx.photo ctx with
        | Some photo => lit "<img src='" ++ photo ++ lit "' class='photo'/>"
        | None => []
        end ++ [newline] ++
      lit "                <div>" ++ [newline] ++
      lit "                  <div class='name'>" ++ Ctx.name ctx ++ lit "</div>" ++ [newline] ++
      lit "                  <div class='title'>" ++ Ctx.title ctx ++ lit "</div>" ++ [newline] ++
      lit "                  <div class='meta'>" ++ Ctx.email ctx ++ lit " " ++ [middle_dot]
        ++ lit " " ++ Ctx.phone ctx ++ lit "</div>" ++ [newline] ++
      lit "                </div>" ++ [newline] ++
      lit "              </div>" ++ [newline]
  | Summary =>
      lit "              <div class='summary'>" ++ Ctx.summary ctx ++ lit "</div>" ++ [newline]
  | Photo => []
  | Experience =>
      lit "              <div class='section-title'>Experience</div>" ++ [newline] ++
      lit "            " ++ flat_map modern_experience_entry (Ctx.experience ctx)
  | Education =>
      lit "<div class='section-title'>Education</div>"
        ++ flat_map modern_education_entry (Ctx.education ctx)
  | Skills =>
      lit "<div class='section-title'>Skills</div><div>"
        ++ flat_map modern_skill (Ctx.skills ctx) ++ lit "</div>"
  end.

(** *** Preview, Classic / Minimal template *)

Definition paper_experience_entry (ex : ExperienceEntry) : pystr :=
  lit "<div><strong>" ++ escape (role ex) ++ lit "</strong> " ++ [em_dash] ++ lit " "
    ++ escape (company ex) ++ lit " <div class='muted'>" ++ escape (period ex)
    ++ lit "</div>"
    ++ lit "<ul>" ++ flat_map bullet_item (bullets ex) ++ lit "</ul></div>".

Definition paper_education_entry (ed : EducationEntry) : pystr :=
  lit "<div><strong>" ++ escape (degree ed) ++ lit "</strong> " ++ [em_dash] ++ lit " "
    ++ escape (school ed) ++ lit " (" ++ escape (year ed) ++ lit ")</div>".

Definition paper_section (ctx : Ctx.t) (k : section) : pystr :=
  match k with
  | Identity =>
      paper_css ++
      lit "            <h1>" ++ escape (Ctx.name ctx) ++ lit "</h1><div class='muted'>"
        ++ escape (Ctx.title ctx) ++ lit "</div>" ++ [newline]
  | Summary =>
      lit "            <div style='margin-top:8px'>" ++ escape (Ctx.summary ctx)
        ++ lit "</div>" ++ [newline]
  | Photo => []
  | Experience =>
      lit "            <h2>Experience</h2>" ++ [newline] ++
      lit "            " ++ flat_map paper_experience_entry (Ctx.experience ctx)
  | Education =>
      lit "<h2>Education</h2>" ++ flat_map paper_education_entry (Ctx.education ctx)
  | Skills =>
      lit "<h2>Skills</h2><div>" ++ escape (join (lit ", ") (Ctx.skills ctx))
        ++ lit "</div>"
  end.

(** *** DOCX *)

(** The contact fields that are present, in the order of the contact line. *)
Definition contact_fields (p : Profile) : list pystr :=
  filter truthy [email p; phone p; location p; linkedin p; portfolio p].

Definition education_paragraph (ed : EducationEntry) : block :=
  Paragraph None
    ([(degree ed ++ lit " " ++ [em_dash] ++ lit " ", true); (school ed, false)]
     ++ (if truthy (year ed) then [(lit " (" ++ year ed ++ lit ")", false)] else [])).

Definition experience_paragraph (ex : ExperienceEntry) : block :=
  Paragraph None
    ([(role ex ++ lit " " ++ [em_dash] ++ lit " " ++ company ex, true)]
     ++ (if truthy (period ex) then [(lit "  (" ++ period ex ++ lit ")", false)] else [])).

Definition docx_section (lib : DocxLibrary) (st : SessionState) (k : section) : document :=
  match k with
  | Identity =>
      [Heading 0 (if truthy (name (profile st)) then name (profile st) else lit "Unnamed")]
        ++ (if truthy (title (profile st))
            then [Paragraph None (text_runs (title (profile st)))] else [])
        ++ (if truthy (contact_fields (profile st))
            then [Paragraph None (text_runs (join (lit " | ") (contact_fields (profile st))))]
            else [])
  | Summary =>
      if truthy (summary (profile st))
      then [Paragraph None (text_runs (summary (profile st)))] else []
  | Photo =>
      match photo_file st with
      | Some data => if include_photo (design st) then add_photo lib data [] else []
      | None => []
      end
  | Education =>
      if truthy (education_list st)
      then Heading 1 (lit "Education") :: map education_paragraph (education_list st)
      else []
  | Experience =>
      if truthy (experience_list st)
      then Heading 1 (lit "Experience")
             :: flat_map (fun ex => experience_paragraph ex
                                      :: flat_map (fun b => add_bullet lib b []) (bullets ex))
                  (experience_list st)
      else []
  | Skills =>
      if truthy (skills st)
      then [Heading 1 (lit "Skills"); Paragraph None (text_runs (join (lit ", ") (skills st)))]
      else []
  end.

(** The texts the handler gives to the library outside [try], section by
    section: those of a bullet's fallback paragraph only where the styled
    call raises. *)
Definition run_texts (b : block) : list pystr :=
  match b with
  | Paragraph _ runs => map fst runs
  | _ => []
  end.

Definition fallback_texts (lib : DocxLibrary) (b : pystr) : list pystr :=
  match styled_paragraph_error lib LIST_BULLET b with
  | None => []
  | Some _ => [[bullet_glyph] ++ lit " " ++ b]
  end.

Definition docx_section_texts (lib : DocxLibrary) (st : SessionState) (k : section)
  : list pystr :=
  match k with
  | Identity =>
      [if truthy (name (profile st)) then name (profile st) else lit "Unnamed"]
        ++ (if truthy (title (profile st)) then [title (profile st)] else [])
        ++ (if truthy (contact_fields (profile st))
            then [join (lit " | ") (contact_fields (profile st))] else [])
  | Summary =>
      if truthy (summary (profile st)) then [summary (profile st)] else []
  | Photo => []
  | Education =>
      if truthy (education_list st)
      then lit "Education"
             :: flat_map (fun ed => run_texts (education_paragraph ed)) (education_list st)
      else []
  | Experience =>
      if truthy (experience_list st)
      then lit "Experience"
             :: flat_map (fun ex => run_texts (experience_paragraph ex)
                                      ++ flat_map (fallback_texts lib) (bullets ex))
                  (experience_list st)
      else []
  | Skills =>
      if truthy (skills st)
      then [lit "Skills"; join (lit ", ") (skills st)]
      else []
  end.

Definition docx_texts (lib : DocxLibrary) (st : SessionState) : list pystr :=
  layout (docx_section_texts lib st) DOCX_ORDER.

(** The library accepts every text the handler gives it outside [try]. *)
Definition texts_accepted (lib : DocxLibrary) (st : SessionState) : Prop :=
  existsb (text_error lib) (docx_texts lib st) = false.

(** A stretch of the handler that gives [texts] to the library outside [try]
    and, when the library accepts them all, appends [blocks] to the body. *)
Definition builds (lib : DocxLibrary) (f : building) (texts : list pystr)
           (blocks : document) : Prop :=
  forall doc,
    f doc = if existsb (text_error lib) texts then None else Some (doc ++ blocks).

(** The texts of the level-1 headings of a document, in order. *)
Definition section_titles (doc : document) : list pystr :=
  flat_map (fun b => match b with Heading 1 t => [t] | _ => [] end) doc.

Definition is_picture (b : block) : bool :=
  match b with Picture _ _ => true | _ => false end.

(** The texts of the [<h2>] elements of an HTML string, in order: a scan that
    opens a title at each [<h2>] and closes it at the next [<]. *)
Inductive scan_state :=
| Outside
| Opening (k : nat)
| Inside (acc : pystr).

Fixpoint h2_titles_from (state : scan_state) (s : pystr) : list pystr :=
  match s with
  | [] => []
  | c :: s' =>
      match state with
      | Outside =>
          if startswith s (lit "<h2>") then h2_titles_from (Opening 2) s'
          else h2_titles_from Outside s'
      | Opening (S k) => h2_titles_from (Opening k) s'
      | Opening O => h2_titles_from (Inside []) s'
      | Inside acc =>
          if N.eqb c 60 then rev acc :: h2_titles_from Outside s'
          else h2_titles_from (Inside (c :: acc)) s'
      end
  end.

Definition h2_titles (s : pystr) : list pystr := h2_titles_from Outside s.

(** A piece of output the heading scan passes over without opening a title,
    whatever follows it. *)
Definition passes (a : pystr) : Prop :=
  forall rest, h2_titles (a ++ rest) = h2_titles rest.

(* ================================================================== *)
(** ** A replayable random source and sample records *)
(* ================================================================== *)

(** A random source that replays a tape of draws (0 once the tape is used
    up): the injectable source of the specification's design notes. *)
Definition draw (tape : list nat) : nat * list nat :=
  match tape with
  | [] => (0, [])
  | k :: tape' => (k, tape')
  end.

Definition tape_choice (A : Type) (d : A) (l : list A) (tape : list nat) : A * list nat :=
  let (k, tape') := draw tape in (nth (k mod length l) l d, tape').

Definition insert_at (A : Type) (k : nat) (x : A) (l : list A) : list A :=
  firstn k l ++ x :: skipn k l.

Fixpoint tape_shuffle (A : Type) (l : list A) (tape : list nat) : list A * list nat :=
  match l with
  | [] => ([], tape)
  | x :: l' =>
      let (r, tape1) := tape_shuffle l' tape in
      let (k, tape2) := draw tape1 in
      (insert_at (k mod S (length r)) x r, tape2)
  end.

#[export] Instance tape_source : RandomSource (list nat).
Proof.
  refine {| choice := tape_choice; shuffle := tape_shuffle |}.
  - intros A d l tape Hl. unfold tape_choice.
    destruct (draw tape) as [k tape']. simpl.
    apply nth_In. apply Nat.mod_upper_bound.
    destruct l; [congruence | simpl; lia].
  - intros A l. induction l as [|x l IH]; intro tape; simpl.
    + constructor.
    + specialize (IH tape).
      destruct (tape_shuffle l tape) as [r tape1].
      destruct (draw tape1) as [k tape2]. simpl in *.
      unfold insert_at.
      apply Permutation_cons_app.
      rewrite firstn_skipn. exact IH.
Defined.

Definition no_imaging : bytes -> option pystr := fun _ => None.

(** The characters XML 1.0 cannot hold, for which python-docx raises
    [ValueError] when it writes a text: the C0 controls other than tab, line
    feed and carriage return, the surrogates, U+FFFE and U+FFFF. *)
Definition xml_illegal_char (c : N) : bool :=
  (N.ltb c 32 && negb (N.eqb c 9 || N.eqb c 10 || N.eqb c 13))
  || (N.leb 55296 c && N.leb c 57343)
  || N.eqb c 65534 || N.eqb c 65535.

Definition xml_illegal (text : pystr) : bool := existsb xml_illegal_char text.

(** python-docx with its default template: the guarded calls return unless
    the bullet's text is one XML cannot hold, in which case the paragraph
    and its still empty run are in the body before the text is written. *)
Definition default_library : DocxLibrary :=
  {| text_error := xml_illegal;
     styled_paragraph_error :=
       fun _ text => if xml_illegal text then Some [[([], false)]] else None;
     add_picture_error := fun _ => None |}.

(** python-docx on a template without the "List Bullet" style and with an
    image it cannot read.  The paragraph and its text are in the body before
    the style is looked up, and the picture's paragraph with its empty run
    before the image is read. *)
Definition bare_library : DocxLibrary :=
  {| text_error := xml_illegal;
     styled_paragraph_error :=
       fun _ text => Some [if xml_illegal text then [([], false)] else text_runs text];
     add_picture_error := fun _ => Some [[([], false)]] |}.

Definition ada_profile : Profile :=
  {| name := lit "Ada Lovelace"; title := []; email := []; phone := [];
     location := []; linkedin := []; portfolio := []; summary := [] |}.

Definition ada_experience : ExperienceEntry :=
  {| role := lit "Engineer"; company := lit "Analytical Engines Ltd"; period := [];
     description := []; bullets := [lit "Improved computation speed by 10%."] |}.

(** The record of the specification's end-to-end scenario. *)
Definition ada : SessionState :=
  {| profile := ada_profile;
     experience_list := [ada_experience];
     education_list := [];
     skills := [lit "Mathematics"];
     photo_file := None;
     design := {| style := lit "Classic B/W"; accent := lit "#0b6efd";
                  include_photo := true |} |}.

(** The same record with the education entry of the session defaults. *)
Definition ada_graduate : SessionState :=
  {| profile := ada_profile;
     experience_list := [ada_experience];
     education_list := [{| degree := lit "B.Sc. Mechanical Engineering";
                           school := lit "University of Example";
                           year := lit "2018" |}];
     skills := [lit "Mathematics"];
     photo_file := None;
     design := design ada |}.

Definition with_profile (p : Profile) (st : SessionState) : SessionState :=
  {| profile := p;
     experience_list := experience_list st;
     education_list := education_list st;
     skills := skills st;
     photo_file := photo_file st;
     design := design st |}.

Definition with_photo (f : option bytes) (st : SessionState) : SessionState :=
  {| profile := profile st;
     experience_list := experience_list st;
     education_list := education_list st;
     skills := skills st;
     photo_file := f;
     design := design st |}.

Definition with_design (d : Design) (st : SessionState) : SessionState :=
  {| profile := profile st;
     experience_list := experience_list st;
     education_list := education_list st;
     skills := skills st;
     photo_file := photo_file st;
     design := d |}.

Definition with_style (s : pystr) (d : Design) : Design :=
  {| style := s; accent := accent d; include_photo := include_photo d |}.

Definition script_name : pystr := lit "<script>alert(1)</script>".

Definition modern_design : Design :=
  {| style := MODERN_COLOR; accent := lit "#0b6efd"; include_photo := true |}.

(** The scenario record with a name that carries markup. *)
Definition ada_scripted : SessionState :=
  with_profile
    {| name := script_name; title := []; email := []; phone := [];
       location := []; linkedin := []; portfolio := []; summary := [] |}
    ada.

(** The scenario record with an email address and no phone number. *)
Definition ada_email_only : SessionState :=
  with_profile
    {| name := lit "Ada Lovelace"; title := []; email := lit "ada@example.com";
       phone := []; location := []; linkedin := []; portfolio := [];
       summary := [] |}
    ada.

(** The graduate record with an upload that is not an image. *)
Definition ada_broken_photo : SessionState := with_photo (Some [71; 73; 70]%N) ada_graduate.

(** The same upload on the record shown in the Modern template, which has a
    place for the photo. *)
Definition ada_modern_photo : SessionState :=
  with_design (with_style MODERN_COLOR (design ada_broken_photo)) ada_broken_photo.

(** What the specification asks of a bullet. *)
Definition well_formed_bullet (s : pystr) : Prop :=
  s <> [] /\ endswith s (lit ".") = true.

Definition has_visible_character (s : pystr) : Prop :=
  exists c, In c s /\ is_space c = false.

(* ================================================================== *)
(** ** Session defaults and editing handlers *)
(* ================================================================== *)

(** [a or b] for two strings. *)
Definition or_else (a b : pystr) : pystr := if truthy a then a else b.

(** [s.split(sep)] for a one-character separator: the pieces between the
    separators, empty ones included.  [cur] is the piece being read,
    reversed. *)
Fixpoint split_on_from (sep : char) (cur : pystr) (s : pystr) : list pystr :=
  match s with
  | [] => [rev cur]
  | c :: s' =>
      if N.eqb c sep then rev cur :: split_on_from sep [] s'
      else split_on_from sep (c :: cur) s'
  end.

Definition split_on (sep : char) (s : pystr) : list pystr := split_on_from sep [] s.

(** [l.insert(0, x)] *)
Definition insert_front (A : Type) (x : A) (l : list A) : list A := x :: l.

(** [l.pop(i)] for an index counted from the front, as far as the list goes:
    [None] is the [IndexError] past the end. *)
Fixpoint list_pop (A : Type) (i : nat) (l : list A) {struct l} : option (list A) :=
  match l, i with
  | [], _ => None
  | _ :: l', O => Some l'
  | x :: l', S i' => option_map (cons x) (list_pop i' l')
  end.

(** [l[i] = f(l[i])], with [None] for the [IndexError] past the end. *)
Fixpoint list_update (A : Type) (i : nat) (f : A -> A) (l : list A) {struct l}
  : option (list A) :=
  match l, i with
  | [], _ => None
  | x :: l', O => Some (f x :: l')
  | x :: l', S i' => option_map (cons x) (list_update i' f l')
  end.

Definition with_experience (l : list ExperienceEntry) (st : SessionState) : SessionState :=
  {| profile := profile st;
     experience_list := l;
     education_list := education_list st;
     skills := skills st;
     photo_file := photo_file st;
     design := design st |}.

Definition with_education (l : list EducationEntry) (st : SessionState) : SessionState :=
  {| profile := profile st;
     experience_list := experience_list st;
     education_list := l;
     skills := skills st;
     photo_file := photo_file st;
     design := design st |}.

Definition with_skills (l : list pystr) (st : SessionState) : SessionState :=
  {| profile := profile st;
     experience_list := experience_list st;
     education_list := education_list st;
     skills := l;
     photo_file := photo_file st;
     design := design st |}.

(** The values of the four inputs of "Add a new role". *)
Record ExperienceForm := {
  exp_role : pystr;
  exp_company : pystr;
  exp_period : pystr;
  exp_desc : pystr
}.

(** A line with a character that is not whitespace. *)
Definition visible_line (ln : pystr) : bool :=
  existsb (fun c => negb (is_space c)) ln.

(** The bullets of "Add raw": the lines of the description that are not
    blank, stripped, each closed with a period. *)
Definition raw_bullets (exp_desc : pystr) : list pystr :=
  let raw_lines :=
    map strip (filter (fun ln => truthy (strip ln))
                      (split_on newline (or_else exp_desc []))) in
  if truthy raw_lines
  then map (fun ln => if endswith ln (lit ".") then ln else ln ++ lit ".") raw_lines
  else [].

(** The entry "Add raw" inserts. *)
Definition raw_entry (form : ExperienceForm) : ExperienceEntry :=
  {| role := or_else (exp_role form) (lit "Role");
     company := or_else (exp_company form) [];
     period := or_else (exp_period form) [];
     description := or_else (exp_desc form) [];
     bullets := raw_bullets (exp_desc form) |}.

(** A bullet with a backspace (U+0008) between two words, as "Add raw" makes
    it from a description that holds one, and the scenario record with such
    an entry. *)
Definition control_bullet : pystr := lit "Fixed" ++ [8%N] ++ lit "bugs.".

Definition control_entry : ExperienceEntry :=
  {| role := lit "Engineer"; company := lit "Analytical Engines Ltd"; period := [];
     description := lit "Fixed" ++ [8%N] ++ lit "bugs";
     bullets := [control_bullet] |}.

Definition ada_control : SessionState := with_experience [control_entry] ada.

(** The entry "Add education" inserts. *)
Definition education_entry (ed_degree ed_school ed_year : pystr) : EducationEntry :=
  {| degree := or_else ed_degree (lit "Degree");
     school := or_else ed_school [];
     year := or_else ed_year [] |}.

(** "Add skill": the stripped input goes to the front unless it is empty. *)
Definition add_skill (sk : pystr) (st : SessionState) : SessionState :=
  let v := strip sk in
  if truthy v then with_skills (insert_front v (skills st)) st else st.

(** The [file_name] of the two download buttons. *)
Definition download_file_name (suffix : pystr) (st : SessionState) : pystr :=
  replace_char 32%N (lit "_") (or_else (name (profile st)) (lit "candidate")) ++ suffix.

Definition docx_file_name (st : SessionState) : pystr :=
  download_file_name (lit "_CV.docx") st.

Definition html_file_name (st : SessionState) : pystr :=
  download_file_name (lit "_CV.html") st.

Definition default_profile : Profile :=
  {| name := lit "Jane Doe";
     title := lit "Senior Technical Specialist";
     email := []; phone := []; location := []; linkedin := []; portfolio := [];
     summary := lit "Results-driven professional with strong experience in operations and client-facing technical services." |}.

Definition default_education : list EducationEntry :=
  [{| degree := lit "B.Sc. Mechanical Engineering";
      school := lit "University of Example";
      year := lit "2018" |}].

Definition default_skills : list pystr :=
  [lit "Client Relationships"; lit "Inspection"; lit "Asset Integrity"].

Definition default_design : Design :=
  {| style := lit "Modern Color"; accent := lit "#0b6efd"; include_photo := true |}.

Definition sample_profile : Profile :=
  {| name := lit "Jojo Montford";
     title := lit "Senior Sales Representative " ++ [em_dash] ++ lit " Inspection Services";
     email := lit "jojo@example.com";
     phone := lit "+233 123 456 789";
     location := lit "Accra, Ghana";
     linkedin := lit "https://linkedin.com/in/jojo";
     portfolio := [];
     summary := lit "Sales-driven professional with experience in selling inspection and asset integrity services. Skilled at building client relationships and improving account revenue." |}.

Definition sample_education : list EducationEntry :=
  [{| degree := lit "HND Mechanical Engineering";
      school := lit "Accra Technical University";
      year := lit "2016" |}].

Definition sample_skills : list pystr :=
  [lit "Sales"; lit "Client Management"; lit "NDT"; lit "Asset Integrity"].

(** What a run of the script does to the résumé record, one action per
    handler.  The arguments are the values of the widgets the handler
    reads. *)
Inductive action :=
| FillSample
| UpdateProfile (p : Profile)
| UploadPhoto (f : bytes)
| AddAI (form : ExperienceForm)
| AddRaw (form : ExperienceForm)
| ClearExperience
| Regenerate (i : nat) (r c desc_field : pystr)
| SaveExperience (i : nat) (r c p desc_field : pystr) (edited : nat -> pystr)
| RemoveExperience (i : nat)
| AddEducation (ed_degree ed_school ed_year : pystr)
| RemoveEducation (i : nat)
| AddSkill (sk : pystr)
| RemoveSkill (i : nat)
| SetDesign (d : Design).

Section Handlers.

Context {G : Type} `{RandomSource G}.
Variable lower : pystr -> pystr.

(** The "Session state defaults" block on the first run of the script. *)
Definition default_session : Rand G SessionState :=
  bullets <- smart_expand lower
               (lit "Managed key accounts and supported inspection services")
               (lit "Sales Representative") (lit "Intertek") 4 ;;
  ret {| profile := default_profile;
         experience_list :=
           [{| role := lit "Sales Representative";
               company := lit "Intertek Geronimo Oil and Gas";
               period := lit "2022 " ++ [em_dash] ++ lit " Present";
               description := lit "Managed key accounts and supported inspection services";
               bullets := bullets |}];
         education_list := default_education;
         skills := default_skills;
         photo_file := None;
         design := default_design |}.

Definition first_run (g : G) : World G :=
  let (st, g') := default_session g in {| session := st; random_state := g' |}.

(** "Fill sample data" *)
Definition fill_sample (st : SessionState) : Rand G SessionState :=
  bullets <- smart_expand lower
               (lit "Managed regional accounts and closed inspection contracts")
               (lit "Sales Representative") (lit "Intertek") 4 ;;
  ret {| profile := sample_profile;
         experience_list :=
           [{| role := lit "Sales Representative";
               company := lit "Intertek Geronimo Oil and Gas";
               period := lit "2021 " ++ [em_dash] ++ lit " Present";
               description := lit "Managed regional accounts and closed inspection contracts";
               bullets := bullets |}];
         education_list := sample_education;
         skills := sample_skills;
         photo_file := None;
         design := design st |}.

(** The entry "Add (AI bullets)" inserts. *)
Definition ai_entry (form : ExperienceForm) : Rand G ExperienceEntry :=
  bullets <- smart_expand lower (or_else (exp_desc form) (exp_role form))
               (exp_role form) (exp_company form) 4 ;;
  ret {| role := or_else (exp_role form) (lit "Role");
         company := or_else (exp_company form) [];
         period := or_else (exp_period form) [];
         description := or_else (exp_desc form) [];
         bullets := bullets |}.

(** "Regenerate bullets (AI) for this role": the new bullets of entry [i]. *)
Definition regenerate (i : nat) (r c desc_field : pystr) (st : SessionState)
  : Rand G (option SessionState) :=
  new_bullets <- smart_expand lower (or_else desc_field r) r c 4 ;;
  ret (option_map (fun l => with_experience l st)
         (list_update i
            (fun ex => {| role := role ex; company := company ex; period := period ex;
                          description := description ex; bullets := new_bullets |})
            (experience_list st))).

(** "Save changes" on entry [i]: [edited bi] is the text of the area of
    bullet [bi], one area per stored bullet. *)
Definition save_experience (i : nat) (r c p desc_field : pystr) (edited : nat -> pystr)
           (st : SessionState) : option SessionState :=
  option_map (fun l => with_experience l st)
    (list_update i
       (fun ex => {| role := r; company := c; period := p; description := desc_field;
                     bullets := map edited (seq 0 (length (bullets ex))) |})
       (experience_list st)).

(** One handler on the world.  [None] is an [IndexError]. *)
Definition step (a : action) (w : World G) : option (World G) :=
  let st := session w in
  let g := random_state w in
  let same_random st' := Some {| session := st'; random_state := g |} in
  match a with
  | FillSample =>
      let (st', g') := fill_sample st g in
      Some {| session := st'; random_state := g' |}
  | UpdateProfile p => same_random (with_profile p st)
  | UploadPhoto f => same_random (with_photo (Some f) st)
  | AddAI form =>
      let (entry, g') := ai_entry form g in
      Some {| session := with_experience (insert_front entry (experience_list st)) st;
              random_state := g' |}
  | AddRaw form =>
      same_random (with_experience (insert_front (raw_entry form) (experience_list st)) st)
  | ClearExperience => same_random (with_experience [] st)
  | Regenerate i r c desc_field =>
      let (st', g') := regenerate i r c desc_field st g in
      option_map (fun st' => {| session := st'; random_state := g' |}) st'
  | SaveExperience i r c p desc_field edited =>
      option_map (fun st' => {| session := st'; random_state := g |})
        (save_experience i r c p desc_field edited st)
  | RemoveExperience i =>
      option_map (fun l => {| session := with_experience l st; random_state := g |})
        (list_pop i (experience_list st))
  | AddEducation ed_degree ed_school ed_year =>
      same_random
        (with_education
           (insert_front (education_entry ed_degree ed_school ed_year) (education_list st))
           st)
  | RemoveEducation i =>
      option_map (fun l => {| session := with_education l st; random_state := g |})
        (list_pop i (education_list st))
  | AddSkill sk => same_random (add_skill sk st)
  | RemoveSkill i =>
      option_map (fun l => {| session := with_skills l st; random_state := g |})
        (list_pop i (skills st))
  | SetDesign d => same_random (with_design d st)
  end.

(** A sequence of handlers, from a world. *)
Fixpoint run_actions (actions : list action) (w : World G) : option (World G) :=
  match actions with
  | [] => Some w
  | a :: rest =>
      match step a w with
      | Some w' => run_actions rest w'
      | None => None
      end
  end.

End Handlers.

(** The normalised description [desc] of [smart_expand]. *)
Definition normalise (description : pystr) : pystr :=
  join (lit " ") (split (strip description)).

(** What the [for] loop of [smart_expand] stores for a candidate. *)
Definition close_sentence (c : pystr) : pystr :=
  let s := strip c in
  if negb (endswith s (lit ".")) then s ++ lit "." else s.

(** The three role sentences. *)
Definition ROLE_SENTENCES : list pystr :=
  [SALES_SENTENCE; ENGINEER_SENTENCE; PRODUCT_SENTENCE].

(** A bullet that opens with an action verb, a space and [desc], or a role
    sentence. *)
Definition bullet_origin (desc b : pystr) : Prop :=
  (exists v, In v ACTION_VERBS /\ startswith b (v ++ lit " " ++ desc) = true)
  \/ In b ROLE_SENTENCES.

(** The first character, if any, is not whitespace. *)
Definition hd_visible (s : pystr) : Prop :=
  match s with
  | [] => True
  | c :: _ => is_space c = false
  end.

(** No two whitespace characters in a row. *)
Fixpoint spaced_singly (s : pystr) : bool :=
  match s with
  | a :: (b :: _) as t => negb (is_space a && is_space b) && spaced_singly t
  | _ => true
  end.

(** A non-empty run of characters that are not whitespace. *)
Definition word (w : pystr) : Prop :=
  w <> [] /\ Forall (fun c => is_space c = false) w.

(** A candidate as the loop wants it: no whitespace in front, a period at
    the end, and of a known origin. *)
Definition sentence_ready (desc c : pystr) : Prop :=
  hd_visible c /\ endswith c (lit ".") = true /\ bullet_origin desc c.

(** Every education entry has a degree. *)
Definition degrees_named (st : SessionState) : Prop :=
  Forall (fun ed => degree ed <> []) (education_list st).

(** Every skill is non-empty and stripped. *)
Definition skills_clean (st : SessionState) : Prop :=
  Forall (fun s => s <> [] /\ strip s = s) (skills st).

(** A session of edits, replayed on the tape source. *)
Definition edit_script : list action :=
  [AddEducation [] (lit "MIT") [];
   AddSkill (lit "  Welding ");
   AddSkill (lit "   ");
   AddAI {| exp_role := lit "Site Engineer"; exp_company := lit "Acme";
            exp_period := []; exp_desc := lit "built bridges" |};
   RemoveEducation 1;
   SaveExperience 0 [] [] [] [] (fun _ => []);
   AddRaw {| exp_role := []; exp_company := []; exp_period := [];
             exp_desc := lit "first line" ++ [newline] ++ lit " second. " |};
   RemoveSkill 2;
   AddSkill (lit "Rocq")].

Definition edit_tape : list nat := [3; 1; 4; 1; 5; 9; 2; 6; 5; 3; 5; 8; 9; 7; 9; 3].

Definition edited_world : World (list nat) :=
  Eval vm_compute in
    match run_actions ascii_lower edit_script (first_run ascii_lower edit_tape) with
    | Some w => w
    | None => first_run ascii_lower []
    end.

(** The tags of an HTML string, in order: each from a [<] to the next [>].
    What stands between tags is skipped. *)
Inductive tag_state :=
| TagOutside
| TagInside (acc : pystr).

Fixpoint tags_from (state : tag_state) (s : pystr) : list pystr :=
  match s with
  | [] => []
  | c :: s' =>
      match state with
      | TagOutside =>
          if N.eqb c 60 then tags_from (TagInside [c]) s'
          else tags_from TagOutside s'
      | TagInside acc =>
          if N.eqb c 62 then rev (c :: acc) :: tags_from TagOutside s'
          else tags_from (TagInside (c :: acc)) s'
      end
  end.

Definition tags_of (s : pystr) : list pystr := tags_from TagOutside s.

(** The state of the scan at the end of a string. *)
Fixpoint scan_final (state : tag_state) (s : pystr) : tag_state :=
  match s with
  | [] => state
  | c :: s' =>
      match state with
      | TagOutside =>
          if N.eqb c 60 then scan_final (TagInside [c]) s'
          else scan_final TagOutside s'
      | TagInside acc =>
          if N.eqb c 62 then scan_final TagOutside s'
          else scan_final (TagInside (c :: acc)) s'
      end
  end.

(** A piece of output that ends outside a tag. *)
Definition closed (s : pystr) : Prop := scan_final TagOutside s = TagOutside.

Definition LI_TAGS : list pystr := [lit "<li>"; lit "</li>"].

(** The tags of the HTML download, from the number of line breaks of the
    summary, the number of bullets of each experience entry, the number of
    education entries and whether there are skills. *)
Definition export_tags (breaks : nat) (bullet_counts : list nat) (educations : nat)
           (has_skills : bool) : list pystr :=
  [lit "<!doctype html>"; lit "<html>"; lit "<head>";
   lit "<meta charset=" ++ [dquote] ++ lit "utf-8" ++ [dquote] ++ lit ">";
   lit "<title>"; lit "</title>"; lit "</head>"; lit "<body>";
   lit "<h1>"; lit "</h1>"; lit "<h3>"; lit "</h3>"; lit "<p>"]
  ++ repeat (lit "<br>") breaks ++ [lit "</p>"]
  ++ (if truthy bullet_counts
      then [lit "<h2>"; lit "</h2>"]
             ++ flat_map (fun k => [lit "<h3>"; lit "</h3>"; lit "<ul>"]
                                     ++ concat (repeat LI_TAGS k) ++ [lit "</ul>"])
                  bullet_counts
      else [])
  ++ (match educations with
      | O => []
      | _ => [lit "<h2>"; lit "</h2>"]
               ++ concat (repeat [lit "<div>"; lit "<b>"; lit "</b>"; lit "</div>"]
                            educations)
      end)
  ++ (if has_skills then [lit "<h2>"; lit "</h2>"; lit "<div>"; lit "</div>"] else [])
  ++ [lit "</body>"; lit "</html>"].

(** The tags of the Classic / Minimal preview. *)
Definition paper_tags (bullet_counts : list nat) (educations : nat) : list pystr :=
  [lit "<html>"; lit "<head>"; lit "<meta charset='utf-8'>"; lit "<style>";
   lit "</style>"; lit "</head>"; lit "<body>"; lit "<div class='paper'>";
   lit "<h1>"; lit "</h1>"; lit "<div class='muted'>"; lit "</div>";
   lit "<div style='margin-top:8px'>"; lit "</div>"; lit "<h2>"; lit "</h2>"]
  ++ flat_map (fun k => [lit "<div>"; lit "<strong>"; lit "</strong>";
                         lit "<div class='muted'>"; lit "</div>"; lit "<ul>"]
                          ++ concat (repeat LI_TAGS k) ++ [lit "</ul>"; lit "</div>"])
       bullet_counts
  ++ [lit "<h2>"; lit "</h2>"]
  ++ concat (repeat [lit "<div>"; lit "<strong>"; lit "</strong>"; lit "</div>"]
               educations)
  ++ [lit "<h2>"; lit "</h2>"; lit "<div>"; lit "</div>";
      lit "</div>"; lit "</body>"; lit "</html>"].

(** The number of line breaks of a text. *)
Definition line_breaks (s : pystr) : nat := length (filter (N.eqb newline) s).

(** The headings of a document, with their levels, in order. *)
Definition headings (doc : document) : list (nat * pystr) :=
  flat_map (fun b => match b with Heading level t => [(level, t)] | _ => [] end) doc.

(** The text of a paragraph: that of its runs, one after the other. *)
Definition paragraph_text (runs : list run) : pystr := flat_map fst runs.

(** The texts of the paragraphs in the "List Bullet" style, in order. *)
Definition list_bullet_texts (doc : document) : list pystr :=
  flat_map (fun b => match b with
                     | Paragraph (Some s) runs =>
                         if str_eqb s LIST_BULLET then [paragraph_text runs] else []
                     | _ => []
                     end) doc.

(** A piece with its tags. *)
Definition piece (a : pystr) (ts : list pystr) : Prop :=
  closed a /\ tags_of a = ts.

(* ================================================================== *)
(** * Properties *)
(* ================================================================== *)

Arguments lit : simpl never.

(** ** The model on concrete inputs *)

Example strip_ex : strip (lit "  a b  ") = lit "a b".
Proof. reflexivity. Qed.

Example split_ex : split (lit " ab   c d ") = [lit "ab"; lit "c"; lit "d"].
Proof. reflexivity. Qed.

Example escape_ex : escape (lit "<a href='x'>&") = lit "&lt;a href=&#x27;x&#x27;&gt;&amp;".
Proof. reflexivity. Qed.

Example str_of_N_ex : str_of_N 25 = lit "25".
Proof. reflexivity. Qed.

Example smart_expand_ex :
  fst (smart_expand ascii_lower (lit "  managed   key accounts ") (lit "Sales Engineer")
         (lit "Intertek") 2 [3; 1; 4; 1; 5; 9; 2; 6; 5; 3])
  = [lit "Optimized managed key accounts by focusing on stakeholder needs and measurable KPIs.";
     lit "Managed managed key accounts at Intertek."].
Proof. vm_compute. reflexivity. Qed.

(** The end-to-end scenario of the specification: the HTML download of the
    record has the name as a heading, the bullet and the skill, and no
    Education heading. *)
Example scenario_export_html :
  contains (build_html ada) (lit "<h1>Ada Lovelace</h1>") = true
  /\ contains (build_html ada)
       (lit "<h2>Experience</h2><h3>Engineer " ++ [em_dash]
          ++ lit " Analytical Engines Ltd</h3><ul><li>Improved computation speed by 10%.</li></ul>")
     = true
  /\ contains (build_html ada) (lit "<h2>Skills</h2><div>Mathematics</div>") = true
  /\ contains (build_html ada) (lit "Education") = false.
Proof. repeat split; vm_compute; reflexivity. Qed.

(** ** Accumulating loops *)

(** A loop whose body appends to its accumulator builds the accumulator
    followed by the pieces, in the order of the list. *)
Lemma fold_left_appending (A B : Type) (step : list B -> A -> list B)
      (piece : A -> list B) :
  (forall acc x, step acc x = acc ++ piece x) ->
  forall l acc, fold_left step l acc = acc ++ flat_map piece l.
Proof.
  intros Hstep l. induction l as [|x l IH]; intro acc; simpl.
  - now rewrite app_nil_r.
  - rewrite IH, Hstep, <- app_assoc. reflexivity.
Qed.

Lemma bullets_loop (bs : list pystr) (html : pystr) :
  fold_left (fun html b => html ++ lit "<li>" ++ escape b ++ lit "</li>") bs html
  = html ++ flat_map bullet_item bs.
Proof. apply fold_left_appending. reflexivity. Qed.

Ltac reassoc := repeat rewrite <- app_assoc; try reflexivity.

(** ** The renderers as layouts of sections *)

Lemma build_html_layout (st : SessionState) :
  build_html st = layout (export_section st) SPEC_ORDER ++ lit "</body></html>".
Proof.
  unfold build_html, layout, SPEC_ORDER, flat_map, export_section.
  cbv zeta.
  rewrite (fold_left_appending _ export_experience_entry).
  2:{ intros acc ex. rewrite bullets_loop. unfold export_experience_entry. reassoc. }
  rewrite (fold_left_appending _ export_education_entry).
  2:{ intros acc ed. unfold export_education_entry. reflexivity. }
  destruct (experience_list st), (education_list st), (skills st);
    unfold truthy; repeat rewrite app_nil_r; reassoc.
Qed.

Lemma modern_head_layout (accent : pystr) (ctx : Ctx.t) :
  modern_head accent ctx
  = modern_section accent ctx Identity ++ modern_section accent ctx Summary
      ++ lit "              <div class='section-title'>Experience</div>" ++ [newline]
      ++ lit "            ".
Proof. unfold modern_head, modern_section. reassoc. Qed.

Lemma paper_head_layout (ctx : Ctx.t) :
  paper_head ctx
  = paper_section ctx Identity ++ paper_section ctx Summary
      ++ lit "            <h2>Experience</h2>" ++ [newline] ++ lit "            ".
Proof. unfold paper_head, paper_section. reassoc. Qed.

Lemma str_eqb_eq (a b : pystr) : str_eqb a b = true <-> a = b.
Proof.
  revert b. induction a as [|x a IH]; intros [|y b]; simpl; split;
    try congruence; try reflexivity.
  - intro E. apply andb_true_iff in E as [E1 E2].
    apply N.eqb_eq in E1. apply IH in E2. congruence.
  - intro E. injection E as -> ->. rewrite N.eqb_refl. simpl. now apply IH.
Qed.

Lemma render_modern_layout (d : Design) (ctx : Ctx.t) :
  style d = MODERN_COLOR ->
  render_preview_html d ctx
  = layout (modern_section (accent d) ctx) SPEC_ORDER ++ lit "</div></body></html>".
Proof.
  intro Hs. unfold render_preview_html. cbv zeta.
  rewrite (proj2 (str_eqb_eq _ _) Hs).
  rewrite (fold_left_appending _ modern_experience_entry).
  2:{ intros acc ex. rewrite bullets_loop. unfold modern_experience_entry. reassoc. }
  rewrite (fold_left_appending _ modern_education_entry).
  2:{ intros acc ed. unfold modern_education_entry. reflexivity. }
  rewrite (fold_left_appending _ modern_skill).
  2:{ intros acc s. unfold modern_skill. reflexivity. }
  rewrite modern_head_layout.
  unfold layout, SPEC_ORDER, flat_map.
  change (modern_section (accent d) ctx Experience)
    with (lit "              <div class='section-title'>Experience</div>" ++ [newline]
          ++ lit "            " ++ flat_map modern_experience_entry (Ctx.experience ctx)).
  change (modern_section (accent d) ctx Education)
    with (lit "<div class='section-title'>Education</div>"
          ++ flat_map modern_education_entry (Ctx.education ctx)).
  change (modern_section (accent d) ctx Skills)
    with (lit "<div class='section-title'>Skills</div><div>"
          ++ flat_map modern_skill (Ctx.skills ctx) ++ lit "</div>").
  change (lit "</div></div></body></html>")
    with (lit "</div>" ++ lit "</div></body></html>").
  rewrite app_nil_r. reassoc.
Qed.

Lemma render_paper_layout (d : Design) (ctx : Ctx.t) :
  style d <> MODERN_COLOR ->
  render_preview_html d ctx
  = layout (paper_section ctx) SPEC_ORDER ++ lit "</div></body></html>".
Proof.
  intro Hs. unfold render_preview_html. cbv zeta.
  destruct (str_eqb (style d) MODERN_COLOR) eqn:E.
  { apply str_eqb_eq in E. contradiction. }
  rewrite (fold_left_appending _ paper_experience_entry).
  2:{ intros acc ex. rewrite bullets_loop. unfold paper_experience_entry. reassoc. }
  rewrite (fold_left_appending _ paper_education_entry).
  2:{ intros acc ed. unfold paper_education_entry. reflexivity. }
  rewrite paper_head_layout.
  unfold layout, SPEC_ORDER, flat_map.
  change (paper_section ctx Experience)
    with (lit "            <h2>Experience</h2>" ++ [newline]
          ++ lit "            " ++ flat_map paper_experience_entry (Ctx.experience ctx)).
  change (paper_section ctx Education)
    with (lit "<h2>Education</h2>" ++ flat_map paper_education_entry (Ctx.education ctx)).
  change (paper_section ctx Skills)
    with (lit "<h2>Skills</h2><div>" ++ escape (join (lit ", ") (Ctx.skills ctx))
          ++ lit "</div>").
  rewrite app_nil_r. reassoc.
Qed.

Lemma add_bullet_appends (lib : DocxLibrary) (b : pystr) (doc : document) :
  add_bullet lib b doc = doc ++ add_bullet lib b [].
Proof.
  unfold add_bullet, add_paragraph.
  destruct (styled_paragraph_error lib LIST_BULLET b); simpl; reassoc.
Qed.

Lemma add_photo_appends (lib : DocxLibrary) (data : bytes) (doc : document) :
  add_photo lib data doc = doc ++ add_photo lib data [].
Proof.
  unfold add_photo. destruct (add_picture_error lib data); reflexivity.
Qed.

Lemma flat_map_singleton (A B : Type) (f : A -> B) (l : list A) :
  flat_map (fun x => [f x]) l = map f l.
Proof. induction l; simpl; congruence. Qed.

Lemma contact_parts_filter (p : Profile) :
  (let contact_parts : list pystr := [] in
   let contact_parts :=
     if truthy (email p) then contact_parts ++ [email p] else contact_parts in
   let contact_parts :=
     if truthy (phone p) then contact_parts ++ [phone p] else contact_parts in
   let contact_parts :=
     if truthy (location p) then contact_parts ++ [location p] else contact_parts in
   let contact_parts :=
     if truthy (linkedin p) then contact_parts ++ [linkedin p] else contact_parts in
   let contact_parts :=
     if truthy (portfolio p) then contact_parts ++ [portfolio p] else contact_parts in
   contact_parts) = contact_fields p.
Proof.
  unfold contact_fields. cbv zeta. simpl filter.
  destruct (truthy (email p)), (truthy (phone p)), (truthy (location p)),
    (truthy (linkedin p)), (truthy (portfolio p)); reflexivity.
Qed.

Lemma build_docx_layout (lib : DocxLibrary) (st : SessionState) :
  build_docx lib st = layout (docx_section lib st) DOCX_ORDER.
Proof.
  unfold build_docx. cbv zeta.
  pose proof (contact_parts_filter (profile st)) as Hc. cbv zeta in Hc. rewrite Hc.
  rewrite (fold_left_appending _ (fun ed => [education_paragraph ed]))
    by reflexivity.
  rewrite (fold_left_appending
             _ (fun ex => experience_paragraph ex
                            :: flat_map (fun b => add_bullet lib b []) (bullets ex))).
  2:{ intros acc ex.
      rewrite (fold_left_appending _ (fun b => add_bullet lib b []))
        by (intros; apply add_bullet_appends).
      unfold experience_paragraph. reassoc. }
  rewrite flat_map_singleton.
  unfold layout, DOCX_ORDER, flat_map, docx_section, add_heading, add_paragraph.
  destruct (photo_file st) as [data|];
    [destruct (include_photo (design st)); [rewrite add_photo_appends|]|];
    destruct (truthy (title (profile st))), (truthy (contact_fields (profile st))),
      (truthy (summary (profile st))), (truthy (education_list st)),
      (truthy (experience_list st)), (truthy (skills st));
    repeat rewrite app_nil_r; simpl app; reassoc.
Qed.

(** ** The handler and the exceptions of the library *)

Lemma builds_nothing (lib : DocxLibrary) : builds lib Some [] [].
Proof. intro doc. simpl. now rewrite app_nil_r. Qed.

Lemma builds_and_then (lib : DocxLibrary) (f g : building)
      (t1 t2 : list pystr) (b1 b2 : document) :
  builds lib f t1 b1 -> builds lib g t2 b2 ->
  builds lib (and_then f g) (t1 ++ t2) (b1 ++ b2).
Proof.
  intros Hf Hg doc. unfold and_then. rewrite Hf, existsb_app.
  destruct (existsb (text_error lib) t1); simpl; [reflexivity|].
  rewrite Hg. destruct (existsb (text_error lib) t2); [reflexivity|].
  now rewrite app_assoc.
Qed.

Lemma builds_when (lib : DocxLibrary) (c : bool) (f : building)
      (t : list pystr) (b : document) :
  builds lib f t b ->
  builds lib (when c f) (if c then t else []) (if c then b else []).
Proof. intro Hf. destruct c; [exact Hf | apply builds_nothing]. Qed.

Lemma builds_for_each (lib : DocxLibrary) (A : Type) (f : A -> building)
      (t : A -> list pystr) (b : A -> document) (l : list A) :
  (forall x, builds lib (f x) (t x) (b x)) ->
  builds lib (for_each f l) (flat_map t l) (flat_map b l).
Proof.
  intro Hf. induction l as [|x l IH]; simpl.
  - apply builds_nothing.
  - apply builds_and_then; auto.
Qed.

Lemma builds_heading (lib : DocxLibrary) (text : pystr) (level : nat) :
  builds lib (heading_call lib text level) [text] [Heading level text].
Proof.
  intro doc. unfold heading_call, add_heading. simpl.
  now destruct (text_error lib text).
Qed.

Lemma builds_paragraph (lib : DocxLibrary) (text : pystr) :
  builds lib (paragraph_call lib text) [text] [Paragraph None (text_runs text)].
Proof.
  intro doc. unfold paragraph_call, add_paragraph. simpl.
  now destruct (text_error lib text).
Qed.

Lemma existsb_map (A B : Type) (f : A -> B) (p : B -> bool) (l : list A) :
  existsb p (map f l) = existsb (fun x => p (f x)) l.
Proof. induction l; simpl; congruence. Qed.

Lemma builds_runs (lib : DocxLibrary) (runs : list run) :
  builds lib (runs_call lib runs) (map fst runs) [Paragraph None runs].
Proof. intro doc. unfold runs_call. now rewrite existsb_map. Qed.

Lemma builds_bullet (lib : DocxLibrary) (b : pystr) :
  builds lib (bullet_call lib b) (fallback_texts lib b) (add_bullet lib b []).
Proof.
  intro doc. unfold bullet_call, fallback_texts, add_bullet, paragraph_call, add_paragraph.
  destruct (styled_paragraph_error lib LIST_BULLET b) as [partial|]; simpl.
  - destruct (text_error lib _); [reflexivity|]. now rewrite app_assoc.
  - reflexivity.
Qed.

Lemma builds_photo (lib : DocxLibrary) (data : bytes) :
  builds lib (photo_call lib data) [] (add_photo lib data []).
Proof. intro doc. unfold photo_call. simpl. now rewrite add_photo_appends. Qed.

Lemma builds_as (lib : DocxLibrary) (f : building) (t t' : list pystr)
      (b b' : document) :
  builds lib f t b -> t = t' -> b = b' -> builds lib f t' b'.
Proof. now intros H <- <-. Qed.

(** The handler raises exactly when the library rejects one of the texts it
    is given outside [try]; otherwise it reaches [doc.save] with the
    document of [build_docx]. *)
Lemma docx_handler_spec (lib : DocxLibrary) (st : SessionState) :
  docx_handler lib st
  = if existsb (text_error lib) (docx_texts lib st) then None
    else Some (build_docx lib st).
Proof.
  rewrite build_docx_layout.
  unfold docx_handler. cbv zeta.
  pose proof (contact_parts_filter (profile st)) as Hc. cbv zeta in Hc. rewrite Hc. clear Hc.
  match goal with
  | |- ?f [] = _ =>
      assert (H : builds lib f (docx_texts lib st) (layout (docx_section lib st) DOCX_ORDER));
        [|exact (H [])]
  end.
  eapply builds_as.
  - eapply builds_and_then; [apply builds_heading|].
    eapply builds_and_then; [eapply builds_when, builds_paragraph|].
    eapply builds_and_then; [eapply builds_when, builds_paragraph|].
    eapply builds_and_then; [eapply builds_when, builds_paragraph|].
    eapply (@builds_and_then lib _ _ (docx_section_texts lib st Photo) _
             (docx_section lib st Photo)).
    { unfold docx_section_texts, docx_section.
      destruct (photo_file st) as [data|]; [|apply builds_nothing].
      destruct (include_photo (design st)); [apply builds_photo | apply builds_nothing]. }
    eapply builds_and_then.
    { eapply builds_when. eapply builds_and_then; [apply builds_heading|].
      apply (@builds_for_each lib _ _ (fun ed => run_texts (education_paragraph ed))
               (fun ed => [education_paragraph ed])).
      intro ed. apply builds_runs. }
    eapply builds_and_then.
    { eapply builds_when. eapply builds_and_then; [apply builds_heading|].
      apply (@builds_for_each lib _ _
               (fun ex => run_texts (experience_paragraph ex)
                            ++ flat_map (fallback_texts lib) (bullets ex))
               (fun ex => [experience_paragraph ex]
                            ++ flat_map (fun b => add_bullet lib b []) (bullets ex))).
      intro ex. eapply builds_and_then; [apply builds_runs|].
      apply builds_for_each. intro b. apply builds_bullet. }
    eapply builds_when. eapply builds_and_then; [apply builds_heading | apply builds_paragraph].
  - unfold docx_texts, layout, DOCX_ORDER. cbn [flat_map]. unfold docx_section_texts.
    destruct (truthy (title (profile st))), (truthy (contact_fields (profile st))),
      (truthy (summary (profile st))), (truthy (education_list st)),
      (truthy (experience_list st)), (truthy (skills st));
      repeat rewrite app_nil_r; simpl app; reassoc.
  - rewrite flat_map_singleton.
    unfold layout, DOCX_ORDER. cbn [flat_map]. unfold docx_section.
    destruct (truthy (title (profile st))), (truthy (contact_fields (profile st))),
      (truthy (summary (profile st))), (truthy (education_list st)),
      (truthy (experience_list st)), (truthy (skills st));
      repeat rewrite app_nil_r; simpl app; reassoc.
Qed.

Lemma docx_handler_built (lib : DocxLibrary) (st : SessionState) (doc : document) :
  docx_handler lib st = Some doc -> doc = build_docx lib st.
Proof.
  rewrite docx_handler_spec.
  destruct (existsb (text_error lib) (docx_texts lib st)); congruence.
Qed.

Lemma docx_handler_accepted (lib : DocxLibrary) (st : SessionState) :
  texts_accepted lib st -> docx_handler lib st = Some (build_docx lib st).
Proof.
  intro H. unfold texts_accepted in H. now rewrite docx_handler_spec, H.
Qed.

Lemma docx_handler_raises (lib : DocxLibrary) (st : SessionState) (t : pystr) :
  In t (docx_texts lib st) -> text_error lib t = true -> docx_handler lib st = None.
Proof.
  intros Hin Ht. rewrite docx_handler_spec.
  replace (existsb (text_error lib) (docx_texts lib st)) with true; [reflexivity|].
  symmetry. apply existsb_exists. eauto.
Qed.

(** ** Level-1 headings of the DOCX document *)

Lemma section_titles_app (d1 d2 : document) :
  section_titles (d1 ++ d2) = section_titles d1 ++ section_titles d2.
Proof. apply flat_map_app. Qed.

Lemma section_titles_unstyled (partial : list (list run)) :
  section_titles (unstyled partial) = [].
Proof. induction partial; simpl; auto. Qed.

Lemma section_titles_add_bullet (lib : DocxLibrary) (b : pystr) :
  section_titles (add_bullet lib b []) = [].
Proof.
  unfold add_bullet, add_paragraph.
  destruct (styled_paragraph_error lib LIST_BULLET b); simpl; try reflexivity.
  rewrite section_titles_app, section_titles_unstyled. reflexivity.
Qed.

Lemma section_titles_add_photo (lib : DocxLibrary) (data : bytes) :
  section_titles (add_photo lib data []) = [].
Proof.
  unfold add_photo. destruct (add_picture_error lib data); simpl; try reflexivity.
  apply section_titles_unstyled.
Qed.

Lemma section_titles_flat_map (A : Type) (f : A -> document) (l : list A) :
  (forall x, section_titles (f x) = []) ->
  section_titles (flat_map f l) = [].
Proof.
  intro Hf. induction l as [|x l IH]; simpl; [reflexivity|].
  rewrite section_titles_app, Hf, IH. reflexivity.
Qed.

Lemma section_titles_education (l : list EducationEntry) :
  section_titles (map education_paragraph l) = [].
Proof. induction l; simpl; auto. Qed.

Lemma section_titles_experience (lib : DocxLibrary) (l : list ExperienceEntry) :
  section_titles
    (flat_map (fun ex => experience_paragraph ex
                           :: flat_map (fun b => add_bullet lib b []) (bullets ex)) l)
  = [].
Proof.
  apply section_titles_flat_map. intro ex.
  change (section_titles (flat_map (fun b => add_bullet lib b []) (bullets ex)) = []).
  apply section_titles_flat_map. intro b. apply section_titles_add_bullet.
Qed.

Lemma docx_section_titles (lib : DocxLibrary) (st : SessionState) :
  section_titles (build_docx lib st)
  = (if truthy (education_list st) then [lit "Education"] else [])
      ++ (if truthy (experience_list st) then [lit "Experience"] else [])
      ++ (if truthy (skills st) then [lit "Skills"] else []).
Proof.
  rewrite build_docx_layout. unfold layout, DOCX_ORDER.
  cbn [flat_map]. repeat rewrite section_titles_app.
  replace (section_titles (docx_section lib st Identity)) with (@nil pystr).
  2:{ unfold docx_section.
      destruct (truthy (title (profile st))), (truthy (contact_fields (profile st)));
        reflexivity. }
  replace (section_titles (docx_section lib st Summary)) with (@nil pystr).
  2:{ unfold docx_section. destruct (truthy (summary (profile st))); reflexivity. }
  replace (section_titles (docx_section lib st Photo)) with (@nil pystr).
  2:{ unfold docx_section.
      destruct (photo_file st); [destruct (include_photo (design st))|];
        try reflexivity.
      symmetry. apply section_titles_add_photo. }
  unfold docx_section.
  destruct (truthy (education_list st)), (truthy (experience_list st)),
    (truthy (skills st));
    cbn [section_titles flat_map app];
    fold (section_titles (map education_paragraph (education_list st)));
    fold (section_titles
            (flat_map (fun ex => experience_paragraph ex
                                   :: flat_map (fun b => add_bullet lib b []) (bullets ex))
               (experience_list st)));
    rewrite ?section_titles_education, ?section_titles_experience; reflexivity.
Qed.

(* ================================================================== *)
(** ** Escaping (C1) *)
(* ================================================================== *)

(** [html.escape] leaves none of the characters that open or close markup
    or an attribute value. *)
Lemma escape_no_markup (s : pystr) (c : char) :
  In c (escape s) -> c <> 60%N /\ c <> 62%N /\ c <> 34%N /\ c <> 39%N.
Proof.
  unfold escape. rewrite in_flat_map. intros [x [_ Hc]].
  unfold escape_char in Hc.
  destruct (N.eqb_spec x 38); [|destruct (N.eqb_spec x 60);
    [|destruct (N.eqb_spec x 62); [|destruct (N.eqb_spec x 34);
    [|destruct (N.eqb_spec x 39)]]]].
  1-5: vm_compute in Hc;
    repeat (destruct Hc as [Hc|Hc]; [subst c; repeat split; discriminate|]);
    contradiction.
  simpl in Hc. destruct Hc as [->|[]]. repeat split; assumption.
Qed.

(** C1, evaluated.  With the Modern style the preview carries the name as
    it was typed, markup included, and not its escaped form; the Classic
    preview and the HTML download of the same record carry no [<script>]. *)
Theorem modern_preview_name_unescaped :
  contains (preview_html no_imaging (with_design modern_design ada_scripted))
           (lit "<div class='name'><script>alert(1)</script></div>") = true
  /\ contains (preview_html no_imaging (with_design modern_design ada_scripted))
              (escape script_name) = false
  /\ contains (preview_html no_imaging ada_scripted) (lit "<script>") = false
  /\ contains (build_html ada_scripted) (lit "<script>") = false.
Proof. repeat split; vm_compute; reflexivity. Qed.

(** ** The [<h2>] headings of the HTML outputs *)

Lemma passes_app (a b : pystr) : passes a -> passes b -> passes (a ++ b).
Proof. intros Ha Hb rest. rewrite <- app_assoc, Ha, Hb. reflexivity. Qed.

Lemma passes_tagless (a : pystr) : (forall c, In c a -> c <> 60%N) -> passes a.
Proof.
  induction a as [|c a IH]; intros Ha rest; [reflexivity|].
  assert (Hc : N.eqb 60 c = false).
  { apply N.eqb_neq. intro E. apply (Ha c); [left; reflexivity | now symmetry]. }
  unfold h2_titles. change ((c :: a) ++ rest) with (c :: a ++ rest).
  cbn [h2_titles_from].
  change (startswith (c :: a ++ rest) (lit "<h2>"))
    with (N.eqb 60 c && startswith (a ++ rest) (lit "h2>")).
  rewrite Hc. cbn [andb].
  apply IH. intros x Hx. apply Ha. now right.
Qed.

Lemma passes_escape (s : pystr) : passes (escape s).
Proof. apply passes_tagless. intros c Hc. now apply escape_no_markup in Hc. Qed.

Lemma passes_flat_map (A : Type) (f : A -> pystr) (l : list A) :
  (forall x, In x l -> passes (f x)) -> passes (flat_map f l).
Proof.
  induction l as [|x l IH]; intro Hf; simpl; [intro rest; reflexivity|].
  apply passes_app; [apply Hf; now left | apply IH; intros y Hy; apply Hf; now right].
Qed.

Lemma passes_line_breaks (s : pystr) :
  passes (replace_char newline (lit "<br>") (escape s)).
Proof.
  unfold replace_char. apply passes_flat_map. intros c Hc.
  destruct (N.eqb c newline); [intro rest; reflexivity|].
  apply passes_tagless. intros x [<-|[]].
  now apply escape_no_markup in Hc.
Qed.

(** Pieces made of program text, escaped fields and loops over entries. *)
Ltac pass :=
  repeat first
    [ apply passes_escape
    | apply passes_line_breaks
    | apply passes_app
    | apply passes_flat_map; intros ? _
    | (intro; reflexivity) ].

Lemma passes_bullet_item (b : pystr) : passes (bullet_item b).
Proof. unfold bullet_item. pass. Qed.

Lemma passes_export_experience_entry (ex : ExperienceEntry) :
  passes (export_experience_entry ex).
Proof. unfold export_experience_entry. pass. Qed.

Lemma passes_export_education_entry (ed : EducationEntry) :
  passes (export_education_entry ed).
Proof. unfold export_education_entry. pass. Qed.

Lemma passes_paper_experience_entry (ex : ExperienceEntry) :
  passes (paper_experience_entry ex).
Proof. unfold paper_experience_entry. pass. Qed.

Lemma passes_paper_education_entry (ed : EducationEntry) :
  passes (paper_education_entry ed).
Proof. unfold paper_education_entry. pass. Qed.

Lemma h2_titles_heading (t rest : pystr) :
  (forall c, In c t -> c <> 60%N) ->
  h2_titles (lit "<h2>" ++ t ++ lit "</h2>" ++ rest) = t :: h2_titles rest.
Proof.
  intro Ht. unfold h2_titles.
  change (lit "<h2>" ++ t ++ lit "</h2>" ++ rest)
    with (60 :: 104 :: 50 :: 62 :: t ++ lit "</h2>" ++ rest)%N.
  cbn [h2_titles_from].
  change (startswith (60 :: 104 :: 50 :: 62 :: t ++ lit "</h2>" ++ rest) (lit "<h2>"))%N
    with true.
  cbv iota.
  assert (Hin : forall acc,
             h2_titles_from (Inside acc) (t ++ lit "</h2>" ++ rest)
             = rev (rev t ++ acc) :: h2_titles_from Outside rest).
  { clear - Ht. induction t as [|c t IH]; intro acc.
    - reflexivity.
    - change ((c :: t) ++ lit "</h2>" ++ rest) with (c :: t ++ lit "</h2>" ++ rest).
      cbn [h2_titles_from].
      destruct (N.eqb_spec c 60) as [E|_].
      + exfalso. apply (Ht c); [now left | exact E].
      + rewrite IH by (intros x Hx; apply Ht; now right).
        simpl rev. now rewrite <- app_assoc. }
  rewrite Hin, app_nil_r, rev_involutive. reflexivity.
Qed.

Lemma h2_titles_titled (t body rest : pystr) :
  (forall c, In c t -> c <> 60%N) ->
  passes body ->
  h2_titles ((lit "<h2>" ++ t ++ lit "</h2>" ++ body) ++ rest) = t :: h2_titles rest.
Proof.
  intros Ht Hbody. rewrite <- !app_assoc.
  rewrite h2_titles_heading by exact Ht. now rewrite Hbody.
Qed.

Lemma lit_tagless_titles :
  (forall c, In c (lit "Experience") -> c <> 60%N)
  /\ (forall c, In c (lit "Education") -> c <> 60%N)
  /\ (forall c, In c (lit "Skills") -> c <> 60%N).
Proof.
  repeat split; intros c Hc; vm_compute in Hc;
    repeat (destruct Hc as [<-|Hc]; [discriminate|]); contradiction.
Qed.

(** The headings a section of the HTML download contributes. *)
Lemma export_section_titles (st : SessionState) (k : section) (rest : pystr) :
  h2_titles (export_section st k ++ rest)
  = match k with
    | Experience => if truthy (experience_list st) then [lit "Experience"] else []
    | Education => if truthy (education_list st) then [lit "Education"] else []
    | Skills => if truthy (skills st) then [lit "Skills"] else []
    | _ => []
    end ++ h2_titles rest.
Proof.
  destruct lit_tagless_titles as [Hx [He Hs]].
  destruct k; unfold export_section.
  - assert (P : passes (export_section st Identity)) by (unfold export_section; pass).
    apply P.
  - assert (P : passes (export_section st Summary)) by (unfold export_section; pass).
    apply P.
  - reflexivity.
  - destruct (truthy (experience_list st)); [|reflexivity].
    change (lit "<h2>Experience</h2>"
              ++ flat_map export_experience_entry (experience_list st))
      with (lit "<h2>" ++ lit "Experience" ++ lit "</h2>"
              ++ flat_map export_experience_entry (experience_list st)).
    apply h2_titles_titled; [exact Hx|].
    apply passes_flat_map. intros ex _. apply passes_export_experience_entry.
  - destruct (truthy (education_list st)); [|reflexivity].
    change (lit "<h2>Education</h2>"
              ++ flat_map export_education_entry (education_list st))
      with (lit "<h2>" ++ lit "Education" ++ lit "</h2>"
              ++ flat_map export_education_entry (education_list st)).
    apply h2_titles_titled; [exact He|].
    apply passes_flat_map. intros ed _. apply passes_export_education_entry.
  - destruct (truthy (skills st)); [|reflexivity].
    change (lit "<h2>Skills</h2><div>" ++ escape (join (lit ", ") (skills st))
              ++ lit "</div>")
      with (lit "<h2>" ++ lit "Skills" ++ lit "</h2>"
              ++ (lit "<div>" ++ escape (join (lit ", ") (skills st)) ++ lit "</div>")).
    apply h2_titles_titled; [exact Hs|]. pass.
Qed.

Lemma export_h2_titles (st : SessionState) :
  h2_titles (build_html st)
  = (if truthy (experience_list st) then [lit "Experience"] else [])
      ++ (if truthy (education_list st) then [lit "Education"] else [])
      ++ (if truthy (skills st) then [lit "Skills"] else []).
Proof.
  rewrite build_html_layout. unfold layout, SPEC_ORDER. cbn [flat_map].
  rewrite <- !app_assoc. rewrite !export_section_titles.
  rewrite app_nil_l.
  change (h2_titles (lit "</body></html>")) with (@nil pystr).
  cbn [app]. now rewrite !app_nil_r.
Qed.

(** The headings a section of the Classic / Minimal preview contributes. *)
Lemma paper_section_titles (ctx : Ctx.t) (k : section) (rest : pystr) :
  h2_titles (paper_section ctx k ++ rest)
  = match k with
    | Experience => [lit "Experience"]
    | Education => [lit "Education"]
    | Skills => [lit "Skills"]
    | _ => []
    end ++ h2_titles rest.
Proof.
  destruct lit_tagless_titles as [Hx [He Hs]].
  destruct k; unfold paper_section.
  - assert (P : passes (paper_section ctx Identity)).
    { unfold paper_section, paper_css. pass. }
    apply P.
  - assert (P : passes (paper_section ctx Summary)) by (unfold paper_section; pass).
    apply P.
  - reflexivity.
  - change (lit "            <h2>Experience</h2>" ++ [newline] ++ lit "            "
              ++ flat_map paper_experience_entry (Ctx.experience ctx))
      with (lit "            "
              ++ lit "<h2>" ++ lit "Experience" ++ lit "</h2>"
              ++ ([newline] ++ lit "            "
                    ++ flat_map paper_experience_entry (Ctx.experience ctx))).
    rewrite <- app_assoc.
    assert (P : passes (lit "            ")) by (intro; reflexivity).
    rewrite P. apply h2_titles_titled; [exact Hx|].
    pass.
  - change (lit "<h2>Education</h2>"
              ++ flat_map paper_education_entry (Ctx.education ctx))
      with (lit "<h2>" ++ lit "Education" ++ lit "</h2>"
              ++ flat_map paper_education_entry (Ctx.education ctx)).
    apply h2_titles_titled; [exact He|].
    apply passes_flat_map. intros ed _. apply passes_paper_education_entry.
  - change (lit "<h2>Skills</h2><div>" ++ escape (join (lit ", ") (Ctx.skills ctx))
              ++ lit "</div>")
      with (lit "<h2>" ++ lit "Skills" ++ lit "</h2>"
              ++ (lit "<div>" ++ escape (join (lit ", ") (Ctx.skills ctx))
                    ++ lit "</div>")).
    apply h2_titles_titled; [exact Hs|]. pass.
Qed.

Lemma paper_h2_titles (d : Design) (ctx : Ctx.t) :
  style d <> MODERN_COLOR ->
  h2_titles (render_preview_html d ctx)
  = [lit "Experience"; lit "Education"; lit "Skills"].
Proof.
  intro Hs. rewrite (@render_paper_layout d ctx Hs).
  unfold layout, SPEC_ORDER. cbn [flat_map].
  rewrite <- !app_assoc. rewrite !paper_section_titles.
  reflexivity.
Qed.

(* ================================================================== *)
(** ** Section order (C2) *)
(* ================================================================== *)

(** C2 as stated fails for the DOCX document: for the scenario record with
    one education entry its level-1 headings read Education, Experience,
    Skills, and the document is not the sections laid out in the order of
    the specification. *)
Lemma docx_education_before_experience :
  section_titles (build_docx default_library ada_graduate)
  = [lit "Education"; lit "Experience"; lit "Skills"]
  /\ build_docx default_library ada_graduate
     <> layout (docx_section default_library ada_graduate) SPEC_ORDER.
Proof.
  split.
  - vm_compute. reflexivity.
  - intro E. apply (f_equal section_titles) in E. vm_compute in E. discriminate E.
Qed.

(** C2, amended.  The HTML download and both preview templates are the
    sections laid out as identity, summary, experience, education, skills;
    the [<h2>] headings of the HTML download are, of Experience, Education
    and Skills in this order, those whose list is not empty, and those of a
    preview in a style other than Modern are Experience, Education, Skills.
    The DOCX document is the sections laid out as identity, summary, photo,
    education, experience, skills, so that its level-1 headings are, of
    Education, Experience and Skills in this order, those whose list is not
    empty. *)
Theorem section_order (png_base64 : bytes -> option pystr) (lib : DocxLibrary)
        (st : SessionState) :
  (build_html st = layout (export_section st) SPEC_ORDER ++ lit "</body></html>"
   /\ h2_titles (build_html st)
      = (if truthy (experience_list st) then [lit "Experience"] else [])
          ++ (if truthy (education_list st) then [lit "Education"] else [])
          ++ (if truthy (skills st) then [lit "Skills"] else []))
  /\ (preview_html png_base64 st
      = layout (if str_eqb (style (design st)) MODERN_COLOR
                then modern_section (accent (design st)) (preview_ctx png_base64 st)
                else paper_section (preview_ctx png_base64 st))
          SPEC_ORDER ++ lit "</div></body></html>"
      /\ (style (design st) <> MODERN_COLOR ->
          h2_titles (preview_html png_base64 st)
          = [lit "Experience"; lit "Education"; lit "Skills"]))
  /\ (build_docx lib st = layout (docx_section lib st) DOCX_ORDER
      /\ section_titles (build_docx lib st)
         = (if truthy (education_list st) then [lit "Education"] else [])
             ++ (if truthy (experience_list st) then [lit "Experience"] else [])
             ++ (if truthy (skills st) then [lit "Skills"] else [])).
Proof.
  split; [split; [apply build_html_layout | apply export_h2_titles]|].
  split; [|split; [apply build_docx_layout | apply docx_section_titles]].
  split.
  - unfold preview_html.
    destruct (str_eqb (style (design st)) MODERN_COLOR) eqn:E.
    + apply render_modern_layout. now apply str_eqb_eq.
    + apply render_paper_layout. intro Hs. apply str_eqb_eq in Hs. congruence.
  - intro Hs. unfold preview_html. now apply paper_h2_titles.
Qed.

Lemma section_order_witness :
  h2_titles (build_html ada_graduate)
  = [lit "Experience"; lit "Education"; lit "Skills"]
  /\ h2_titles (preview_html no_imaging ada_graduate)
     = [lit "Experience"; lit "Education"; lit "Skills"]
  /\ section_titles (build_docx default_library ada_graduate)
     = [lit "Education"; lit "Experience"; lit "Skills"].
Proof.
  destruct (section_order no_imaging default_library ada_graduate)
    as [[_ Hexport] [[_ Hpreview] [_ Hdocx]]].
  split; [exact Hexport|]. split; [|exact Hdocx].
  apply Hpreview. intro E. vm_compute in E. discriminate E.
Defined.

(* ================================================================== *)
(** ** Omission of empty fields (C4) *)
(* ================================================================== *)

(** C4, evaluated.  With an email address and no phone number the meta line
    of the Modern preview ends in the separator, and the HTML download keeps
    the empty title and summary elements; the DOCX contact line of the same
    record is the address alone. *)
Theorem modern_meta_dangling_separator :
  contains (preview_html no_imaging (with_design modern_design ada_email_only))
           (lit "<div class='meta'>ada@example.com " ++ [middle_dot] ++ lit " </div>")
  = true
  /\ contains (build_html ada_email_only) (lit "<h3></h3><p></p>") = true
  /\ nth_error (build_docx default_library ada_email_only) 1
     = Some (Paragraph None [(lit "ada@example.com", false)]).
Proof. repeat split; vm_compute; reflexivity. Qed.

(* ================================================================== *)
(** ** Empty description (C5) *)
(* ================================================================== *)

(** C5.  For the empty description [smart_expand] returns the empty list,
    whatever the role, the company and the count, and draws nothing from
    the random source. *)
Theorem smart_expand_empty_description (G : Type) (RS : RandomSource G)
        (lower : pystr -> pystr) (role company : pystr) (n : Z) (g : G) :
  smart_expand lower [] role company n g = ([], g).
Proof. reflexivity. Qed.

(* ================================================================== *)
(** ** Determinism of the HTML download (C6) *)
(* ================================================================== *)

(** C6.  Two runs of the HTML download handler on worlds that agree on the
    record and the style produce the same bytes, whatever the state of the
    random source, the accent, the photo and the photo switch; and the
    handler leaves the world as it found it. *)
Theorem html_download_deterministic (G : Type) (w1 w2 : World G) :
  profile (session w1) = profile (session w2) ->
  experience_list (session w1) = experience_list (session w2) ->
  education_list (session w1) = education_list (session w2) ->
  skills (session w1) = skills (session w2) ->
  style (design (session w1)) = style (design (session w2)) ->
  fst (html_download_handler w1) = fst (html_download_handler w2)
  /\ snd (html_download_handler w1) = w1
  /\ snd (html_download_handler w2) = w2.
Proof.
  intros Hp Hx He Hs _. unfold html_download_handler, build_html. simpl.
  rewrite Hp, Hx, He, Hs. auto.
Qed.

Lemma html_download_deterministic_witness :
  let w1 := {| session := ada; random_state := [3; 1; 4] |} in
  let w2 := {| session :=
                 with_photo (Some [137; 80; 78; 71]%N)
                   (with_design {| style := lit "Classic B/W"; accent := lit "#ff0000";
                                   include_photo := false |} ada);
               random_state := @nil nat |} in
  fst (html_download_handler w1) = fst (html_download_handler w2)
  /\ snd (html_download_handler w1) = w1
  /\ snd (html_download_handler w2) = w2.
Proof.
  intros w1 w2.
  apply (@html_download_deterministic (list nat) w1 w2); reflexivity.
Defined.

(* ================================================================== *)
(** ** The two preview templates (C10) *)
(* ================================================================== *)

Lemma paper_template_any_style (d1 d2 : Design) (ctx : Ctx.t) :
  style d1 <> MODERN_COLOR ->
  style d2 <> MODERN_COLOR ->
  render_preview_html d1 ctx = render_preview_html d2 ctx.
Proof.
  intros H1 H2.
  rewrite (@render_paper_layout d1 ctx H1), (@render_paper_layout d2 ctx H2).
  reflexivity.
Qed.

(** C10.  For every record the preview in the style "Minimal One-Page" is
    the preview in the style "Classic B/W"; and any two styles other than
    "Modern Color" give the same preview, whatever the accent and the photo
    switch: there are two templates. *)
Theorem paper_template_shared :
  (forall (d : Design) (ctx : Ctx.t),
      render_preview_html (with_style (lit "Minimal One-Page") d) ctx
      = render_preview_html (with_style (lit "Classic B/W") d) ctx)
  /\ (forall (d1 d2 : Design) (ctx : Ctx.t),
         style d1 <> MODERN_COLOR ->
         style d2 <> MODERN_COLOR ->
         render_preview_html d1 ctx = render_preview_html d2 ctx).
Proof.
  split.
  - intros d ctx.
    apply paper_template_any_style; simpl; intro E; vm_compute in E; discriminate E.
  - apply paper_template_any_style.
Qed.

Lemma paper_template_shared_witness :
  render_preview_html
    {| style := lit "Minimal One-Page"; accent := lit "#0b6efd"; include_photo := true |}
    (preview_ctx no_imaging ada_graduate)
  = render_preview_html
      {| style := lit "Classic B/W"; accent := lit "#ff0000"; include_photo := false |}
      (preview_ctx no_imaging ada_graduate).
Proof.
  apply (proj2 paper_template_shared); simpl; intro E; vm_compute in E; discriminate E.
Defined.

(* ================================================================== *)
(** ** Case-insensitive role matching (C9) *)
(* ================================================================== *)

Lemma lit_is_ascii_sales_manager :
  is_ascii (lit "Sales Manager") /\ is_ascii (lit "SALES MANAGER").
Proof. split; repeat constructor. Qed.

(** C9.  The role reaches the keyword tests only through [lower]: roles with
    the same lower-cased form get the same role sentences, the same candidate
    list and the same bullets from the same random state.  With a [lower]
    that maps the ASCII capitals to their small letters, "Sales Manager" and
    "SALES MANAGER" both have the sales sentence among their candidates. *)
Theorem role_matching_case_insensitive (G : Type) (RS : RandomSource G)
        (lower : pystr -> pystr) :
  (forall s, is_ascii s -> lower s = ascii_lower s) ->
  (forall desc company g,
      In SALES_SENTENCE (fst (candidate_pool lower desc (lit "Sales Manager") company g))
      /\ In SALES_SENTENCE
           (fst (candidate_pool lower desc (lit "SALES MANAGER") company g)))
  /\ (forall role1 role2 description company n g,
         lower role1 = lower role2 ->
         role_flavor lower role1 = role_flavor lower role2
         /\ candidate_pool lower description role1 company g
            = candidate_pool lower description role2 company g
         /\ smart_expand lower description role1 company n g
            = smart_expand lower description role2 company n g).
Proof.
  intro Hlower. split.
  - intros desc company g.
    assert (Hin : forall role, In SALES_SENTENCE (role_flavor lower role) ->
              In SALES_SENTENCE (fst (candidate_pool lower desc role company g))).
    { intros role Hr. unfold candidate_pool, bind, ret.
      repeat match goal with
             | |- context [choice ?d ?l ?s] => destruct (choice d l s)
             end.
      simpl. right. right. right. exact Hr. }
    destruct lit_is_ascii_sales_manager as [H1 H2].
    split; apply Hin; unfold role_flavor;
      [rewrite (Hlower _ H1) | rewrite (Hlower _ H2)];
      vm_compute; left; reflexivity.
  - intros role1 role2 description company n g Heq.
    assert (Hf : role_flavor lower role1 = role_flavor lower role2).
    { unfold role_flavor. rewrite Heq. reflexivity. }
    assert (Hc : forall desc g', candidate_pool lower desc role1 company g'
                                 = candidate_pool lower desc role2 company g').
    { intros desc g'. unfold candidate_pool. rewrite Hf. reflexivity. }
    repeat split; auto.
    unfold smart_expand.
    destruct (negb (truthy description && truthy (strip description)));
      [reflexivity|].
    unfold bind at 1 3. rewrite Hc. reflexivity.
Qed.

Lemma role_matching_case_insensitive_witness :
  (In SALES_SENTENCE
      (fst (candidate_pool ascii_lower (lit "closed deals") (lit "Sales Manager")
              (lit "Intertek") [3; 1; 4]))
   /\ In SALES_SENTENCE
        (fst (candidate_pool ascii_lower (lit "closed deals") (lit "SALES MANAGER")
                (lit "Intertek") [3; 1; 4])))
  /\ smart_expand ascii_lower (lit "closed deals") (lit "Sales Manager")
       (lit "Intertek") 4 [3; 1; 4; 1; 5; 9; 2; 6]
     = smart_expand ascii_lower (lit "closed deals") (lit "SALES MANAGER")
         (lit "Intertek") 4 [3; 1; 4; 1; 5; 9; 2; 6].
Proof.
  pose proof (@role_matching_case_insensitive (list nat) tape_source ascii_lower
                (fun s _ => eq_refl)) as [Hsales Hsame].
  split.
  - apply Hsales.
  - apply Hsame. reflexivity.
Defined.

(* ================================================================== *)
(** ** A photo that cannot be read (C7) *)
(* ================================================================== *)

Lemma no_picture_unstyled (partial : list (list run)) :
  Forall (fun b => is_picture b = false) (unstyled partial).
Proof. induction partial; simpl; constructor; auto. Qed.

Lemma no_picture_flat_map (A : Type) (f : A -> document) (l : list A) :
  (forall x, Forall (fun b => is_picture b = false) (f x)) ->
  Forall (fun b => is_picture b = false) (flat_map f l).
Proof.
  intro Hf. induction l; simpl; [constructor|].
  apply Forall_app. split; auto.
Qed.

Lemma no_picture_add_bullet (lib : DocxLibrary) (b : pystr) :
  Forall (fun b => is_picture b = false) (add_bullet lib b []).
Proof.
  unfold add_bullet, add_paragraph.
  destruct (styled_paragraph_error lib LIST_BULLET b); simpl.
  - apply Forall_app. split; [apply no_picture_unstyled | repeat constructor].
  - repeat constructor.
Qed.

(** Outside the photo section no block is a picture. *)
Lemma no_picture_section (lib : DocxLibrary) (st : SessionState) (k : section) :
  k <> Photo ->
  Forall (fun b => is_picture b = false) (docx_section lib st k).
Proof.
  intro Hk. destruct k; try congruence; unfold docx_section.
  - destruct (truthy (title (profile st))), (truthy (contact_fields (profile st)));
      repeat constructor.
  - destruct (truthy (summary (profile st))); repeat constructor.
  - destruct (truthy (experience_list st)); constructor; [reflexivity|].
    apply no_picture_flat_map. intro ex. constructor; [reflexivity|].
    apply no_picture_flat_map. intro b. apply no_picture_add_bullet.
  - destruct (truthy (education_list st)); constructor; [reflexivity|].
    induction (education_list st); simpl; constructor; auto.
  - destruct (truthy (skills st)); repeat constructor.
Qed.

Lemma docx_section_without_photo (lib : DocxLibrary) (st : SessionState) (k : section) :
  k <> Photo ->
  docx_section lib (with_photo None st) k = docx_section lib st k.
Proof. intro Hk. destruct k; try congruence; reflexivity. Qed.




(** The same record with an imaging library that reads the upload: the
    Modern preview shows the photo the failing library leaves out. *)
Example readable_photo_is_shown :
  contains (preview_html (fun _ => Some (lit "QUJD")) ada_modern_photo)
           (lit "<img src='data:image/png;base64,QUJD' class='photo'/>") = true
  /\ contains (preview_html no_imaging ada_modern_photo) (lit "<img") = false
  /\ contains (preview_html no_imaging ada_modern_photo)
              (lit "<li>Improved computation speed by 10%.</li>") = true.
Proof. vm_compute. auto. Qed.

(* ================================================================== *)
(** ** Bullets without the list style (C8) *)
(* ================================================================== *)

(** C8 as stated fails: a bullet may hold a character XML cannot hold, such
    as U+0008, which "Add raw" keeps.  On a template without the style the
    styled call raises for it, the fallback call raises as well, and the
    handler ends without a document. *)
Lemma fallback_raises_on_illegal_text :
  raw_bullets (lit "Fixed" ++ [8%N] ++ lit "bugs") = [control_bullet]
  /\ In control_entry (experience_list ada_control)
  /\ In control_bullet (bullets control_entry)
  /\ styled_paragraph_error bare_library LIST_BULLET control_bullet
     = Some [[([], false)]]
  /\ text_error bare_library ([bullet_glyph] ++ lit " " ++ control_bullet) = true
  /\ docx_handler bare_library ada_control = None.
Proof. vm_compute. repeat split; auto. Qed.

Lemma fallback_text_given (lib : DocxLibrary) (st : SessionState)
      (ex : ExperienceEntry) (b : pystr) (partial : list (list run)) :
  In ex (experience_list st) ->
  In b (bullets ex) ->
  styled_paragraph_error lib LIST_BULLET b = Some partial ->
  In ([bullet_glyph] ++ lit " " ++ b) (docx_texts lib st).
Proof.
  intros Hex Hb Herr.
  unfold docx_texts, layout, DOCX_ORDER. cbn [flat_map].
  rewrite !in_app_iff. do 4 right. left.
  unfold docx_section_texts.
  destruct (experience_list st) as [|ex0 exs] eqn:El; [contradiction|].
  cbn [truthy]. right.
  apply in_flat_map. exists ex. split; [exact Hex|].
  apply in_or_app. right. apply in_flat_map. exists b. split; [exact Hb|].
  unfold fallback_texts. rewrite Herr. left. reflexivity.
Qed.

(** C8, amended.  When [add_paragraph] raises for a bullet with the style
    "List Bullet" and the library accepts the texts the handler gives it
    outside [try], the fallback's among them, the handler reaches [doc.save]
    with a document that holds the unstyled paragraph whose one run is the
    bullet glyph, a space and the bullet text; when the library rejects the
    fallback's text, the handler ends without a document. *)
Theorem bullet_glyph_fallback (lib : DocxLibrary) (st : SessionState)
        (ex : ExperienceEntry) (b : pystr) (partial : list (list run)) :
  In ex (experience_list st) ->
  In b (bullets ex) ->
  styled_paragraph_error lib LIST_BULLET b = Some partial ->
  (texts_accepted lib st ->
   exists doc,
     docx_handler lib st = Some doc
     /\ In (Paragraph None [([bullet_glyph] ++ lit " " ++ b, false)]) doc)
  /\ (text_error lib ([bullet_glyph] ++ lit " " ++ b) = true ->
      docx_handler lib st = None).
Proof.
  intros Hex Hb Herr. split.
  - intro Hacc. exists (build_docx lib st).
    split; [now apply docx_handler_accepted|].
    rewrite build_docx_layout. unfold layout, DOCX_ORDER. cbn [flat_map].
    rewrite !in_app_iff. do 4 right. left.
    unfold docx_section.
    destruct (experience_list st) as [|ex0 exs] eqn:El; [contradiction|].
    cbn [truthy]. right.
    apply in_flat_map. exists ex. split; [exact Hex|].
    right. apply in_flat_map. exists b. split; [exact Hb|].
    unfold add_bullet, add_paragraph. rewrite Herr.
    apply in_or_app. right. left. reflexivity.
  - intro Hrej.
    apply (@docx_handler_raises lib st ([bullet_glyph] ++ lit " " ++ b));
      [|exact Hrej].
    eapply fallback_text_given; eassumption.
Qed.

Lemma bullet_glyph_fallback_witness :
  exists doc,
    docx_handler bare_library ada = Some doc
    /\ In (Paragraph None
             [([bullet_glyph] ++ lit " " ++ lit "Improved computation speed by 10%.",
               false)]) doc.
Proof.
  apply (proj1 (@bullet_glyph_fallback bare_library ada ada_experience
                  (lit "Improved computation speed by 10%.")
                  [[(lit "Improved computation speed by 10%.", false)]]
                  (or_introl eq_refl) (or_introl eq_refl) eq_refl)).
  reflexivity.
Defined.

(* ================================================================== *)
(** ** Number and shape of the bullets (C3) *)
(* ================================================================== *)

Lemma lstrip_visible (s : pystr) :
  has_visible_character s -> has_visible_character (lstrip s).
Proof.
  induction s as [|a s IH]; intros [c [Hin Hc]]; [contradiction|].
  simpl. destruct (is_space a) eqn:Ea.
  - apply IH. destruct Hin as [->|Hin]; [congruence|]. exists c. auto.
  - exists c. auto.
Qed.

Lemma rev_visible (s : pystr) :
  has_visible_character s -> has_visible_character (rev s).
Proof. intros [c [Hin Hc]]. exists c. split; [now apply in_rev in Hin|exact Hc]. Qed.

Lemma strip_visible (s : pystr) :
  has_visible_character s -> has_visible_character (strip s).
Proof.
  intro H. unfold strip, rstrip.
  apply rev_visible, lstrip_visible, rev_visible, lstrip_visible, H.
Qed.

Lemma visible_truthy (s : pystr) : has_visible_character s -> truthy s = true.
Proof. intros [c [Hin _]]. destruct s; [contradiction|reflexivity]. Qed.

Lemma startswith_app (p x : pystr) : startswith (p ++ x) p = true.
Proof. induction p; simpl; [reflexivity|]. now rewrite N.eqb_refl. Qed.

Lemma endswith_app (s p : pystr) : endswith (s ++ p) p = true.
Proof. unfold endswith. rewrite rev_app_distr. apply startswith_app. Qed.

Lemma endswith_period_nonempty (s : pystr) :
  endswith s (lit ".") = true -> well_formed_bullet s.
Proof. intro H. split; [|exact H]. destruct s; [discriminate H|discriminate]. Qed.

(** The sentence the [for] loop stores for a candidate. *)
Lemma closed_sentence_well_formed (c : pystr) :
  well_formed_bullet
    (let s := strip c in if negb (endswith s (lit ".")) then s ++ lit "." else s).
Proof.
  cbv zeta. apply endswith_period_nonempty.
  destruct (endswith (strip c) (lit ".")) eqn:E; simpl.
  - exact E.
  - apply endswith_app.
Qed.

Lemma take_candidates_spec (n : Z) (candidates : list pystr) :
  forall bullets,
    (Z.of_nat (length bullets) <= n)%Z ->
    Forall well_formed_bullet bullets ->
    Forall well_formed_bullet (take_candidates n candidates bullets)
    /\ Z.of_nat (length (take_candidates n candidates bullets))
       = Z.min n (Z.of_nat (length bullets + length candidates)).
Proof.
  induction candidates as [|c rest IH]; intros bullets Hlen Hwf; simpl.
  - split; [exact Hwf|]. rewrite Nat.add_0_r. lia.
  - destruct (Z.of_nat (length bullets) >=? n)%Z eqn:E.
    + split; [exact Hwf|]. apply Z.geb_le in E. lia.
    + rewrite Z.geb_leb in E. apply Z.leb_gt in E.
      specialize (IH (bullets ++ [if negb (endswith (strip c) (lit "."))
                                  then strip c ++ lit "." else strip c])).
      rewrite length_app in IH. simpl length in IH.
      destruct IH as [IH1 IH2].
      * lia.
      * apply Forall_app. split; [exact Hwf|].
        constructor; [apply (closed_sentence_well_formed c)|constructor].
      * split; [exact IH1|]. rewrite IH2. f_equal. lia.
Qed.

Section GeneratorFacts.

Context {G : Type} `{RandomSource G}.
Variable lower : pystr -> pystr.

Lemma candidate_pool_shape (desc role company : pystr) (g : G) :
  exists b1 b2 b3,
    fst (candidate_pool lower desc role company g)
    = [b2; b1; b3] ++ role_flavor lower role.
Proof.
  unfold candidate_pool, bind, ret.
  repeat match goal with
         | |- context [choice ?d ?l ?s] => destruct (choice d l s)
         end.
  simpl. eauto.
Qed.

Lemma pad_bullets_spec (desc : pystr) (n : Z) :
  forall fuel bullets (g : G),
    Forall well_formed_bullet bullets ->
    (Z.of_nat (length bullets) <= n)%Z ->
    (n <= Z.of_nat (length bullets) + Z.of_nat fuel)%Z ->
    Forall well_formed_bullet (fst (pad_bullets fuel desc n bullets g))
    /\ Z.of_nat (length (fst (pad_bullets fuel desc n bullets g))) = n.
Proof.
  induction fuel as [|fuel IH]; intros bullets g Hwf Hle Hfuel; cbn [pad_bullets].
  - split; [exact Hwf|]. simpl in *. lia.
  - destruct (Z.of_nat (length bullets) <? n)%Z eqn:E.
    + apply Z.ltb_lt in E. unfold bind.
      destruct (choice [] ACTION_VERBS g) as [v g1].
      apply IH.
      * apply Forall_app. split; [exact Hwf|]. constructor; [|constructor].
        apply endswith_period_nonempty.
        replace (v ++ lit " " ++ desc ++ lit ".")
          with ((v ++ lit " " ++ desc) ++ lit ".") by (now rewrite <- !app_assoc).
        apply endswith_app.
      * rewrite length_app. simpl. lia.
      * rewrite length_app. simpl. lia.
    + apply Z.ltb_ge in E. split; [exact Hwf|]. simpl. lia.
Qed.

Lemma smart_expand_blank (description role company : pystr) (n : Z) (g : G) :
  Forall (fun c => is_space c = true) description ->
  smart_expand lower description role company n g = ([], g).
Proof.
  intro Hblank. unfold smart_expand.
  assert (E : lstrip description = []).
  { induction Hblank as [|c s Hc _ IH]; simpl; [reflexivity|]. now rewrite Hc. }
  unfold strip, rstrip. rewrite E. simpl. rewrite andb_false_r. reflexivity.
Qed.

End GeneratorFacts.

(** C3 as stated fails: a description that is not empty but holds only
    whitespace gives no bullet at all, for any count. *)
Lemma blank_description_counterexample :
  ~ (forall (description role company : pystr) (n : Z) (tape : list nat),
        description <> [] ->
        (1 <= n)%Z ->
        Z.of_nat (length (fst (smart_expand ascii_lower description role company n tape)))
        = n).
Proof.
  intro Hclaim.
  specialize (Hclaim (lit " ") [] [] 1%Z [] ltac:(discriminate) ltac:(lia)).
  vm_compute in Hclaim. discriminate Hclaim.
Qed.

(** C3, amended.  For a description with at least one character that is not
    whitespace and a count of at least 1, [smart_expand] returns exactly
    count strings, each non-empty and ending in a period, for every role and
    company and every state of the random source. *)
Theorem smart_expand_count (G : Type) (RS : RandomSource G) (lower : pystr -> pystr)
        (description role company : pystr) (n : Z) (g : G) :
  has_visible_character description ->
  (1 <= n)%Z ->
  Z.of_nat (length (fst (smart_expand lower description role company n g))) = n
  /\ Forall well_formed_bullet (fst (smart_expand lower description role company n g)).
Proof.
  intros Hvis Hn. unfold smart_expand.
  rewrite (visible_truthy Hvis), (visible_truthy (strip_visible Hvis)).
  change (negb (true && true)) with false. cbv beta iota zeta.
  set (desc := join (lit " ") (split (strip description))).
  unfold bind, ret.
  destruct (candidate_pool lower desc role company g) as [cands g1].
  destruct (shuffle cands g1) as [shuffled g2].
  destruct (@take_candidates_spec n shuffled []) as [Hwf Hlen];
    [simpl; lia | constructor |].
  simpl length in Hlen. rewrite Nat.add_0_l in Hlen.
  assert (Hslice : forall l : list pystr,
             Z.of_nat (length l) = n -> slice_to n l = l).
  { intros l Hl. unfold slice_to.
    destruct (0 <=? n)%Z eqn:E0; [|apply Z.leb_gt in E0; lia].
    apply firstn_all2. lia. }
  destruct (Z.of_nat (length (take_candidates n shuffled [])) <? n)%Z eqn:E.
  - apply Z.ltb_lt in E.
    destruct (@pad_bullets_spec G RS desc n (Z.to_nat n)
                (take_candidates n shuffled []) g2)
      as [Pwf Plen]; [exact Hwf | lia | lia |].
    destruct (pad_bullets (Z.to_nat n) desc n (take_candidates n shuffled []) g2)
      as [padded g3].
    cbn [fst] in *. rewrite Hslice by exact Plen. split; assumption.
  - apply Z.ltb_ge in E. cbn [fst].
    rewrite Hslice by lia. split; [lia | exact Hwf].
Qed.

Lemma smart_expand_count_witness :
  Z.of_nat (length (fst (smart_expand ascii_lower (lit "  managed   key accounts ")
                           (lit "Sales Engineer") (lit "Intertek") 7
                           [3; 1; 4; 1; 5; 9; 2; 6; 5; 3; 5; 8; 9; 7]))) = 7%Z
  /\ Forall well_formed_bullet
       (fst (smart_expand ascii_lower (lit "  managed   key accounts ")
               (lit "Sales Engineer") (lit "Intertek") 7
               [3; 1; 4; 1; 5; 9; 2; 6; 5; 3; 5; 8; 9; 7])).
Proof.
  apply (@smart_expand_count (list nat) tape_source ascii_lower).
  - exists 109%N. split; [vm_compute; tauto | reflexivity].
  - lia.
Defined.

(* ================================================================== *)
(** * Further properties of the generator *)
(* ================================================================== *)

(** ** Stripping *)

Lemma lstrip_hd_visible (s : pystr) : hd_visible (lstrip s).
Proof.
  induction s as [|c s IH]; simpl; [exact I|].
  destruct (is_space c) eqn:E; [exact IH | exact E].
Qed.

Lemma lstrip_fixed (s : pystr) : hd_visible s -> lstrip s = s.
Proof. destruct s as [|c s]; simpl; [reflexivity|]. now intros ->. Qed.

(** [lstrip] removes a prefix. *)
Lemma lstrip_suffix (s : pystr) : exists p, s = p ++ lstrip s.
Proof.
  induction s as [|c s [p Hp]]; simpl; [now exists []|].
  destruct (is_space c).
  - exists (c :: p). simpl. now f_equal.
  - now exists [].
Qed.

Lemma strip_ends_visible (s : pystr) :
  hd_visible (strip s) /\ hd_visible (rev (strip s)).
Proof.
  unfold strip, rstrip. rewrite rev_involutive.
  split; [|apply lstrip_hd_visible].
  destruct (lstrip_suffix (rev (lstrip s))) as [p Hp].
  pose proof (lstrip_hd_visible s) as Hs.
  pose proof (lstrip_hd_visible (rev (lstrip s))) as Hu.
  set (u := lstrip (rev (lstrip s))) in *.
  assert (Ht : lstrip s = rev u ++ rev p).
  { rewrite <- (rev_involutive (lstrip s)), Hp, rev_app_distr. reflexivity. }
  destruct (rev u) as [|c ru] eqn:Eu; [exact I|].
  rewrite Ht in Hs. exact Hs.
Qed.

Lemma strip_fixed (s : pystr) :
  hd_visible s -> hd_visible (rev s) -> strip s = s.
Proof.
  intros H1 H2. unfold strip, rstrip.
  rewrite (lstrip_fixed s H1), (lstrip_fixed (rev s) H2). apply rev_involutive.
Qed.

Lemma strip_idempotent (s : pystr) : strip (strip s) = strip s.
Proof. apply strip_fixed; apply strip_ends_visible. Qed.

Lemma hd_visible_app (a b : pystr) : a <> [] -> hd_visible a -> hd_visible (a ++ b).
Proof. destruct a; [congruence|]. intros _ Ha. exact Ha. Qed.

Lemma close_sentence_fixed (c : pystr) :
  hd_visible c -> endswith c (lit ".") = true -> close_sentence c = c.
Proof.
  intros Hh He. unfold close_sentence.
  assert (Hs : strip c = c).
  { apply strip_fixed; [exact Hh|].
    unfold endswith in He. destruct (rev c) as [|x r]; [discriminate He|].
    change (startswith (x :: r) (rev (lit "."))) with (N.eqb 46 x && true) in He.
    apply andb_true_iff in He as [He _].
    apply N.eqb_eq in He. subst x. reflexivity. }
  cbv zeta. rewrite Hs, He. reflexivity.
Qed.

(** ** The loop over the candidates *)

Lemma take_candidates_firstn (n : Z) (candidates : list pystr) :
  forall bullets,
    (Z.of_nat (length bullets) <= n)%Z ->
    take_candidates n candidates bullets
    = bullets ++ map close_sentence
                   (firstn (Z.to_nat n - length bullets) candidates).
Proof.
  induction candidates as [|c rest IH]; intros bullets Hlen; simpl.
  - rewrite firstn_nil. simpl. now rewrite app_nil_r.
  - destruct (Z.of_nat (length bullets) >=? n)%Z eqn:E.
    + apply Z.geb_le in E.
      replace (Z.to_nat n - length bullets) with 0 by lia.
      simpl. now rewrite app_nil_r.
    + rewrite Z.geb_leb in E. apply Z.leb_gt in E.
      rewrite IH by (rewrite length_app; simpl; lia).
      rewrite length_app. simpl length.
      replace (Z.to_nat n - length bullets)
        with (S (Z.to_nat n - (length bullets + 1))) by lia.
      simpl. rewrite <- app_assoc. reflexivity.
Qed.

Lemma slice_to_all (A : Type) (n : Z) (l : list A) :
  Z.of_nat (length l) = n -> slice_to n l = l.
Proof.
  intro Hl. unfold slice_to.
  destruct (0 <=? n)%Z eqn:E0; [|apply Z.leb_gt in E0; lia].
  apply firstn_all2. lia.
Qed.

Section GeneratorShape.

Context {G : Type} `{RandomSource G}.
Variable lower : pystr -> pystr.

(** The bullets as a function of the shuffled candidates: the first [n],
    closed, and the padding behind them when [n] exceeds the candidates. *)
Lemma smart_expand_unfold (description role company : pystr) (n : Z) (g : G) :
  has_visible_character description ->
  (0 <= n)%Z ->
  let pool := candidate_pool lower (normalise description) role company g in
  let shuffled := shuffle (fst pool) (snd pool) in
  let taken := map close_sentence (firstn (Z.to_nat n) (fst shuffled)) in
  fst (smart_expand lower description role company n g)
  = if (Z.of_nat (length taken) <? n)%Z
    then slice_to n
           (fst (pad_bullets (Z.to_nat n) (normalise description) n taken (snd shuffled)))
    else taken.
Proof.
  intros Hvis Hn. cbv zeta. unfold smart_expand.
  rewrite (visible_truthy Hvis), (visible_truthy (strip_visible Hvis)).
  change (negb (true && true)) with false. cbv beta iota zeta.
  fold (normalise description).
  unfold bind, ret.
  destruct (candidate_pool lower (normalise description) role company g)
    as [cands g1].
  cbn [fst snd].
  destruct (shuffle cands g1) as [shuffled g2]. cbn [fst snd].
  rewrite take_candidates_firstn by (simpl; lia).
  simpl length. rewrite Nat.sub_0_r. rewrite !app_nil_l.
  set (taken := map close_sentence (firstn (Z.to_nat n) shuffled)).
  assert (Htaken : (Z.of_nat (length taken) <= n)%Z).
  { unfold taken. rewrite length_map, length_firstn. lia. }
  destruct (Z.of_nat (length taken) <? n)%Z eqn:E.
  - destruct (pad_bullets (Z.to_nat n) (normalise description) n taken g2).
    reflexivity.
  - apply Z.ltb_ge in E. cbn [fst]. apply slice_to_all. lia.
Qed.

End GeneratorShape.

(** ** Edge cases of [smart_expand] *)

(** X1.  A description made only of whitespace gives no bullet and draws
    nothing from the random source, whatever the role, company and count. *)
Theorem smart_expand_whitespace_only (G : Type) (RS : RandomSource G)
        (lower : pystr -> pystr) (description role company : pystr) (n : Z) (g : G) :
  Forall (fun c => is_space c = true) description ->
  smart_expand lower description role company n g = ([], g).
Proof. apply smart_expand_blank. Qed.

Lemma smart_expand_whitespace_only_witness :
  smart_expand ascii_lower [32; 9; 10; 160; 8195]%N (lit "Engineer") (lit "Acme") 4
    [3; 1; 4]
  = ([], [3; 1; 4]).
Proof.
  apply (@smart_expand_whitespace_only (list nat) tape_source ascii_lower).
  repeat constructor.
Defined.

Lemma take_candidates_none (n : Z) (candidates : list pystr) :
  (n <= 0)%Z -> take_candidates n candidates [] = [].
Proof.
  intro Hn. destruct candidates as [|c rest]; simpl; [reflexivity|].
  destruct (0 >=? n)%Z eqn:E; [reflexivity|].
  rewrite Z.geb_leb in E. apply Z.leb_gt in E. lia.
Qed.

Lemma smart_expand_nonpositive (G : Type) (RS : RandomSource G)
      (lower : pystr -> pystr) (description role company : pystr) (n : Z) (g : G) :
  (n <= 0)%Z ->
  fst (smart_expand lower description role company n g) = [].
Proof.
  intro Hn. unfold smart_expand.
  destruct (negb (truthy description && truthy (strip description)));
    [reflexivity|].
  cbv zeta. unfold bind, ret.
  destruct (candidate_pool lower _ role company g) as [cands g1].
  destruct (shuffle cands g1) as [shuffled g2].
  rewrite take_candidates_none by exact Hn.
  change (Z.of_nat (length (@nil pystr))) with 0%Z.
  destruct (0 <? n)%Z eqn:E; [apply Z.ltb_lt in E; lia|].
  cbn [fst]. unfold slice_to.
  destruct (0 <=? n)%Z; apply firstn_nil.
Qed.

(** X2.  For a count of zero or less [smart_expand] returns the empty list,
    whatever the description. *)
Theorem smart_expand_nonpositive_count (G : Type) (RS : RandomSource G)
        (lower : pystr -> pystr) (description role company : pystr) (n : Z) (g : G) :
  (n <= 0)%Z ->
  fst (smart_expand lower description role company n g) = [].
Proof. apply smart_expand_nonpositive. Qed.

Lemma smart_expand_nonpositive_count_witness :
  fst (smart_expand ascii_lower (lit "closed deals") (lit "Sales") (lit "Acme") (-2)
         [3; 1; 4; 1; 5; 9; 2; 6])
  = [].
Proof.
  apply (@smart_expand_nonpositive_count (list nat) tape_source ascii_lower). lia.
Defined.

(** ** Where the bullets come from *)

Section GeneratorOrigin.

Context {G : Type} `{RandomSource G}.
Variable lower : pystr -> pystr.

Lemma candidate_pool_length (desc role company : pystr) (g : G) :
  3 <= length (fst (candidate_pool lower desc role company g)).
Proof.
  destruct (candidate_pool_shape lower desc role company g) as [b1 [b2 [b3 E]]].
  rewrite E, length_app. simpl. lia.
Qed.

End GeneratorOrigin.

(** X3.  For a description with a visible character and a count from 0 to
    3, the bullets are the first count members of a reordering of the
    candidate list, each closed as a sentence: nothing is repeated and no
    padding sentence is used. *)
Theorem smart_expand_within_pool (G : Type) (RS : RandomSource G)
        (lower : pystr -> pystr) (description role company : pystr) (n : Z) (g : G) :
  has_visible_character description ->
  (0 <= n <= 3)%Z ->
  exists shuffled,
    Permutation (fst (candidate_pool lower (normalise description) role company g))
                shuffled
    /\ fst (smart_expand lower description role company n g)
       = map close_sentence (firstn (Z.to_nat n) shuffled)
    /\ Z.of_nat (length (fst (smart_expand lower description role company n g))) = n.
Proof.
  intros Hvis Hn.
  pose proof (@smart_expand_unfold G RS lower description role company n g Hvis
                ltac:(lia)) as Hu.
  cbv zeta in Hu.
  set (pool := candidate_pool lower (normalise description) role company g) in *.
  exists (fst (shuffle (fst pool) (snd pool))).
  pose proof (shuffle_Permutation (fst pool) (snd pool)) as Hp.
  pose proof (candidate_pool_length lower (normalise description) role company g)
    as Hl.
  fold pool in Hl. rewrite (Permutation_length Hp) in Hl.
  assert (Hlen : length (map close_sentence
                           (firstn (Z.to_nat n) (fst (shuffle (fst pool) (snd pool)))))
                 = Z.to_nat n).
  { rewrite length_map, length_firstn. lia. }
  rewrite Hlen in Hu.
  destruct (Z.of_nat (Z.to_nat n) <? n)%Z eqn:E;
    [apply Z.ltb_lt in E; lia|].
  split; [exact Hp|]. split; [exact Hu|].
  rewrite Hu, Hlen. lia.
Qed.

Lemma smart_expand_within_pool_witness :
  exists shuffled,
    Permutation
      (fst (candidate_pool ascii_lower (normalise (lit " closed   deals "))
              (lit "Sales") (lit "Acme") [3; 1; 4; 1; 5; 9; 2; 6]))
      shuffled
    /\ fst (smart_expand ascii_lower (lit " closed   deals ") (lit "Sales") (lit "Acme") 3
              [3; 1; 4; 1; 5; 9; 2; 6])
       = map close_sentence (firstn (Z.to_nat 3) shuffled)
    /\ Z.of_nat (length (fst (smart_expand ascii_lower (lit " closed   deals ")
                                (lit "Sales") (lit "Acme") 3
                                [3; 1; 4; 1; 5; 9; 2; 6]))) = 3%Z.
Proof.
  apply (@smart_expand_within_pool (list nat) tape_source ascii_lower).
  - exists 99%N. split; [vm_compute; tauto | reflexivity].
  - lia.
Defined.

Lemma firstn_incl (A : Type) (k : nat) (l : list A) (x : A) :
  In x (firstn k l) -> In x l.
Proof. intro Hx. rewrite <- (firstn_skipn k l). apply in_or_app. now left. Qed.

Lemma firstn_Forall (A : Type) (P : A -> Prop) (k : nat) (l : list A) :
  Forall P l -> Forall P (firstn k l).
Proof.
  rewrite !Forall_forall. intros Hl x Hx. apply Hl. now apply firstn_incl in Hx.
Qed.

Lemma startswith_app_l (s t p : pystr) :
  startswith s p = true -> startswith (s ++ t) p = true.
Proof.
  revert s. induction p as [|x p IH]; intros s Hs; [reflexivity|].
  destruct s as [|y s]; [discriminate Hs|].
  simpl in *. apply andb_true_iff in Hs as [H1 H2].
  rewrite H1. simpl. now apply IH.
Qed.

Lemma endswith_app_r (a b p : pystr) :
  endswith b p = true -> endswith (a ++ b) p = true.
Proof.
  unfold endswith. rewrite rev_app_distr. apply startswith_app_l.
Qed.

Lemma ACTION_VERBS_visible :
  Forall (fun v => v <> [] /\ hd_visible v) ACTION_VERBS.
Proof.
  unfold ACTION_VERBS.
  repeat (constructor; [split; [discriminate | reflexivity]|]). constructor.
Qed.

Lemma verb_sentence_visible (v rest : pystr) :
  In v ACTION_VERBS -> hd_visible (v ++ rest).
Proof.
  intro Hv. pose proof ACTION_VERBS_visible as Hall.
  rewrite Forall_forall in Hall. destruct (Hall v Hv) as [Hne Hh].
  now apply hd_visible_app.
Qed.

Lemma verb_sentence_ready (desc v tail : pystr) :
  In v ACTION_VERBS ->
  endswith tail (lit ".") = true ->
  sentence_ready desc (v ++ lit " " ++ desc ++ tail).
Proof.
  intros Hv Ht. split; [now apply verb_sentence_visible|]. split.
  - now repeat apply endswith_app_r.
  - left. exists v. split; [exact Hv|].
    replace (v ++ lit " " ++ desc ++ tail) with ((v ++ lit " " ++ desc) ++ tail)
      by (now rewrite <- !app_assoc).
    apply startswith_app.
Qed.

Lemma role_sentence_ready (desc c : pystr) :
  In c ROLE_SENTENCES -> sentence_ready desc c.
Proof.
  intro Hc. split; [|split; [|right; exact Hc]];
    destruct Hc as [<-|[<-|[<-|[]]]]; reflexivity.
Qed.

Lemma sentence_ready_closed (desc c : pystr) :
  sentence_ready desc c -> close_sentence c = c.
Proof. intros [Hh [He _]]. now apply close_sentence_fixed. Qed.

Section GeneratorBullets.

Context {G : Type} `{RandomSource G}.
Variable lower : pystr -> pystr.

Lemma choice_verb (g : G) : In (fst (choice [] ACTION_VERBS g)) ACTION_VERBS.
Proof. apply choice_In. discriminate. Qed.

Lemma role_flavor_sentences (role : pystr) :
  incl (role_flavor lower role) ROLE_SENTENCES.
Proof.
  unfold role_flavor, ROLE_SENTENCES. intros c Hc.
  rewrite !in_app_iff in Hc.
  destruct Hc as [Hc|[Hc|Hc]];
    match type of Hc with
    | In _ (if ?b then _ else _) => destruct b
    end; simpl in *; tauto.
Qed.

Lemma candidate_pool_ready (desc role company : pystr) (g : G) :
  Forall (sentence_ready desc) (fst (candidate_pool lower desc role company g)).
Proof.
  unfold candidate_pool, bind, ret.
  destruct (choice [] METRICS g) as [metric g1].
  destruct (choice 0%N VALUES g1) as [value g2].
  pose proof (choice_verb g2) as Hv1.
  destruct (choice [] ACTION_VERBS g2) as [v1 g3].
  pose proof (choice_verb g3) as Hv2.
  destruct (choice [] ACTION_VERBS g3) as [v2 g4].
  pose proof (choice_verb g4) as Hv3.
  destruct (choice [] ACTION_VERBS g4) as [v3 g5].
  cbn [fst app] in *.
  apply Forall_cons; [|apply Forall_cons; [|apply Forall_cons]].
  - apply (@verb_sentence_ready desc v2
             (lit ", achieving ~" ++ str_of_N value ++ lit "% improvement in "
                ++ metric ++ lit ".")); [exact Hv2|].
    now repeat apply endswith_app_r.
  - destruct (truthy company).
    + apply (@verb_sentence_ready desc v1 (lit " at " ++ company ++ lit "."));
        [exact Hv1|]. now repeat apply endswith_app_r.
    + apply (@verb_sentence_ready desc v1 (lit ".")); [exact Hv1|reflexivity].
  - apply (@verb_sentence_ready desc v3
             (lit " by focusing on stakeholder needs and measurable KPIs."));
      [exact Hv3|reflexivity].
  - apply Forall_forall. intros c Hc. apply role_sentence_ready.
    now apply role_flavor_sentences in Hc.
Qed.

Lemma pad_bullets_Forall (P : pystr -> Prop) (desc : pystr) (n : Z) :
  (forall v, In v ACTION_VERBS -> P (v ++ lit " " ++ desc ++ lit ".")) ->
  forall fuel bullets (g : G),
    Forall P bullets -> Forall P (fst (pad_bullets fuel desc n bullets g)).
Proof.
  intro Hpad. induction fuel as [|fuel IH]; intros bullets g Hb; cbn [pad_bullets].
  - exact Hb.
  - destruct (Z.of_nat (length bullets) <? n)%Z; [|exact Hb].
    unfold bind. pose proof (choice_verb g) as Hv.
    destruct (choice [] ACTION_VERBS g) as [v g1]. cbn [fst] in Hv.
    apply IH. apply Forall_app. split; [exact Hb|].
    constructor; [now apply Hpad | constructor].
Qed.

Lemma smart_expand_origin (description role company : pystr) (n : Z) (g : G) :
  has_visible_character description ->
  (0 <= n)%Z ->
  Forall (bullet_origin (normalise description))
         (fst (smart_expand lower description role company n g)).
Proof.
  intros Hvis Hn.
  rewrite (@smart_expand_unfold G _ lower description role company n g Hvis Hn).
  cbv zeta.
  set (desc := normalise description).
  set (pool := candidate_pool lower desc role company g).
  pose proof (candidate_pool_ready desc role company g) as Hpool. fold pool in Hpool.
  pose proof (shuffle_Permutation (fst pool) (snd pool)) as Hperm.
  assert (Hsh : Forall (sentence_ready desc) (fst (shuffle (fst pool) (snd pool)))).
  { rewrite Forall_forall in *. intros c Hc. apply Hpool.
    eapply Permutation_in; [apply Permutation_sym; exact Hperm | exact Hc]. }
  assert (Htaken : Forall (bullet_origin desc)
                     (map close_sentence
                        (firstn (Z.to_nat n) (fst (shuffle (fst pool) (snd pool)))))).
  { apply Forall_map. rewrite Forall_forall in *. intros c Hc.
    apply firstn_incl in Hc. specialize (Hsh c Hc).
    rewrite (sentence_ready_closed Hsh). apply Hsh. }
  destruct (_ <? n)%Z; [|exact Htaken].
  unfold slice_to. destruct (0 <=? n)%Z; apply firstn_Forall;
    (apply pad_bullets_Forall; [|exact Htaken]);
    intros v Hv; apply (@verb_sentence_ready desc v (lit ".") Hv); reflexivity.
Qed.

End GeneratorBullets.

(** X4.  For a description with a visible character, every bullet either
    starts with one of the action verbs, a space and the normalised
    description, or is one of the three role sentences. *)
Theorem smart_expand_bullet_origin (G : Type) (RS : RandomSource G)
        (lower : pystr -> pystr) (description role company : pystr) (n : Z) (g : G) :
  has_visible_character description ->
  Forall (bullet_origin (normalise description))
         (fst (smart_expand lower description role company n g)).
Proof.
  intro Hvis. destruct (Z.le_gt_cases 0 n) as [Hn|Hn].
  - now apply smart_expand_origin.
  - rewrite smart_expand_nonpositive by lia. constructor.
Qed.

Lemma smart_expand_bullet_origin_witness :
  Forall (bullet_origin (normalise (lit " closed   deals ")))
         (fst (smart_expand ascii_lower (lit " closed   deals ") (lit "Product Engineer")
                 (lit "Acme") 7 [3; 1; 4; 1; 5; 9; 2; 6; 5; 3; 5; 8; 9; 7])).
Proof.
  apply (@smart_expand_bullet_origin (list nat) tape_source ascii_lower).
  exists 99%N. split; [vm_compute; tauto | reflexivity].
Defined.

(** ** The normalised description *)

Lemma split_from_words (s : pystr) :
  forall cur, Forall (fun c => is_space c = false) cur ->
              Forall word (split_from cur s).
Proof.
  induction s as [|c s IH]; intros cur Hcur; simpl.
  - destruct cur as [|x cur]; [constructor|].
    constructor; [|constructor]. split.
    + intro E. apply (f_equal (@length _)) in E.
      rewrite length_rev in E. discriminate E.
    + apply Forall_rev. exact Hcur.
  - destruct (is_space c) eqn:Ec.
    + destruct cur as [|x cur]; [apply IH; constructor|].
      constructor; [|apply IH; constructor]. split.
      * intro E. apply (f_equal (@length _)) in E.
        rewrite length_rev in E. discriminate E.
      * apply Forall_rev. exact Hcur.
    + apply IH. constructor; assumption.
Qed.

Lemma split_words (s : pystr) : Forall word (split s).
Proof. apply split_from_words. constructor. Qed.

Lemma word_hd_visible (w : pystr) : word w -> hd_visible w /\ hd_visible (rev w).
Proof.
  intros [Hne Hall]. split.
  - destruct w; [exact I|]. now inversion Hall.
  - apply Forall_rev in Hall. destruct (rev w); [exact I|]. now inversion Hall.
Qed.

Lemma join_cons2 (sep w w2 : pystr) (rest : list pystr) :
  join sep (w :: w2 :: rest) = w ++ sep ++ join sep (w2 :: rest).
Proof. reflexivity. Qed.

Lemma join_words_nonempty (w : pystr) (ws : list pystr) :
  Forall word (w :: ws) -> join (lit " ") (w :: ws) <> [].
Proof.
  intro H. inversion H as [|? ? [Hne _] _]; subst.
  destruct ws; [exact Hne|]. rewrite join_cons2.
  destruct w; [congruence | discriminate].
Qed.

Lemma spaced_singly_cons (a b : char) (t : pystr) :
  spaced_singly (a :: b :: t)
  = negb (is_space a && is_space b) && spaced_singly (b :: t).
Proof. reflexivity. Qed.

Lemma spaced_singly_word_then (w J : pystr) :
  word w -> J <> [] -> hd_visible J -> spaced_singly J = true ->
  spaced_singly (w ++ lit " " ++ J) = true.
Proof.
  intros [Hne Hall] HJ HhJ HsJ.
  induction w as [|a w IH]; [congruence|].
  inversion Hall as [|? ? Ha Hw]; subst.
  destruct w as [|a' w'].
  - destruct J as [|b J']; [congruence|].
    change (spaced_singly (a :: 32%N :: b :: J')
            = true).
    rewrite !spaced_singly_cons. simpl in HhJ. rewrite Ha, HhJ.
    rewrite andb_false_r. simpl. exact HsJ.
  - change (spaced_singly (a :: (a' :: w') ++ lit " " ++ J) = true).
    change ((a' :: w') ++ lit " " ++ J) with (a' :: w' ++ lit " " ++ J).
    rewrite spaced_singly_cons, Ha. simpl andb. simpl negb.
    apply IH; [discriminate | exact Hw].
Qed.

Lemma spaced_singly_word (w : pystr) : word w -> spaced_singly w = true.
Proof.
  intros [_ Hall]. induction w as [|a w IH]; [reflexivity|].
  inversion Hall as [|? ? Ha Hw]; subst.
  destruct w as [|a' w']; [reflexivity|].
  rewrite spaced_singly_cons, Ha. simpl. now apply IH.
Qed.

Lemma join_words_shape (ws : list pystr) :
  Forall word ws ->
  hd_visible (join (lit " ") ws)
  /\ hd_visible (rev (join (lit " ") ws))
  /\ (forall c, In c (join (lit " ") ws) -> is_space c = true -> c = 32%N)
  /\ spaced_singly (join (lit " ") ws) = true.
Proof.
  induction ws as [|w ws IH]; intro Hws.
  - simpl. repeat split; try exact I. intros c [].
  - inversion Hws as [|? ? Hw Hrest]; subst.
    destruct (word_hd_visible Hw) as [Hh Hl].
    destruct ws as [|w2 rest].
    + simpl. repeat split; auto.
      * intros c Hc Hs. destruct Hw as [_ Hall].
        rewrite Forall_forall in Hall. rewrite (Hall c Hc) in Hs. discriminate Hs.
      * now apply spaced_singly_word.
    + destruct (IH Hrest) as [IHh [IHl [IHc IHs]]].
      pose proof (join_words_nonempty Hrest) as HJ.
      rewrite join_cons2.
      set (J := join (lit " ") (w2 :: rest)) in *.
      repeat split.
      * apply hd_visible_app; [apply Hw | exact Hh].
      * rewrite !rev_app_distr, <- app_assoc.
        apply hd_visible_app; [|exact IHl].
        intro E. apply HJ. apply (f_equal (@rev _)) in E.
        now rewrite rev_involutive in E.
      * intros c Hc Hs. apply in_app_or in Hc as [Hc|Hc].
        { destruct Hw as [_ Hall]. rewrite Forall_forall in Hall.
          rewrite (Hall c Hc) in Hs. discriminate Hs. }
        apply in_app_or in Hc as [Hc|Hc]; [|now apply IHc].
        destruct Hc as [<-|[]]. reflexivity.
      * now apply spaced_singly_word_then.
Qed.

(** X5.  The normalised description never starts or ends with whitespace,
    holds no whitespace other than the space character, and never two
    whitespace characters in a row. *)
Theorem normalise_single_spaced (description : pystr) :
  hd_visible (normalise description)
  /\ hd_visible (rev (normalise description))
  /\ (forall c, In c (normalise description) -> is_space c = true -> c = 32%N)
  /\ spaced_singly (normalise description) = true.
Proof. apply join_words_shape, split_words. Qed.

Lemma split_from_word (w rest : pystr) :
  Forall (fun c => is_space c = false) w ->
  forall cur, split_from cur (w ++ rest) = split_from (rev w ++ cur) rest.
Proof.
  induction w as [|a w IH]; intros Hall cur; [reflexivity|].
  inversion Hall as [|? ? Ha Hw]; subst.
  simpl. rewrite Ha, IH by exact Hw. now rewrite <- app_assoc.
Qed.

Lemma split_join_words (ws : list pystr) :
  Forall word ws -> split (join (lit " ") ws) = ws.
Proof.
  unfold split. induction ws as [|w ws IH]; intro Hws; [reflexivity|].
  inversion Hws as [|? ? Hw Hrest]; subst.
  destruct Hw as [Hne Hall].
  assert (Hrev : rev w <> []).
  { intro E. apply Hne. apply (f_equal (@rev _)) in E.
    now rewrite rev_involutive in E. }
  destruct ws as [|w2 rest].
  - simpl join. rewrite <- (app_nil_r w) at 1.
    rewrite split_from_word by exact Hall. rewrite app_nil_r. simpl.
    destruct (rev w) eqn:E; [congruence|]. rewrite <- E, rev_involutive. reflexivity.
  - rewrite join_cons2, split_from_word by exact Hall. rewrite app_nil_r.
    change (lit " " ++ join (lit " ") (w2 :: rest))
      with (32%N :: join (lit " ") (w2 :: rest)).
    cbn [split_from]. change (is_space 32%N) with true. cbv iota.
    destruct (rev w) eqn:E; [congruence|]. rewrite <- E, rev_involutive.
    f_equal. now apply IH.
Qed.

(** X6.  Normalising is idempotent: a normalised description is its own
    normal form. *)
Theorem normalise_idempotent (description : pystr) :
  normalise (normalise description) = normalise description.
Proof.
  unfold normalise at 1.
  destruct (join_words_shape (split_words (strip description))) as [Hh [Hl _]].
  fold (normalise description) in Hh, Hl.
  rewrite (strip_fixed _ Hh Hl). unfold normalise.
  rewrite split_join_words by apply split_words. reflexivity.
Qed.

(* ================================================================== *)
(** * Properties of the editing handlers *)
(* ================================================================== *)

(** ** "Add raw" *)

Lemma split_on_from_no_sep (sep : char) (s : pystr) :
  forall cur, ~ In sep cur -> Forall (fun p => ~ In sep p) (split_on_from sep cur s).
Proof.
  induction s as [|c s IH]; intros cur Hcur; simpl.
  - constructor; [|constructor]. now rewrite <- in_rev.
  - destruct (N.eqb_spec c sep) as [->|Hne].
    + constructor; [now rewrite <- in_rev | apply IH; intros []].
    + apply IH. intros [E|E]; [congruence | contradiction].
Qed.

Lemma lstrip_incl (s : pystr) (c : char) : In c (lstrip s) -> In c s.
Proof.
  destruct (lstrip_suffix s) as [p Hp]. intro Hc. rewrite Hp.
  apply in_or_app. now right.
Qed.

Lemma strip_incl (s : pystr) (c : char) : In c (strip s) -> In c s.
Proof.
  unfold strip, rstrip. intro Hc.
  apply in_rev, lstrip_incl in Hc. apply in_rev in Hc. now apply lstrip_incl.
Qed.

Lemma truthy_nonempty (A : Type) (l : list A) : truthy l = true -> l <> [].
Proof. destruct l; [discriminate | discriminate]. Qed.

Lemma raw_line_closed (ln : pystr) :
  ln <> [] -> hd_visible ln -> ~ In newline ln ->
  let b := if endswith ln (lit ".") then ln else ln ++ lit "." in
  well_formed_bullet b /\ hd_visible b /\ ~ In newline b.
Proof.
  intros Hne Hh Hnl. cbv zeta.
  destruct (endswith ln (lit ".")) eqn:E.
  - repeat split; auto.
  - repeat split.
    + destruct ln; [congruence | discriminate].
    + apply endswith_app.
    + now apply hd_visible_app.
    + intro Hin. apply in_app_or in Hin as [Hin|Hin]; [contradiction|].
      destruct Hin as [Hin|[]]. discriminate Hin.
Qed.

Lemma or_else_empty (a : pystr) : or_else a [] = a.
Proof. now destruct a. Qed.

(** [ln.strip()] is truthy exactly for a line with a visible character. *)
Lemma truthy_strip_visible (ln : pystr) : truthy (strip ln) = visible_line ln.
Proof.
  unfold visible_line.
  destruct (existsb (fun c => negb (is_space c)) ln) eqn:E.
  - apply existsb_exists in E as [c [Hin Hc]].
    apply visible_truthy, strip_visible. exists c. split; [exact Hin|].
    now destruct (is_space c).
  - destruct (strip ln) as [|c t] eqn:Es; [reflexivity|]. exfalso.
    assert (Hc : is_space c = false).
    { pose proof (proj1 (strip_ends_visible ln)) as Hh. now rewrite Es in Hh. }
    assert (Hin : In c ln) by (apply strip_incl; rewrite Es; now left).
    assert (Ht : existsb (fun c => negb (is_space c)) ln = true).
    { apply existsb_exists. exists c. split; [exact Hin | now rewrite Hc]. }
    congruence.
Qed.

(** X7.  "Add raw" makes one bullet for each line of the description that
    has a visible character, in the order of the lines, and none for a blank
    line: the bullet is the line stripped, closed with a period unless it
    ends in one.  Every bullet is not empty, ends in a period, has no
    whitespace in front and holds no line feed (U+000A). *)
Theorem raw_bullets_single_lines (exp_desc : pystr) :
  raw_bullets exp_desc
  = map (fun ln => if endswith (strip ln) (lit ".") then strip ln
                   else strip ln ++ lit ".")
        (filter visible_line (split_on newline exp_desc))
  /\ length (raw_bullets exp_desc)
     = length (filter visible_line (split_on newline exp_desc))
  /\ Forall (fun b => well_formed_bullet b /\ hd_visible b /\ ~ In newline b)
            (raw_bullets exp_desc).
Proof.
  assert (E : raw_bullets exp_desc
              = map (fun ln => if endswith (strip ln) (lit ".") then strip ln
                               else strip ln ++ lit ".")
                    (filter visible_line (split_on newline exp_desc))).
  { unfold raw_bullets. cbv zeta. rewrite or_else_empty.
    rewrite (filter_ext _ visible_line truthy_strip_visible).
    destruct (filter visible_line (split_on newline exp_desc)) as [|ln l];
      [reflexivity|].
    cbn [map truthy]. now rewrite map_map. }
  split; [exact E|]. split; [rewrite E; apply length_map|].
  unfold raw_bullets. cbv zeta.
  set (lines := split_on newline (or_else exp_desc [])).
  assert (Hlines : Forall (fun p => ~ In newline p) lines).
  { apply split_on_from_no_sep. intros []. }
  destruct (truthy (map strip (filter (fun ln => truthy (strip ln)) lines)));
    [|constructor].
  apply Forall_map, Forall_map. apply Forall_forall. intros ln Hln.
  apply filter_In in Hln as [Hin Ht].
  rewrite Forall_forall in Hlines.
  apply raw_line_closed.
  - now apply truthy_nonempty.
  - apply strip_ends_visible.
  - intro Hc. apply strip_incl in Hc. exact (Hlines ln Hin Hc).
Qed.

(** A description of three lines, the second blank and the third with a
    carriage return inside: two bullets, the return kept. *)
Example raw_bullets_blank_line :
  raw_bullets (lit "Led audits." ++ [newline] ++ lit "   " ++ [newline]
                 ++ lit " Wrote" ++ [13%N] ++ lit "reports ")
  = [lit "Led audits."; lit "Wrote" ++ [13%N] ++ lit "reports."].
Proof. reflexivity. Qed.

(** ** "Add (AI bullets)" *)

Lemma or_else_nonempty (a b : pystr) : b <> [] -> or_else a b <> [].
Proof. intro Hb. unfold or_else. destruct a; [exact Hb | discriminate]. Qed.

Section HandlerFacts.

Context {G : Type} `{RandomSource G}.
Variable lower : pystr -> pystr.

Lemma smart_expand_four (description role company : pystr) (g : G) :
  has_visible_character description ->
  length (fst (smart_expand lower description role company 4 g)) = 4
  /\ Forall well_formed_bullet (fst (smart_expand lower description role company 4 g)).
Proof.
  intro Hvis.
  rewrite (@smart_expand_unfold G _ lower description role company 4 g Hvis)
    by lia.
  cbv zeta.
  set (shuffled := shuffle _ _).
  set (taken := map close_sentence (firstn (Z.to_nat 4) (fst shuffled))).
  assert (Hwf : Forall well_formed_bullet taken).
  { apply Forall_map, Forall_forall. intros c _.
    apply (closed_sentence_well_formed c). }
  assert (Hlen : (Z.of_nat (length taken) <= 4)%Z).
  { unfold taken. rewrite length_map, length_firstn. lia. }
  destruct (Z.of_nat (length taken) <? 4)%Z eqn:E.
  - destruct (@pad_bullets_spec G _ (normalise description) 4%Z (Z.to_nat 4) taken
                (snd shuffled) Hwf Hlen ltac:(lia)) as [Pwf Plen].
    rewrite slice_to_all by exact Plen. split; [lia | exact Pwf].
  - apply Z.ltb_ge in E. split; [lia | exact Hwf].
Qed.

Lemma ai_entry_fields (form : ExperienceForm) (g : G) :
  fst (ai_entry lower form g)
  = {| role := or_else (exp_role form) (lit "Role");
       company := or_else (exp_company form) [];
       period := or_else (exp_period form) [];
       description := or_else (exp_desc form) [];
       bullets := fst (smart_expand lower (or_else (exp_desc form) (exp_role form))
                         (exp_role form) (exp_company form) 4 g) |}
  /\ snd (ai_entry lower form g)
     = snd (smart_expand lower (or_else (exp_desc form) (exp_role form))
              (exp_role form) (exp_company form) 4 g).
Proof.
  unfold ai_entry, bind, ret.
  destruct (smart_expand lower _ (exp_role form) (exp_company form) 4 g).
  split; reflexivity.
Qed.

End HandlerFacts.

(** X8.  When the description, or for an empty description the role, has a
    visible character, the entry "Add (AI bullets)" builds has exactly four
    bullets, each non-empty and ending in a period, each a role sentence or
    an action verb followed by the normalised text; and its role is never
    empty. *)
Theorem ai_entry_four_bullets (G : Type) (RS : RandomSource G)
        (lower : pystr -> pystr) (form : ExperienceForm) (g : G) :
  has_visible_character (or_else (exp_desc form) (exp_role form)) ->
  length (bullets (fst (ai_entry lower form g))) = 4
  /\ Forall well_formed_bullet (bullets (fst (ai_entry lower form g)))
  /\ Forall (bullet_origin (normalise (or_else (exp_desc form) (exp_role form))))
            (bullets (fst (ai_entry lower form g)))
  /\ role (fst (ai_entry lower form g)) <> [].
Proof.
  intro Hvis. destruct (ai_entry_fields lower form g) as [-> _]. cbn [bullets role].
  destruct (smart_expand_four lower (exp_role form) (exp_company form) g Hvis)
    as [Hlen Hwf].
  repeat split; auto.
  - apply smart_expand_origin; [exact Hvis | lia].
  - apply or_else_nonempty. discriminate.
Qed.

Lemma ai_entry_four_bullets_witness :
  let form := {| exp_role := lit "Site Engineer"; exp_company := lit "Acme";
                 exp_period := []; exp_desc := [] |} in
  length (bullets (fst (ai_entry ascii_lower form [3; 1; 4; 1; 5; 9; 2; 6]))) = 4
  /\ Forall well_formed_bullet
       (bullets (fst (ai_entry ascii_lower form [3; 1; 4; 1; 5; 9; 2; 6])))
  /\ Forall (bullet_origin (normalise (lit "Site Engineer")))
       (bullets (fst (ai_entry ascii_lower form [3; 1; 4; 1; 5; 9; 2; 6])))
  /\ role (fst (ai_entry ascii_lower form [3; 1; 4; 1; 5; 9; 2; 6])) <> [].
Proof.
  intro form.
  apply (@ai_entry_four_bullets (list nat) tape_source ascii_lower form).
  exists 83%N. split; [vm_compute; tauto | reflexivity].
Defined.

(** X9.  A description that is not empty but holds only whitespace is not
    replaced by the role: the entry "Add (AI bullets)" builds then has no
    bullets, whatever the role, and nothing is drawn from the random
    source. *)
Theorem ai_entry_blank_description (G : Type) (RS : RandomSource G)
        (lower : pystr -> pystr) (form : ExperienceForm) (g : G) :
  exp_desc form <> [] ->
  Forall (fun c => is_space c = true) (exp_desc form) ->
  bullets (fst (ai_entry lower form g)) = []
  /\ snd (ai_entry lower form g) = g.
Proof.
  intros Hne Hblank. destruct (ai_entry_fields lower form g) as [-> ->].
  cbn [bullets].
  assert (E : or_else (exp_desc form) (exp_role form) = exp_desc form).
  { unfold or_else. destruct (exp_desc form); [congruence | reflexivity]. }
  rewrite E, smart_expand_blank by exact Hblank. split; reflexivity.
Qed.

Lemma ai_entry_blank_description_witness :
  let form := {| exp_role := lit "Site Engineer"; exp_company := lit "Acme";
                 exp_period := []; exp_desc := lit "  " |} in
  bullets (fst (ai_entry ascii_lower form [3; 1; 4])) = []
  /\ snd (ai_entry ascii_lower form [3; 1; 4]) = [3; 1; 4].
Proof.
  intro form.
  apply (@ai_entry_blank_description (list nat) tape_source ascii_lower form).
  - discriminate.
  - repeat constructor.
Defined.

(** ** Lists edited by index *)

Lemma list_pop_Forall (A : Type) (P : A -> Prop) (i : nat) (l l' : list A) :
  list_pop i l = Some l' -> Forall P l -> Forall P l'.
Proof.
  revert i l'. induction l as [|x l IH]; intros i l' Hpop Hl; [discriminate Hpop|].
  inversion Hl as [|? ? Hx Hrest]; subst.
  destruct i as [|i]; simpl in Hpop.
  - injection Hpop as <-. exact Hrest.
  - destruct (list_pop i l) as [r|] eqn:E; [|discriminate Hpop].
    injection Hpop as <-. constructor; [exact Hx | now apply (IH i)].
Qed.

Lemma list_update_map (A B : Type) (key : A -> B) (f : A -> A) (i : nat)
      (l l' : list A) :
  (forall x, key (f x) = key x) ->
  list_update i f l = Some l' -> map key l' = map key l.
Proof.
  intro Hkey. revert i l'.
  induction l as [|x l IH]; intros i l' Hup; [discriminate Hup|].
  destruct i as [|i]; simpl in Hup.
  - injection Hup as <-. simpl. now rewrite Hkey.
  - destruct (list_update i f l) as [r|] eqn:E; [|discriminate Hup].
    injection Hup as <-. simpl. f_equal. now apply (IH i).
Qed.

Lemma list_update_in_range (A : Type) (f : A -> A) (i : nat) (l : list A) :
  i < length l <-> exists l', list_update i f l = Some l'.
Proof.
  revert i. induction l as [|x l IH]; intro i; simpl.
  - split; [lia | intros [l' E]; discriminate E].
  - destruct i as [|i].
    + split; [eauto | lia].
    + rewrite <- Nat.succ_lt_mono, IH. split; intros [l' E].
      * rewrite E. simpl. eauto.
      * destruct (list_update i f l); [eauto | discriminate E].
Qed.

(** X10.  "Save changes" succeeds exactly for an index within the list, and
    then never adds or removes an entry or a bullet: every entry keeps its
    number of bullets, and education, skills, profile, photo and design are
    untouched. *)
Theorem save_keeps_bullet_counts (i : nat) (r c p desc_field : pystr)
        (edited : nat -> pystr) (st : SessionState) :
  (i < length (experience_list st)
   <-> exists st', save_experience i r c p desc_field edited st = Some st')
  /\ forall st',
      save_experience i r c p desc_field edited st = Some st' ->
      map (fun ex => length (bullets ex)) (experience_list st')
      = map (fun ex => length (bullets ex)) (experience_list st)
      /\ education_list st' = education_list st
      /\ skills st' = skills st
      /\ profile st' = profile st
      /\ photo_file st' = photo_file st
      /\ design st' = design st.
Proof.
  unfold save_experience. split.
  - rewrite list_update_in_range. split; intros [l' E].
    + rewrite E. simpl. eauto.
    + destruct (list_update i _ (experience_list st)); [eauto | discriminate E].
  - intros st' Hsave.
    destruct (list_update i _ (experience_list st)) as [l|] eqn:E;
      [|discriminate Hsave].
    injection Hsave as <-. cbn.
    repeat split.
    refine (@list_update_map _ _ (fun ex => length (bullets ex)) _ i
              (experience_list st) l _ E).
    intro ex. cbn. now rewrite length_map, length_seq.
Qed.

Lemma save_keeps_bullet_counts_witness :
  exists st',
    save_experience 0 (lit "Lead Engineer") [] [] [] (fun _ => lit "Edited.")
      ada_graduate = Some st'
    /\ map (fun ex => length (bullets ex)) (experience_list st') = [1].
Proof.
  destruct (proj1 (proj1 (save_keeps_bullet_counts 0 (lit "Lead Engineer") [] [] []
                            (fun _ => lit "Edited.") ada_graduate))
              ltac:(simpl; lia)) as [st' E].
  exists st'. split; [exact E|].
  apply (proj2 (save_keeps_bullet_counts 0 (lit "Lead Engineer") [] [] []
                  (fun _ => lit "Edited.") ada_graduate) st' E).
Defined.

(** ** What every reachable record satisfies *)

Section Reachable.

Context {G : Type} `{RandomSource G}.
Variable lower : pystr -> pystr.

Lemma first_run_lists (g : G) :
  education_list (session (first_run lower g)) = default_education
  /\ skills (session (first_run lower g)) = default_skills.
Proof.
  unfold first_run, default_session, bind, ret.
  destruct (smart_expand lower _ _ _ 4 g). split; reflexivity.
Qed.

Lemma fill_sample_lists (st : SessionState) (g : G) :
  education_list (fst (fill_sample lower st g)) = sample_education
  /\ skills (fst (fill_sample lower st g)) = sample_skills.
Proof.
  unfold fill_sample, bind, ret.
  destruct (smart_expand lower _ _ _ 4 g). split; reflexivity.
Qed.

Lemma regenerate_lists (i : nat) (r c desc_field : pystr) (st st' : SessionState)
      (g : G) :
  fst (regenerate lower i r c desc_field st g) = Some st' ->
  education_list st' = education_list st /\ skills st' = skills st.
Proof.
  unfold regenerate, bind, ret.
  destruct (smart_expand lower _ r c 4 g) as [bs g']. cbn [fst].
  destruct (list_update i _ (experience_list st)); [|discriminate].
  intro E. injection E as <-. split; reflexivity.
Qed.

Lemma defaults_clean :
  Forall (fun ed => degree ed <> []) default_education
  /\ Forall (fun s => s <> [] /\ strip s = s) default_skills
  /\ Forall (fun ed => degree ed <> []) sample_education
  /\ Forall (fun s => s <> [] /\ strip s = s) sample_skills.
Proof.
  repeat split;
    repeat (constructor; [first [discriminate | split; [discriminate | reflexivity]]|]);
    constructor.
Qed.

Lemma step_keeps_invariants (a : action) (w w' : World G) :
  step lower a w = Some w' ->
  degrees_named (session w) /\ skills_clean (session w) ->
  degrees_named (session w') /\ skills_clean (session w').
Proof.
  unfold degrees_named, skills_clean. intros Hstep [Hd Hs].
  destruct defaults_clean as [_ [_ [Hsd Hss]]].
  destruct a; cbn [step] in Hstep.
  - pose proof (fill_sample_lists (session w) (random_state w)) as [E1 E2].
    destruct (fill_sample lower (session w) (random_state w)) as [st' g'].
    injection Hstep as <-. cbn [session fst] in *. rewrite E1, E2. auto.
  - injection Hstep as <-. auto.
  - injection Hstep as <-. auto.
  - destruct (ai_entry lower form (random_state w)). injection Hstep as <-. auto.
  - injection Hstep as <-. auto.
  - injection Hstep as <-. auto.
  - destruct (regenerate lower i r c desc_field (session w) (random_state w))
      as [o g'] eqn:E0.
    destruct o as [st'|]; [|discriminate Hstep].
    injection Hstep as <-. cbn [session].
    destruct (@regenerate_lists i r c desc_field (session w) st' (random_state w))
      as [E1 E2]; [now rewrite E0|].
    rewrite E1, E2. auto.
  - unfold save_experience in Hstep.
    destruct (list_update i _ (experience_list (session w))); [|discriminate Hstep].
    injection Hstep as <-. auto.
  - destruct (list_pop i (experience_list (session w))); [|discriminate Hstep].
    injection Hstep as <-. auto.
  - injection Hstep as <-. cbn. split; [|exact Hs].
    constructor; [|exact Hd]. cbn. apply or_else_nonempty. discriminate.
  - destruct (list_pop i (education_list (session w))) eqn:E; [|discriminate Hstep].
    injection Hstep as <-. cbn. split; [|exact Hs].
    now apply (list_pop_Forall i E).
  - injection Hstep as <-. unfold add_skill. cbv zeta.
    destruct (truthy (strip sk)) eqn:E; [|auto].
    cbn. split; [exact Hd|]. constructor; [|exact Hs].
    split; [now apply truthy_nonempty | apply strip_idempotent].
  - destruct (list_pop i (skills (session w))) eqn:E; [|discriminate Hstep].
    injection Hstep as <-. cbn. split; [exact Hd|].
    now apply (list_pop_Forall i E).
  - injection Hstep as <-. auto.
Qed.

Lemma run_keeps_invariants (actions : list action) :
  forall w w' : World G,
    run_actions lower actions w = Some w' ->
    degrees_named (session w) /\ skills_clean (session w) ->
    degrees_named (session w') /\ skills_clean (session w').
Proof.
  induction actions as [|a rest IH]; intros w w' Hrun Hinv; simpl in Hrun.
  - injection Hrun as <-. exact Hinv.
  - destruct (step lower a w) as [w1|] eqn:E; [|discriminate Hrun].
    apply (IH w1 w' Hrun). eapply step_keeps_invariants; eauto.
Qed.

Lemma reachable_invariants (actions : list action) (g : G) (w : World G) :
  run_actions lower actions (first_run lower g) = Some w ->
  degrees_named (session w) /\ skills_clean (session w).
Proof.
  intro Hrun. eapply run_keeps_invariants; [exact Hrun|].
  destruct (first_run_lists g) as [E1 E2].
  destruct defaults_clean as [Hd [Hs _]].
  unfold degrees_named, skills_clean. rewrite E1, E2. auto.
Qed.

End Reachable.

(** X11.  In every record reached from the session defaults by any sequence
    of handlers, every education entry has a degree that is not empty. *)
Theorem reachable_degrees_named (G : Type) (RS : RandomSource G)
        (lower : pystr -> pystr) (actions : list action) (g : G) (w : World G) :
  run_actions lower actions (first_run lower g) = Some w ->
  degrees_named (session w).
Proof. intro Hrun. eapply reachable_invariants; exact Hrun. Qed.

Lemma reachable_degrees_named_witness : degrees_named (session edited_world).
Proof.
  apply (@reachable_degrees_named (list nat) tape_source ascii_lower edit_script
           edit_tape edited_world).
  vm_compute. reflexivity.
Defined.

(** X12.  In every record reached from the session defaults by any sequence
    of handlers, every skill is non-empty and carries no whitespace at
    either end. *)
Theorem reachable_skills_clean (G : Type) (RS : RandomSource G)
        (lower : pystr -> pystr) (actions : list action) (g : G) (w : World G) :
  run_actions lower actions (first_run lower g) = Some w ->
  skills_clean (session w).
Proof. intro Hrun. eapply reachable_invariants; exact Hrun. Qed.

Lemma reachable_skills_clean_witness : skills_clean (session edited_world).
Proof.
  apply (@reachable_skills_clean (list nat) tape_source ascii_lower edit_script
           edit_tape edited_world).
  vm_compute. reflexivity.
Defined.

(** ** Download file names *)

Lemma replace_char_removes (old : char) (new s : pystr) (c : char) :
  ~ In old new -> In c (replace_char old new s) -> c <> old.
Proof.
  intros Hnew Hc. unfold replace_char in Hc. apply in_flat_map in Hc as [x [_ Hx]].
  destruct (N.eqb_spec x old) as [E|Hne].
  - intro Ec. subst c. contradiction.
  - destruct Hx as [Hx|[]]. subst c. exact Hne.
Qed.

Lemma replace_char_nonempty (old : char) (new s : pystr) :
  new <> [] -> s <> [] -> replace_char old new s <> [].
Proof.
  intros Hnew Hs. destruct s as [|x s]; [congruence|].
  unfold replace_char. simpl. destruct (N.eqb x old).
  - destruct new; [congruence | discriminate].
  - discriminate.
Qed.

(** X13.  The file names of both downloads never hold a space, end in
    "_CV.docx" and "_CV.html", and have a stem that is not empty
    ("candidate" when the name is). *)
Theorem download_file_names (st : SessionState) :
  ~ In 32%N (docx_file_name st)
  /\ ~ In 32%N (html_file_name st)
  /\ (exists stem, stem <> [] /\ docx_file_name st = stem ++ lit "_CV.docx"
                   /\ html_file_name st = stem ++ lit "_CV.html")
  /\ (name (profile st) = [] ->
      docx_file_name st = lit "candidate_CV.docx"
      /\ html_file_name st = lit "candidate_CV.html").
Proof.
  unfold docx_file_name, html_file_name, download_file_name.
  set (stem := replace_char 32%N (lit "_")
                 (or_else (name (profile st)) (lit "candidate"))).
  assert (Hstem : ~ In 32%N stem).
  { intro Hin. apply (@replace_char_removes 32%N (lit "_") _ 32%N) in Hin;
      [congruence|]. intros [E|[]]. discriminate E. }
  split; [|split; [|split]].
  - intro Hin. apply in_app_or in Hin as [Hin|Hin]; [contradiction|].
    vm_compute in Hin. repeat (destruct Hin as [Hin|Hin]; [discriminate Hin|]).
    contradiction.
  - intro Hin. apply in_app_or in Hin as [Hin|Hin]; [contradiction|].
    vm_compute in Hin. repeat (destruct Hin as [Hin|Hin]; [discriminate Hin|]).
    contradiction.
  - exists stem. repeat split.
    apply replace_char_nonempty; [discriminate|].
    apply or_else_nonempty. discriminate.
  - intro Hname. unfold stem. rewrite Hname. split; reflexivity.
Qed.

Lemma download_file_names_witness :
  docx_file_name (with_profile
                    {| name := []; title := []; email := []; phone := [];
                       location := []; linkedin := []; portfolio := [];
                       summary := [] |} ada)
  = lit "candidate_CV.docx".
Proof.
  apply (proj2 (proj2 (proj2 (download_file_names _)))). reflexivity.
Defined.

(* ================================================================== *)
(** * Further properties of the renderers *)
(* ================================================================== *)

(** ** The tags of the HTML outputs *)

Lemma tags_from_app (a rest : pystr) :
  forall state,
    tags_from state (a ++ rest)
    = tags_from state a ++ tags_from (scan_final state a) rest.
Proof.
  induction a as [|c a IH]; intro state; [reflexivity|].
  simpl. destruct state as [|acc].
  - destruct (N.eqb c 60); apply IH.
  - destruct (N.eqb c 62); [simpl; f_equal|]; apply IH.
Qed.

Lemma scan_final_app (a b : pystr) :
  forall state, scan_final state (a ++ b) = scan_final (scan_final state a) b.
Proof.
  induction a as [|c a IH]; intro state; [reflexivity|].
  simpl. destruct state as [|acc].
  - destruct (N.eqb c 60); apply IH.
  - destruct (N.eqb c 62); apply IH.
Qed.

Lemma tags_of_app (a b : pystr) :
  closed a -> tags_of (a ++ b) = tags_of a ++ tags_of b.
Proof. intro Ha. unfold tags_of. now rewrite tags_from_app, Ha. Qed.

Lemma closed_app (a b : pystr) : closed a -> closed b -> closed (a ++ b).
Proof. unfold closed. intros Ha Hb. now rewrite scan_final_app, Ha. Qed.

Lemma text_closed (a : pystr) :
  (forall c, In c a -> c <> 60%N) -> closed a /\ tags_of a = [].
Proof.
  unfold closed, tags_of. induction a as [|c a IH]; intro Ha; [split; reflexivity|].
  simpl. destruct (N.eqb_spec c 60) as [E|_].
  - exfalso. apply (Ha c); [now left | exact E].
  - apply IH. intros x Hx. apply Ha. now right.
Qed.

Lemma escape_closed (s : pystr) : closed (escape s) /\ tags_of (escape s) = [].
Proof. apply text_closed. intros c Hc. now apply escape_no_markup in Hc. Qed.

Lemma flat_map_closed (A : Type) (f : A -> pystr) (ts : A -> list pystr)
      (l : list A) :
  (forall x, In x l -> closed (f x) /\ tags_of (f x) = ts x) ->
  closed (flat_map f l) /\ tags_of (flat_map f l) = flat_map ts l.
Proof.
  induction l as [|x l IH]; intro Hf; [split; reflexivity|].
  destruct (Hf x (or_introl eq_refl)) as [Hc Ht].
  destruct IH as [IHc IHt]; [intros y Hy; apply Hf; now right|].
  simpl. split; [now apply closed_app|].
  now rewrite tags_of_app, Ht, IHt.
Qed.

Lemma flat_map_const (A B : Type) (ts : list B) (l : list A) :
  flat_map (fun _ => ts) l = concat (repeat ts (length l)).
Proof. induction l; simpl; congruence. Qed.

Lemma piece_app (a b : pystr) (ta tb : list pystr) :
  piece a ta -> piece b tb -> piece (a ++ b) (ta ++ tb).
Proof.
  intros [Ha Hta] [Hb Htb]. split; [now apply closed_app|].
  now rewrite tags_of_app, Hta, Htb.
Qed.

Lemma piece_text (a b : pystr) (tb : list pystr) :
  (forall c, In c a -> c <> 60%N) -> piece b tb -> piece (a ++ b) tb.
Proof.
  intros Ha Hb. apply text_closed in Ha as [Hc Ht].
  apply (@piece_app a b [] tb); [split; assumption | exact Hb].
Qed.

Lemma piece_escape (s b : pystr) (tb : list pystr) :
  piece b tb -> piece (escape s ++ b) tb.
Proof.
  intro Hb. apply piece_text; [|exact Hb].
  intros c Hc. now apply escape_no_markup in Hc.
Qed.

Lemma piece_lit (a b : pystr) (ta tb : list pystr) :
  piece a ta -> piece b tb -> piece (a ++ b) (ta ++ tb).
Proof. apply piece_app. Qed.

Lemma piece_nil : piece [] [].
Proof. split; reflexivity. Qed.

Lemma bullet_items_piece (bs : list pystr) :
  piece (flat_map bullet_item bs) (concat (repeat LI_TAGS (length bs))).
Proof.
  unfold piece. rewrite <- flat_map_const.
  apply flat_map_closed. intros b _. unfold bullet_item.
  apply (@piece_app (lit "<li>") _ [lit "<li>"] [lit "</li>"]);
    [split; reflexivity|].
  apply piece_escape. split; reflexivity.
Qed.

Lemma replace_escape_char (c : char) :
  c <> newline ->
  flat_map (fun x => if N.eqb x newline then lit "<br>" else [x]) (escape_char c)
  = escape_char c.
Proof.
  intro Hc. unfold escape_char.
  destruct (N.eqb c 38); [reflexivity|].
  destruct (N.eqb c 60); [reflexivity|].
  destruct (N.eqb c 62); [reflexivity|].
  destruct (N.eqb c 34); [reflexivity|].
  destruct (N.eqb c 39); [reflexivity|].
  simpl. destruct (N.eqb_spec c newline); [contradiction | reflexivity].
Qed.

Lemma line_breaks_piece (s : pystr) :
  piece (replace_char newline (lit "<br>") (escape s))
        (repeat (lit "<br>") (line_breaks s)).
Proof.
  unfold replace_char, escape, line_breaks.
  induction s as [|c s IH]; [apply piece_nil|].
  cbn [flat_map]. rewrite flat_map_app. cbn [filter].
  destruct (N.eqb_spec newline c) as [<-|Hne].
  - change (flat_map (fun c => if N.eqb c newline then lit "<br>" else [c])
              (escape_char newline)) with (lit "<br>").
    cbn [length repeat].
    apply (@piece_app (lit "<br>") _ [lit "<br>"] _); [split; reflexivity|exact IH].
  - rewrite replace_escape_char by congruence.
    apply piece_text; [|exact IH].
    intros x Hx. apply (@escape_no_markup [c] x).
    unfold escape. simpl. now rewrite app_nil_r.
Qed.

Lemma piece_eq (a : pystr) (ts ts' : list pystr) : piece a ts -> ts = ts' -> piece a ts'.
Proof. now intros Ha <-. Qed.

Lemma flat_map_over_map (A B C : Type) (g : A -> B) (f : B -> list C) (l : list A) :
  flat_map f (map g l) = flat_map (fun x => f (g x)) l.
Proof. induction l; simpl; congruence. Qed.

(** Pieces made of program text, escaped fields and bullet items. *)
Ltac pieces :=
  repeat first
    [ apply piece_escape
    | eapply piece_app; [apply line_breaks_piece|]
    | eapply piece_app; [apply bullet_items_piece|]
    | eapply piece_app; [split; reflexivity|] ];
  try (split; reflexivity).

Lemma export_experience_entry_piece (ex : ExperienceEntry) :
  piece (export_experience_entry ex)
        ([lit "<h3>"; lit "</h3>"; lit "<ul>"]
           ++ concat (repeat LI_TAGS (length (bullets ex))) ++ [lit "</ul>"]).
Proof.
  unfold export_experience_entry. eapply piece_eq; [pieces | reflexivity].
Qed.

Lemma export_education_entry_piece (ed : EducationEntry) :
  piece (export_education_entry ed)
        [lit "<div>"; lit "<b>"; lit "</b>"; lit "</div>"].
Proof.
  unfold export_education_entry. eapply piece_eq; [pieces | reflexivity].
Qed.

Lemma entries_piece (A : Type) (f : A -> pystr) (ts : A -> list pystr) (l : list A) :
  (forall x, piece (f x) (ts x)) -> piece (flat_map f l) (flat_map ts l).
Proof. intro Hf. apply flat_map_closed. intros x _. apply Hf. Qed.

Lemma export_section_piece (st : SessionState) (k : section) :
  piece (export_section st k)
    match k with
    | Identity =>
        [lit "<!doctype html>"; lit "<html>"; lit "<head>";
         lit "<meta charset=" ++ [dquote] ++ lit "utf-8" ++ [dquote] ++ lit ">";
         lit "<title>"; lit "</title>"; lit "</head>"; lit "<body>";
         lit "<h1>"; lit "</h1>"; lit "<h3>"; lit "</h3>"]
    | Summary =>
        [lit "<p>"] ++ repeat (lit "<br>") (line_breaks (summary (profile st)))
          ++ [lit "</p>"]
    | Photo => []
    | Experience =>
        if truthy (experience_list st)
        then [lit "<h2>"; lit "</h2>"]
               ++ flat_map (fun ex => [lit "<h3>"; lit "</h3>"; lit "<ul>"]
                                        ++ concat (repeat LI_TAGS (length (bullets ex)))
                                        ++ [lit "</ul>"])
                    (experience_list st)
        else []
    | Education =>
        if truthy (education_list st)
        then [lit "<h2>"; lit "</h2>"]
               ++ concat (repeat [lit "<div>"; lit "<b>"; lit "</b>"; lit "</div>"]
                            (length (education_list st)))
        else []
    | Skills =>
        if truthy (skills st)
        then [lit "<h2>"; lit "</h2>"; lit "<div>"; lit "</div>"] else []
    end.
Proof.
  destruct k; unfold export_section.
  - rewrite (app_assoc (lit "<!doctype html><html><head><meta charset=")).
    rewrite (app_assoc _ (lit "utf-8")).
    rewrite (app_assoc _ [dquote] (lit "><title>" ++ _)).
    rewrite (app_assoc _ (lit "><title>")).
    eapply piece_eq; [pieces | reflexivity].
  - eapply piece_eq; [pieces | reflexivity].
  - apply piece_nil.
  - destruct (truthy (experience_list st)); [|apply piece_nil].
    apply (@piece_app (lit "<h2>Experience</h2>") _ [lit "<h2>"; lit "</h2>"] _);
      [split; reflexivity|].
    apply entries_piece, export_experience_entry_piece.
  - destruct (truthy (education_list st)); [|apply piece_nil].
    apply (@piece_app (lit "<h2>Education</h2>") _ [lit "<h2>"; lit "</h2>"] _);
      [split; reflexivity|].
    rewrite <- flat_map_const.
    apply entries_piece, export_education_entry_piece.
  - destruct (truthy (skills st)); [|apply piece_nil].
    eapply piece_eq; [pieces | reflexivity].
Qed.

(** X14.  The tags of the HTML download are those of the program text and
    nothing else: they are fixed by the number of line breaks of the summary,
    the number of bullets of each experience entry, the number of education
    entries and whether there are skills.  No text of the record adds,
    removes or changes a tag. *)
Theorem export_html_tags (st : SessionState) :
  tags_of (build_html st)
  = export_tags (line_breaks (summary (profile st)))
      (map (fun ex => length (bullets ex)) (experience_list st))
      (length (education_list st))
      (truthy (skills st)).
Proof.
  rewrite build_html_layout. unfold layout, SPEC_ORDER. cbn [flat_map].
  assert (P : piece
                ((export_section st Identity ++ export_section st Summary
                    ++ export_section st Experience ++ export_section st Education
                    ++ export_section st Skills ++ []) ++ lit "</body></html>")
                (export_tags (line_breaks (summary (profile st)))
                   (map (fun ex => length (bullets ex)) (experience_list st))
                   (length (education_list st))
                   (truthy (skills st)))).
  { eapply piece_eq.
    - apply piece_app;
        [|apply (conj (eq_refl : closed (lit "</body></html>")) eq_refl)].
      repeat (apply piece_app; [apply export_section_piece|]). apply piece_nil.
    - unfold export_tags. rewrite flat_map_over_map.
      destruct (experience_list st), (education_list st), (skills st);
        cbn [truthy map length];
        repeat (rewrite <- app_assoc || rewrite app_nil_r
                || rewrite <- app_comm_cons || rewrite app_nil_l);
        reflexivity. }
  apply P.
Qed.

Lemma paper_experience_entry_piece (ex : ExperienceEntry) :
  piece (paper_experience_entry ex)
        ([lit "<div>"; lit "<strong>"; lit "</strong>"; lit "<div class='muted'>";
          lit "</div>"; lit "<ul>"]
           ++ concat (repeat LI_TAGS (length (bullets ex)))
           ++ [lit "</ul>"; lit "</div>"]).
Proof.
  unfold paper_experience_entry. eapply piece_eq; [pieces | reflexivity].
Qed.

Lemma paper_education_entry_piece (ed : EducationEntry) :
  piece (paper_education_entry ed)
        [lit "<div>"; lit "<strong>"; lit "</strong>"; lit "</div>"].
Proof.
  unfold paper_education_entry. eapply piece_eq; [pieces | reflexivity].
Qed.

Lemma paper_section_piece (ctx : Ctx.t) (k : section) :
  piece (paper_section ctx k)
    match k with
    | Identity =>
        [lit "<html>"; lit "<head>"; lit "<meta charset='utf-8'>"; lit "<style>";
         lit "</style>"; lit "</head>"; lit "<body>"; lit "<div class='paper'>";
         lit "<h1>"; lit "</h1>"; lit "<div class='muted'>"; lit "</div>"]
    | Summary => [lit "<div style='margin-top:8px'>"; lit "</div>"]
    | Photo => []
    | Experience =>
        [lit "<h2>"; lit "</h2>"]
          ++ flat_map (fun ex => [lit "<div>"; lit "<strong>"; lit "</strong>";
                                  lit "<div class='muted'>"; lit "</div>"; lit "<ul>"]
                                   ++ concat (repeat LI_TAGS (length (bullets ex)))
                                   ++ [lit "</ul>"; lit "</div>"])
               (Ctx.experience ctx)
    | Education =>
        [lit "<h2>"; lit "</h2>"]
          ++ concat (repeat [lit "<div>"; lit "<strong>"; lit "</strong>"; lit "</div>"]
                       (length (Ctx.education ctx)))
    | Skills => [lit "<h2>"; lit "</h2>"; lit "<div>"; lit "</div>"]
    end.
Proof.
  destruct k; unfold paper_section.
  - eapply piece_eq; [pieces | reflexivity].
  - eapply piece_eq; [pieces | reflexivity].
  - apply piece_nil.
  - rewrite (app_assoc (lit "            <h2>Experience</h2>")).
    rewrite (app_assoc _ (lit "            ")).
    apply (@piece_app _ _ [lit "<h2>"; lit "</h2>"] _); [split; reflexivity|].
    apply entries_piece, paper_experience_entry_piece.
  - apply (@piece_app (lit "<h2>Education</h2>") _ [lit "<h2>"; lit "</h2>"] _);
      [split; reflexivity|].
    rewrite <- flat_map_const.
    apply entries_piece, paper_education_entry_piece.
  - eapply piece_eq; [pieces | reflexivity].
Qed.

(** X15.  In a style other than "Modern Color" the tags of the preview are
    those of the program text and nothing else: they are fixed by the number
    of bullets of each experience entry and the number of education
    entries. *)
Theorem paper_preview_tags (d : Design) (ctx : Ctx.t) :
  style d <> MODERN_COLOR ->
  tags_of (render_preview_html d ctx)
  = paper_tags (map (fun ex => length (bullets ex)) (Ctx.experience ctx))
      (length (Ctx.education ctx)).
Proof.
  intro Hs. rewrite (@render_paper_layout d ctx Hs).
  unfold layout, SPEC_ORDER. cbn [flat_map].
  assert (P : piece
                ((paper_section ctx Identity ++ paper_section ctx Summary
                    ++ paper_section ctx Experience ++ paper_section ctx Education
                    ++ paper_section ctx Skills ++ []) ++ lit "</div></body></html>")
                (paper_tags (map (fun ex => length (bullets ex)) (Ctx.experience ctx))
                   (length (Ctx.education ctx)))).
  { eapply piece_eq.
    - apply piece_app;
        [|apply (conj (eq_refl : closed (lit "</div></body></html>")) eq_refl)].
      repeat (apply piece_app; [apply paper_section_piece|]). apply piece_nil.
    - unfold paper_tags. rewrite flat_map_over_map.
      repeat (rewrite <- app_assoc || rewrite app_nil_r
              || rewrite <- app_comm_cons || rewrite app_nil_l).
      reflexivity. }
  apply P.
Qed.

Lemma paper_preview_tags_witness :
  tags_of (preview_html no_imaging ada_scripted)
  = paper_tags [1] 0.
Proof.
  apply (@paper_preview_tags (design ada_scripted) (preview_ctx no_imaging ada_scripted)).
  intro E. vm_compute in E. discriminate E.
Defined.

(** ** The DOCX document *)

Lemma filter_none (A : Type) (f : A -> bool) (l : list A) :
  Forall (fun x => f x = false) l -> filter f l = [].
Proof.
  induction 1 as [|x l Hx _ IH]; simpl; [reflexivity|]. now rewrite Hx.
Qed.

(** X16.  The DOCX document holds a picture exactly when a photo is
    uploaded, the photo switch is on and [add_picture] returns; it then
    holds that one picture, 1.2 inches wide, and never more than one. *)
Theorem docx_pictures (lib : DocxLibrary) (st : SessionState) :
  filter is_picture (build_docx lib st)
  = match photo_file st with
    | Some data =>
        if include_photo (design st)
        then match add_picture_error lib data with
             | None => [Picture data 12]
             | Some _ => []
             end
        else []
    | None => []
    end.
Proof.
  rewrite build_docx_layout. unfold layout, DOCX_ORDER. cbn [flat_map].
  rewrite !filter_app.
  rewrite (filter_none is_picture (@no_picture_section lib st Identity ltac:(discriminate))).
  rewrite (filter_none is_picture (@no_picture_section lib st Summary ltac:(discriminate))).
  rewrite (filter_none is_picture (@no_picture_section lib st Education ltac:(discriminate))).
  rewrite (filter_none is_picture (@no_picture_section lib st Experience ltac:(discriminate))).
  rewrite (filter_none is_picture (@no_picture_section lib st Skills ltac:(discriminate))).
  rewrite !app_nil_r. cbn [app filter].
  unfold docx_section, add_photo.
  destruct (photo_file st) as [data|]; [|reflexivity].
  destruct (include_photo (design st)); [|reflexivity].
  destruct (add_picture_error lib data) as [partial|]; [|reflexivity].
  apply filter_none. apply no_picture_unstyled.
Qed.

Lemma list_bullet_texts_app (d1 d2 : document) :
  list_bullet_texts (d1 ++ d2) = list_bullet_texts d1 ++ list_bullet_texts d2.
Proof. apply flat_map_app. Qed.

Lemma list_bullet_texts_unstyled (partial : list (list run)) :
  list_bullet_texts (unstyled partial) = [].
Proof. induction partial; simpl; auto. Qed.

(** A paragraph made by [add_paragraph(text)] reads [text], with or without
    a run. *)
Lemma paragraph_text_runs (text : pystr) : paragraph_text (text_runs text) = text.
Proof.
  destruct text as [|c text]; [reflexivity|].
  unfold text_runs, paragraph_text. cbn [truthy flat_map fst]. apply app_nil_r.
Qed.

Lemma list_bullet_texts_add_bullet (lib : DocxLibrary) (b : pystr) :
  list_bullet_texts (add_bullet lib b [])
  = match styled_paragraph_error lib LIST_BULLET b with
    | None => [b]
    | Some _ => []
    end.
Proof.
  unfold add_bullet, add_paragraph.
  destruct (styled_paragraph_error lib LIST_BULLET b).
  - rewrite app_nil_l, list_bullet_texts_app, list_bullet_texts_unstyled. reflexivity.
  - cbn [app list_bullet_texts flat_map].
    change (str_eqb LIST_BULLET LIST_BULLET) with true.
    now rewrite paragraph_text_runs.
Qed.

Lemma list_bullet_texts_bullets (lib : DocxLibrary) (bs : list pystr) :
  list_bullet_texts (flat_map (fun b => add_bullet lib b []) bs)
  = filter (fun b => match styled_paragraph_error lib LIST_BULLET b with
                     | None => true
                     | Some _ => false
                     end) bs.
Proof.
  induction bs as [|b bs IH]; [reflexivity|].
  cbn [flat_map filter].
  rewrite list_bullet_texts_app, list_bullet_texts_add_bullet, IH.
  destruct (styled_paragraph_error lib LIST_BULLET b); reflexivity.
Qed.

Lemma list_bullet_texts_section (lib : DocxLibrary) (st : SessionState) (k : section) :
  list_bullet_texts (docx_section lib st k)
  = match k with
    | Experience =>
        filter (fun b => match styled_paragraph_error lib LIST_BULLET b with
                         | None => true
                         | Some _ => false
                         end)
               (flat_map bullets (experience_list st))
    | _ => []
    end.
Proof.
  destruct k; unfold docx_section.
  - destruct (truthy (title (profile st))), (truthy (contact_fields (profile st)));
      reflexivity.
  - destruct (truthy (summary (profile st))); reflexivity.
  - destruct (photo_file st); [destruct (include_photo (design st))|];
      try reflexivity.
    unfold add_photo. destruct (add_picture_error lib b); [|reflexivity].
    apply list_bullet_texts_unstyled.
  - destruct (experience_list st) as [|ex0 exs]; [reflexivity|].
    cbn [truthy]. generalize (ex0 :: exs). intro l.
    change (list_bullet_texts
              (flat_map (fun ex => experience_paragraph ex
                                     :: flat_map (fun b => add_bullet lib b []) (bullets ex))
                 l)
            = filter (fun b => match styled_paragraph_error lib LIST_BULLET b with
                               | None => true
                               | Some _ => false
                               end) (flat_map bullets l)).
    induction l as [|ex l IH]; [reflexivity|].
    cbn [flat_map]. rewrite filter_app, <- IH.
    rewrite <- list_bullet_texts_bullets.
    change (experience_paragraph ex
              :: flat_map (fun b => add_bullet lib b []) (bullets ex))
      with ([experience_paragraph ex]
              ++ flat_map (fun b => add_bullet lib b []) (bullets ex)).
    rewrite !list_bullet_texts_app.
    unfold experience_paragraph. destruct (truthy (period ex)); reflexivity.
  - destruct (truthy (education_list st)); [|reflexivity].
    cbn [list_bullet_texts flat_map app].
    induction (education_list st) as [|ed l IH]; [reflexivity|].
    cbn [map flat_map]. unfold education_paragraph at 1.
    destruct (truthy (year ed)); exact IH.
  - destruct (truthy (skills st)); reflexivity.
Qed.

(** X17.  The "List Bullet" paragraphs of the DOCX document read, in the
    order of the entries and of their bullets, the bullets of the experience
    entries for which the styled call returns, an empty bullet as a paragraph
    without text; when the call returns for every bullet of the record, all
    of them, none lost, repeated or reordered. *)
Theorem docx_list_bullets (lib : DocxLibrary) (st : SessionState) :
  list_bullet_texts (build_docx lib st)
  = filter (fun b => match styled_paragraph_error lib LIST_BULLET b with
                     | None => true
                     | Some _ => false
                     end)
           (flat_map bullets (experience_list st))
  /\ (Forall (fun b => styled_paragraph_error lib LIST_BULLET b = None)
             (flat_map bullets (experience_list st)) ->
      list_bullet_texts (build_docx lib st) = flat_map bullets (experience_list st)).
Proof.
  assert (E : list_bullet_texts (build_docx lib st)
              = filter (fun b => match styled_paragraph_error lib LIST_BULLET b with
                                 | None => true
                                 | Some _ => false
                                 end)
                       (flat_map bullets (experience_list st))).
  { rewrite build_docx_layout. unfold layout, DOCX_ORDER. cbn [flat_map].
    rewrite !list_bullet_texts_app, !list_bullet_texts_section.
    now rewrite app_nil_r. }
  split; [exact E|].
  intro Hok. rewrite E. clear E.
  induction Hok as [|b l Hb _ IH]; [reflexivity|].
  cbn [filter]. rewrite Hb, IH. reflexivity.
Qed.

Lemma docx_list_bullets_witness :
  list_bullet_texts (build_docx default_library ada_graduate)
  = [lit "Improved computation speed by 10%."].
Proof.
  apply (proj2 (docx_list_bullets default_library ada_graduate)).
  vm_compute. repeat constructor.
Defined.

(** An entry with an empty bullet, as "Save changes" stores it for a bullet
    whose text area was cleared: its "List Bullet" paragraph has no run and
    reads as the empty text. *)
Example docx_empty_bullet :
  build_docx default_library
    (with_experience [{| role := []; company := []; period := [];
                         description := []; bullets := [[]] |}] ada)
  = [Heading 0 (lit "Ada Lovelace");
     Heading 1 (lit "Experience");
     Paragraph None [(lit " " ++ [em_dash] ++ lit " ", true)];
     Paragraph (Some LIST_BULLET) [];
     Heading 1 (lit "Skills");
     Paragraph None [(lit "Mathematics", false)]]
  /\ list_bullet_texts
       (build_docx default_library
          (with_experience [{| role := []; company := []; period := [];
                               description := []; bullets := [[]] |}] ada))
     = [[]].
Proof. split; reflexivity. Qed.

Lemma headings_app (d1 d2 : document) : headings (d1 ++ d2) = headings d1 ++ headings d2.
Proof. apply flat_map_app. Qed.

Lemma headings_unstyled (partial : list (list run)) : headings (unstyled partial) = [].
Proof. induction partial; simpl; auto. Qed.

Lemma headings_flat_map (A : Type) (f : A -> document) (l : list A) :
  (forall x, headings (f x) = []) -> headings (flat_map f l) = [].
Proof.
  intro Hf. induction l as [|x l IH]; [reflexivity|].
  simpl. now rewrite headings_app, Hf, IH.
Qed.

Lemma headings_add_bullet (lib : DocxLibrary) (b : pystr) :
  headings (add_bullet lib b []) = [].
Proof.
  unfold add_bullet, add_paragraph.
  destruct (styled_paragraph_error lib LIST_BULLET b); [|reflexivity].
  now rewrite app_nil_l, headings_app, headings_unstyled.
Qed.

(** X18.  The headings of the DOCX document are one title of level 0, the
    name or "Unnamed" and never empty, followed at level 1 by those of
    Education, Experience and Skills, in this order, whose list is not
    empty; nothing else in the document is a heading. *)
Theorem docx_outline (lib : DocxLibrary) (st : SessionState) :
  headings (build_docx lib st)
  = [(0, or_else (name (profile st)) (lit "Unnamed"))]
      ++ (if truthy (education_list st) then [(1, lit "Education")] else [])
      ++ (if truthy (experience_list st) then [(1, lit "Experience")] else [])
      ++ (if truthy (skills st) then [(1, lit "Skills")] else [])
  /\ or_else (name (profile st)) (lit "Unnamed") <> [].
Proof.
  split; [|apply or_else_nonempty; discriminate].
  rewrite build_docx_layout. unfold layout, DOCX_ORDER. cbn [flat_map].
  rewrite !headings_app.
  assert (H1 : headings (docx_section lib st Identity)
               = [(0, or_else (name (profile st)) (lit "Unnamed"))]).
  { unfold docx_section, or_else.
    destruct (truthy (title (profile st))), (truthy (contact_fields (profile st)));
      reflexivity. }
  assert (H2 : headings (docx_section lib st Summary) = []).
  { unfold docx_section. destruct (truthy (summary (profile st))); reflexivity. }
  assert (H3 : headings (docx_section lib st Photo) = []).
  { unfold docx_section, add_photo.
    destruct (photo_file st); [destruct (include_photo (design st))|];
      try reflexivity.
    destruct (add_picture_error lib b); [|reflexivity]. apply headings_unstyled. }
  assert (H4 : headings (docx_section lib st Education)
               = if truthy (education_list st) then [(1, lit "Education")] else []).
  { unfold docx_section. destruct (truthy (education_list st)); [|reflexivity].
    cbn [headings flat_map app]. f_equal.
    induction (education_list st) as [|ed l IH]; [reflexivity|]. exact IH. }
  assert (H5 : headings (docx_section lib st Experience)
               = if truthy (experience_list st) then [(1, lit "Experience")] else []).
  { unfold docx_section. destruct (truthy (experience_list st)); [|reflexivity].
    cbn [headings flat_map app]. f_equal.
    apply (@headings_flat_map _
             (fun ex => experience_paragraph ex
                          :: flat_map (fun b => add_bullet lib b []) (bullets ex))).
    intro ex. change (headings (flat_map (fun b => add_bullet lib b []) (bullets ex)) = []).
    apply headings_flat_map. intro b. apply headings_add_bullet. }
  assert (H6 : headings (docx_section lib st Skills)
               = if truthy (skills st) then [(1, lit "Skills")] else []).
  { unfold docx_section. destruct (truthy (skills st)); reflexivity. }
  rewrite H1, H2, H3, H4, H5, H6. now rewrite !app_nil_r.
Qed.

(* ================================================================== *)
(** * Further properties: editing by position, and what is rendered *)
(* ================================================================== *)

(** ** Removing by position *)

Lemma list_pop_spec (A : Type) (l : list A) :
  forall i,
    (i < length l -> list_pop i l = Some (firstn i l ++ skipn (S i) l))
    /\ (length l <= i -> list_pop i l = None).
Proof.
  induction l as [|x l IH]; intro i; simpl.
  - split; [lia | reflexivity].
  - destruct i as [|i]; simpl.
    + split; [reflexivity | lia].
    + destruct (IH i) as [H1 H2]. split; intro Hi.
      * rewrite H1 by lia. reflexivity.
      * rewrite H2 by lia. reflexivity.
Qed.

(** X19.  Removing entry [i] fails exactly when [i] is past the end;
    otherwise the list is one shorter, the entries before [i] stay where
    they are and every entry after [i] moves up by one position. *)
Theorem list_pop_shifts (A : Type) (i : nat) (l : list A) :
  (list_pop i l = None <-> length l <= i)
  /\ forall l',
      list_pop i l = Some l' ->
      S (length l') = length l
      /\ forall j, nth_error l' j = nth_error l (if j <? i then j else S j).
Proof.
  destruct (list_pop_spec l i) as [Hin Hout]. split.
  - split; [|exact Hout].
    intro E. destruct (Nat.le_gt_cases (length l) i) as [Hle|Hlt]; [exact Hle|].
    rewrite Hin in E by exact Hlt. discriminate E.
  - intros l' Hpop.
    destruct (Nat.le_gt_cases (length l) i) as [Hle|Hlt].
    { rewrite Hout in Hpop by exact Hle. discriminate Hpop. }
    rewrite Hin in Hpop by exact Hlt.
    assert (El : l' = firstn i l ++ skipn (S i) l) by congruence.
    clear Hpop. subst l'. split.
    + rewrite length_app, length_firstn, length_skipn. lia.
    + intro j. destruct (j <? i) eqn:E.
      * apply Nat.ltb_lt in E.
        rewrite nth_error_app1 by (rewrite length_firstn; lia).
        rewrite nth_error_firstn.
        destruct (j <? i) eqn:Ej; [reflexivity|]. apply Nat.ltb_ge in Ej. lia.
      * apply Nat.ltb_ge in E.
        rewrite nth_error_app2 by (rewrite length_firstn; lia).
        rewrite length_firstn, nth_error_skipn.
        f_equal. lia.
Qed.

Lemma list_pop_shifts_witness :
  S (length [lit "Inspection"; lit "Asset Integrity"])
  = length default_skills
  /\ forall j, nth_error [lit "Inspection"; lit "Asset Integrity"] j
               = nth_error default_skills (if j <? 0 then j else S j).
Proof.
  apply (proj2 (list_pop_shifts 0 default_skills)). reflexivity.
Defined.

(** ** "Regenerate bullets" *)




(** ** The photo of the preview *)

(** X21.  The preview carries a photo exactly when one is uploaded, the
    photo switch is on and the imaging calls succeed; it is then the PNG
    data URI of the upload.  In every other case there is no image. *)
Theorem preview_photo_present (png_base64 : bytes -> option pystr)
        (st : SessionState) (uri : pystr) :
  Ctx.photo (preview_ctx png_base64 st) = Some uri
  <-> exists data b64,
      photo_file st = Some data
      /\ include_photo (design st) = true
      /\ png_base64 data = Some b64
      /\ uri = lit "data:image/png;base64," ++ b64.
Proof.
  unfold preview_ctx, pil_to_datauri. cbn [Ctx.photo].
  destruct (photo_file st) as [data|].
  - destruct (include_photo (design st)).
    + destruct (png_base64 data) as [b64|] eqn:E.
      * split.
        -- intro H. injection H as <-. exists data, b64. auto.
        -- intros [d [b [Hd [_ [Hb ->]]]]]. injection Hd as <-.
           rewrite E in Hb. injection Hb as <-. reflexivity.
      * split; [discriminate|].
        intros [d [b [Hd [_ [Hb _]]]]]. injection Hd as <-. congruence.
    + split; [discriminate|]. intros [d [b [_ [H _]]]]. discriminate H.
  - split; [discriminate|]. intros [d [b [H _]]]. discriminate H.
Qed.

Lemma preview_photo_present_witness :
  Ctx.photo (preview_ctx (fun _ => Some (lit "QUJD")) ada_broken_photo)
  = Some (lit "data:image/png;base64," ++ lit "QUJD").
Proof.
  apply (proj2 (preview_photo_present (fun _ => Some (lit "QUJD")) ada_broken_photo
                  (lit "data:image/png;base64," ++ lit "QUJD"))).
  exists [71; 73; 70]%N, (lit "QUJD"). repeat split.
Defined.

(** ** What the HTML outputs contain *)

Lemma contains_unfold (hay needle : pystr) :
  contains hay needle
  = startswith hay needle
    || match hay with
       | [] => false
       | _ :: hay' => contains hay' needle
       end.
Proof. destruct hay; reflexivity. Qed.

Lemma contains_self (needle : pystr) : contains needle needle = true.
Proof.
  rewrite contains_unfold.
  rewrite <- (app_nil_r needle) at 1. now rewrite startswith_app.
Qed.

Lemma contains_app_r (m q needle : pystr) :
  contains m needle = true -> contains (m ++ q) needle = true.
Proof.
  induction m as [|x m IH]; intro Hm.
  - destruct needle; [|discriminate Hm].
    change ([] ++ q) with q. rewrite contains_unfold. reflexivity.
  - rewrite contains_unfold in Hm. apply orb_true_iff in Hm as [Hm|Hm].
    + rewrite contains_unfold, (startswith_app_l _ q _ Hm). reflexivity.
    + change ((x :: m) ++ q) with (x :: m ++ q).
      rewrite contains_unfold, (IH Hm). apply orb_true_r.
Qed.

Lemma contains_app_l (p m needle : pystr) :
  contains m needle = true -> contains (p ++ m) needle = true.
Proof.
  intro Hm. induction p as [|c p IH]; [exact Hm|].
  change ((c :: p) ++ m) with (c :: p ++ m).
  rewrite contains_unfold, IH. apply orb_true_r.
Qed.

Lemma contains_within (hay pre mid post needle : pystr) :
  hay = pre ++ mid ++ post -> contains mid needle = true ->
  contains hay needle = true.
Proof. intros -> Hmid. now apply contains_app_l, contains_app_r. Qed.

Lemma flat_map_split (A B : Type) (f : A -> list B) (l : list A) (x : A) :
  In x l -> exists pre post, flat_map f l = pre ++ f x ++ post.
Proof.
  intro Hx. apply in_split in Hx as [l1 [l2 ->]].
  exists (flat_map f l1), (flat_map f l2).
  now rewrite flat_map_app.
Qed.

Lemma contains_flat_map (A : Type) (f : A -> pystr) (l : list A) (x : A)
      (needle : pystr) :
  In x l -> contains (f x) needle = true -> contains (flat_map f l) needle = true.
Proof.
  intros Hx Hc. destruct (@flat_map_split _ _ f l x Hx) as [pre [post E]].
  eapply contains_within; [exact E | exact Hc].
Qed.

Lemma contains_layout (part : section -> pystr) (order : list section) (k : section)
      (closing needle : pystr) :
  In k order -> contains (part k) needle = true ->
  contains (layout part order ++ closing) needle = true.
Proof.
  intros Hk Hc. unfold layout.
  destruct (@flat_map_split _ _ part order k Hk) as [pre [post E]].
  apply (@contains_within _ pre (part k) (post ++ closing) needle);
    [|exact Hc].
  rewrite E, <- !app_assoc. reflexivity.
Qed.

Lemma contains_bullet_items (bs : list pystr) (b : pystr) :
  In b bs ->
  contains (flat_map bullet_item bs) (lit "<li>" ++ escape b ++ lit "</li>") = true.
Proof.
  intro Hb. eapply contains_flat_map; [exact Hb|].
  unfold bullet_item. apply contains_self.
Qed.

(** Finds a piece among the pieces appended into an output. *)
Ltac find_piece H :=
  repeat first
    [ exact H
    | apply contains_app_r; exact H
    | apply contains_app_l ].

(** X22.  Every bullet of every experience entry is in the HTML download
    and in the preview of either template as a list item holding its
    escaped text. *)
Theorem bullets_rendered_escaped (png_base64 : bytes -> option pystr)
        (st : SessionState) (ex : ExperienceEntry) (b : pystr) :
  In ex (experience_list st) ->
  In b (bullets ex) ->
  contains (build_html st) (lit "<li>" ++ escape b ++ lit "</li>") = true
  /\ contains (preview_html png_base64 st) (lit "<li>" ++ escape b ++ lit "</li>")
     = true.
Proof.
  intros Hex Hb.
  pose proof (@contains_bullet_items (bullets ex) b Hb) as Hitems.
  split.
  - assert (He : contains (export_experience_entry ex)
                   (lit "<li>" ++ escape b ++ lit "</li>") = true)
      by (unfold export_experience_entry; find_piece Hitems).
    assert (Hs : contains (flat_map export_experience_entry (experience_list st))
                   (lit "<li>" ++ escape b ++ lit "</li>") = true)
      by (eapply contains_flat_map; [exact Hex | exact He]).
    rewrite build_html_layout.
    apply (@contains_layout _ _ Experience); [simpl; tauto|].
    unfold export_section.
    destruct (experience_list st) as [|e0 es] eqn:El; [contradiction|].
    cbn [truthy]. find_piece Hs.
  - unfold preview_html. cbn [preview_ctx].
    destruct (str_eqb (style (design st)) MODERN_COLOR) eqn:Es.
    + assert (He : contains (modern_experience_entry ex)
                     (lit "<li>" ++ escape b ++ lit "</li>") = true)
        by (unfold modern_experience_entry; find_piece Hitems).
      assert (Hs : contains (flat_map modern_experience_entry (experience_list st))
                     (lit "<li>" ++ escape b ++ lit "</li>") = true)
        by (eapply contains_flat_map; [exact Hex | exact He]).
      rewrite render_modern_layout by (now apply str_eqb_eq).
      apply (@contains_layout _ _ Experience); [simpl; tauto|].
      unfold modern_section. cbn [Ctx.experience preview_ctx]. find_piece Hs.
    + assert (He : contains (paper_experience_entry ex)
                     (lit "<li>" ++ escape b ++ lit "</li>") = true)
        by (unfold paper_experience_entry; find_piece Hitems).
      assert (Hs : contains (flat_map paper_experience_entry (experience_list st))
                     (lit "<li>" ++ escape b ++ lit "</li>") = true)
        by (eapply contains_flat_map; [exact Hex | exact He]).
      rewrite render_paper_layout
        by (intro E; apply str_eqb_eq in E; congruence).
      apply (@contains_layout _ _ Experience); [simpl; tauto|].
      unfold paper_section. cbn [Ctx.experience preview_ctx]. find_piece Hs.
Qed.

Lemma bullets_rendered_escaped_witness :
  contains (build_html ada_graduate)
           (lit "<li>" ++ escape (lit "Improved computation speed by 10%.") ++ lit "</li>")
  = true
  /\ contains (preview_html no_imaging ada_graduate)
              (lit "<li>" ++ escape (lit "Improved computation speed by 10%.")
                 ++ lit "</li>")
     = true.
Proof.
  apply (@bullets_rendered_escaped no_imaging ada_graduate ada_experience
           (lit "Improved computation speed by 10%.")).
  - left. reflexivity.
  - left. reflexivity.
Defined.

(** ** "Add skill" and the outputs *)

Lemma escape_app (a b : pystr) : escape (a ++ b) = escape a ++ escape b.
Proof. apply flat_map_app. Qed.

Lemma join_starts (sep v : pystr) (rest : list pystr) :
  exists tail, join sep (v :: rest) = v ++ tail.
Proof.
  destruct rest as [|w rest].
  - exists []. simpl. now rewrite app_nil_r.
  - exists (sep ++ join sep (w :: rest)). reflexivity.
Qed.

Lemma skills_line_given (lib : DocxLibrary) (st : SessionState) :
  truthy (skills st) = true ->
  In (join (lit ", ") (skills st)) (docx_texts lib st).
Proof.
  intro Hs. unfold docx_texts, layout, DOCX_ORDER. cbn [flat_map].
  rewrite !in_app_iff. do 5 right. left.
  unfold docx_section_texts. rewrite Hs. right. left. reflexivity.
Qed.

(** X23.  "Add skill" with a blank input changes nothing.  With any other
    input the stripped skill becomes the first skill and the HTML download
    has a Skills section that opens with its escaped text.  The DOCX
    handler, when the library accepts the texts it is given outside [try],
    builds a document that ends with a Skills heading followed by a
    paragraph that opens with the skill; when the library rejects the line
    of skills, as python-docx does for a skill that holds a control
    character, it builds none. *)
Theorem add_skill_rendered (lib : DocxLibrary) (sk : pystr) (st : SessionState) :
  (Forall (fun c => is_space c = true) sk -> add_skill sk st = st)
  /\ (has_visible_character sk ->
      skills (add_skill sk st) = strip sk :: skills st
      /\ contains (build_html (add_skill sk st))
                  (lit "<h2>Skills</h2><div>" ++ escape (strip sk)) = true
      /\ (texts_accepted lib (add_skill sk st) ->
          exists before tail,
            docx_handler lib (add_skill sk st)
            = Some (before ++ [Heading 1 (lit "Skills");
                               Paragraph None [(strip sk ++ tail, false)]]))
      /\ (text_error lib (join (lit ", ") (strip sk :: skills st)) = true ->
          docx_handler lib (add_skill sk st) = None)).
Proof.
  unfold add_skill. cbv zeta. split.
  - intro Hblank.
    assert (E : lstrip sk = []).
    { induction Hblank as [|c s Hc _ IH]; simpl; [reflexivity|]. now rewrite Hc. }
    unfold strip, rstrip. rewrite E. reflexivity.
  - intro Hvis. pose proof (visible_truthy (strip_visible Hvis)) as Ht. rewrite Ht.
    cbn [skills with_skills]. unfold insert_front.
    destruct (join_starts (lit ", ") (strip sk) (skills st)) as [tail Ej].
    split; [reflexivity|]. split; [|split].
    + rewrite build_html_layout.
      apply (@contains_layout _ _ Skills); [simpl; tauto|].
      unfold export_section. cbn [skills with_skills truthy].
      rewrite Ej, escape_app.
      rewrite <- app_assoc, app_assoc.
      apply contains_app_r, contains_self.
    + intro Hacc. rewrite (docx_handler_accepted Hacc).
      rewrite build_docx_layout. unfold layout, DOCX_ORDER. cbn [flat_map].
      exists (docx_section lib (with_skills (strip sk :: skills st) st) Identity
                ++ docx_section lib (with_skills (strip sk :: skills st) st) Summary
                ++ docx_section lib (with_skills (strip sk :: skills st) st) Photo
                ++ docx_section lib (with_skills (strip sk :: skills st) st) Education
                ++ docx_section lib (with_skills (strip sk :: skills st) st) Experience),
        tail.
      rewrite app_nil_r, <- !app_assoc.
      do 6 f_equal. unfold docx_section. cbn [skills with_skills truthy].
      rewrite Ej. unfold text_runs.
      destruct (strip sk); [discriminate Ht | reflexivity].
    + intro Hrej.
      apply (@docx_handler_raises lib (with_skills (strip sk :: skills st) st)
               (join (lit ", ") (strip sk :: skills st))); [|exact Hrej].
      apply (@skills_line_given lib (with_skills (strip sk :: skills st) st)).
      reflexivity.
Qed.

Lemma add_skill_rendered_witness :
  skills (add_skill (lit "  Welding ") ada) = strip (lit "  Welding ") :: skills ada
  /\ contains (build_html (add_skill (lit "  Welding ") ada))
              (lit "<h2>Skills</h2><div>" ++ escape (strip (lit "  Welding "))) = true
  /\ exists before tail,
      docx_handler default_library (add_skill (lit "  Welding ") ada)
      = Some (before ++ [Heading 1 (lit "Skills");
                         Paragraph None [(strip (lit "  Welding ") ++ tail, false)]]).
Proof.
  destruct (proj2 (add_skill_rendered default_library (lit "  Welding ") ada))
    as [Hskills [Hhtml [Hdocx _]]].
  - exists 87%N. split; [vm_compute; tauto | reflexivity].
  - split; [exact Hskills|]. split; [exact Hhtml|].
    apply Hdocx. reflexivity.
Defined.

(** A skill with a backspace inside, which [strip] keeps: python-docx raises
    on the line of skills and the handler ends without a document. *)
Example add_skill_control_character :
  skills (add_skill (lit "Weld" ++ [8%N] ++ lit "ing") ada)
  = [lit "Weld" ++ [8%N] ++ lit "ing"; lit "Mathematics"]
  /\ docx_handler default_library (add_skill (lit "Weld" ++ [8%N] ++ lit "ing") ada)
     = None.
Proof. split; reflexivity. Qed.
